(** * Retrieval-augmented generation pipelines over Milvus and Ollama

    A shallow embedding of the four Python programs of the repository

      - [RAGpipeline.py]              (module [RAGpipeline])
      - [pipelinewithHYDE.py]         (module [HyDE])
      - [pipelinewithsupervision.py]  (module [Supervised])
      - [Doc2DB.py]                   (module [Doc2DB])

    and the properties of their query and ingestion paths.

    Python values are embedded as an inductive type, Python exceptions as
    a result type, and the three external services (the HTTP client
    [requests], the Milvus collection and the [json] parser) as an
    interface whose behaviour is left arbitrary: every theorem is
    quantified over all the answers the services may give. *)

From Stdlib Require Import Ascii String Strings.Byte SpecFloat.
From Stdlib Require Import List ZArith NArith Bool Arith Lia.
Import ListNotations.

Set Implicit Arguments.

(** ** Python strings *)

(** A Python [str] is a sequence of Unicode code points. *)
Definition pystr := list N.

(** A Python [bytes] object. *)
Definition pybytes := list byte.

Definition is_cont (b : N) : bool := ((128 <=? b) && (b <=? 191))%N.

(** [bytes.decode("utf-8")] in strict mode: [None] stands for
    [UnicodeDecodeError]. *)
Fixpoint decode_utf8 (bs : pybytes) : option pystr :=
  match bs with
  | [] => Some []
  | b0 :: r0 =>
    let n0 := Byte.to_N b0 in
    if (n0 <? 128)%N then option_map (cons n0) (decode_utf8 r0)
    else if ((194 <=? n0) && (n0 <=? 223))%N then
      match r0 with
      | b1 :: r1 =>
        let n1 := Byte.to_N b1 in
        if is_cont n1
        then option_map (cons ((n0 - 192) * 64 + (n1 - 128))%N) (decode_utf8 r1)
        else None
      | _ => None
      end
    else if ((224 <=? n0) && (n0 <=? 239))%N then
      match r0 with
      | b1 :: b2 :: r2 =>
        let n1 := Byte.to_N b1 in
        let n2 := Byte.to_N b2 in
        let cp := ((n0 - 224) * 4096 + (n1 - 128) * 64 + (n2 - 128))%N in
        if is_cont n1 && is_cont n2 && (2048 <=? cp)%N
           && negb ((55296 <=? cp) && (cp <=? 57343))%N
        then option_map (cons cp) (decode_utf8 r2)
        else None
      | _ => None
      end
    else if ((240 <=? n0) && (n0 <=? 244))%N then
      match r0 with
      | b1 :: b2 :: b3 :: r3 =>
        let n1 := Byte.to_N b1 in
        let n2 := Byte.to_N b2 in
        let n3 := Byte.to_N b3 in
        let cp := ((n0 - 240) * 262144 + (n1 - 128) * 4096
                   + (n2 - 128) * 64 + (n3 - 128))%N in
        if is_cont n1 && is_cont n2 && is_cont n3
           && (65536 <=? cp)%N && (cp <=? 1114111)%N
        then option_map (cons cp) (decode_utf8 r3)
        else None
      | _ => None
      end
    else None
  end.

(** String literals of the sources, written as in the sources. *)
Definition u (s : string) : pystr :=
  match decode_utf8 (list_byte_of_string s) with
  | Some l => l
  | None => []
  end.
Arguments u s%_string : simpl never.

Definition str_eqb (a b : pystr) : bool :=
  if list_eq_dec N.eq_dec a b then true else false.

(** [str.isspace] on one character, which is what [str.strip()] removes. *)
Definition isspace (c : N) : bool :=
  (((9 <=? c) && (c <=? 13)) || ((28 <=? c) && (c <=? 32))
   || (c =? 133) || (c =? 160) || (c =? 5760)
   || ((8192 <=? c) && (c <=? 8202))
   || (c =? 8232) || (c =? 8233) || (c =? 8239) || (c =? 8287)
   || (c =? 12288))%N.

Fixpoint lstrip (s : pystr) : pystr :=
  match s with
  | [] => []
  | c :: r => if isspace c then lstrip r else s
  end.

Definition rstrip (s : pystr) : pystr := rev (lstrip (rev s)).

(** [s.strip()] *)
Definition strip (s : pystr) : pystr := rstrip (lstrip s).

(** [s.startswith(p)] *)
Fixpoint startswith (s p : pystr) : bool :=
  match p, s with
  | [], _ => true
  | a :: p', b :: s' => (a =? b)%N && startswith s' p'
  | _ :: _, [] => false
  end.

(** [needle in hay] on strings *)
Fixpoint str_in (needle hay : pystr) : bool :=
  startswith hay needle ||
  match hay with
  | [] => false
  | _ :: r => str_in needle r
  end.

(** [sep.join(parts)] *)
Fixpoint join (sep : pystr) (parts : list pystr) : pystr :=
  match parts with
  | [] => []
  | [p] => p
  | p :: r => p ++ sep ++ join sep r
  end.

(** [s[i:j]] for [0 <= i <= j] *)
Definition slice {A} (s : list A) (i j : nat) : list A :=
  firstn (j - i) (skipn i s).

(** ** Python values *)

(** The values that travel through the programs: what [json] produces
    and consumes ([float] as an IEEE 754 datum).  A [dict] keeps its
    entries in insertion order, with distinct keys. *)
#[warnings="-register-all"]
Inductive pyval : Type :=
| PNone
| PBool (b : bool)
| PInt (z : Z)
| PFloat (f : spec_float)
| PStr (s : pystr)
| PList (l : list pyval)
| PDict (d : list (pystr * pyval)).

Definition pydict := list (pystr * pyval).

(** ** Exceptions *)

(** The exception classes the programs can meet, all below [Exception].
    The first four are the [requests.exceptions] classes, which derive
    from [RequestException]; [RequestsJSONDecodeError] also derives from
    [json.JSONDecodeError]. *)
Inductive exn_class : Type :=
| RequestException
| ConnectionError
| HTTPError
| ChunkedEncodingError
| RequestsJSONDecodeError
| JSONDecodeError
| UnicodeDecodeError
| KeyError
| IndexError
| TypeError
| AttributeError
| ValueError
| MilvusException
| OtherException.

(** An exception object: its class and [str(e)]. *)
Record exn : Type := mkExn { exn_cls : exn_class; exn_str : pystr }.

(** [isinstance(e, requests.exceptions.RequestException)] *)
Definition is_RequestException (e : exn) : bool :=
  match exn_cls e with
  | RequestException | ConnectionError | HTTPError
  | ChunkedEncodingError | RequestsJSONDecodeError => true
  | _ => false
  end.

(** [isinstance(e, Exception)] *)
Definition is_Exception (e : exn) : bool := true.

(** The outcome of evaluating an expression: a value or a raised
    exception. *)
Inductive result (A : Type) : Type :=
| Ret (a : A)
| Raise (e : exn).
Arguments Ret {A} a.
Arguments Raise {A} e.

(** Exceptions raised by the interpreter itself carry the offending
    name as their text. *)
Definition raise_ {A} (c : exn_class) (what : string) : result A :=
  Raise (mkExn c (u what)).
Arguments raise_ {A} c what%_string.

(** ** Operations of the Python data model *)

(** [bool(v)] *)
Definition truthy (v : pyval) : bool :=
  match v with
  | PNone => false
  | PBool b => b
  | PInt z => negb (z =? 0)%Z
  | PFloat (S754_zero _) => false
  | PFloat _ => true
  | PStr s => negb (Nat.eqb (length s) 0)
  | PList l => negb (Nat.eqb (length l) 0)
  | PDict d => negb (Nat.eqb (length d) 0)
  end.

(** [isinstance(v, list)] *)
Definition is_list (v : pyval) : bool :=
  match v with PList _ => true | _ => false end.

(** [len(v)] *)
Definition py_len (v : pyval) : result nat :=
  match v with
  | PStr s => Ret (length s)
  | PList l => Ret (length l)
  | PDict d => Ret (length d)
  | _ => raise_ TypeError "len"
  end.

Fixpoint dict_lookup (d : pydict) (k : pystr) : option pyval :=
  match d with
  | [] => None
  | (k', v) :: r => if str_eqb k' k then Some v else dict_lookup r k
  end.

(** [k in d] *)
Definition dict_mem (d : pydict) (k : pystr) : bool :=
  match dict_lookup d k with Some _ => true | None => false end.

(** [d[k] = v] *)
Fixpoint dict_set (d : pydict) (k : pystr) (v : pyval) : pydict :=
  match d with
  | [] => [(k, v)]
  | (k', v') :: r =>
    if str_eqb k' k then (k', v) :: r else (k', v') :: dict_set r k v
  end.

(** [v.get(k, default)]: only a [dict] has the method. *)
Definition py_get (v : pyval) (k : pystr) (default : pyval) : result pyval :=
  match v with
  | PDict d =>
    match dict_lookup d k with
    | Some x => Ret x
    | None => Ret default
    end
  | _ => raise_ AttributeError "get"
  end.

(** [v[k]] with a string key. *)
Definition py_getitem (v : pyval) (k : pystr) : result pyval :=
  match v with
  | PDict d =>
    match dict_lookup d k with
    | Some x => Ret x
    | None => Raise (mkExn KeyError k)
    end
  | _ => raise_ TypeError "subscript"
  end.

(** [v[0]] *)
Definition py_getitem0 (v : pyval) : result pyval :=
  match v with
  | PList (x :: _) => Ret x
  | PList [] => raise_ IndexError "list index out of range"
  | PStr (c :: _) => Ret (PStr [c])
  | PStr [] => raise_ IndexError "string index out of range"
  | PDict _ => raise_ KeyError "0"
  | _ => raise_ TypeError "subscript"
  end.

(** [v[:n]] *)
Definition py_slice_to (v : pyval) (n : nat) : result pyval :=
  match v with
  | PStr s => Ret (PStr (firstn n s))
  | PList l => Ret (PList (firstn n l))
  | _ => raise_ TypeError "slice"
  end.

(** [v.strip()]: only a [str] has the method. *)
Definition py_strip (v : pyval) : result pystr :=
  match v with
  | PStr s => Ret (strip s)
  | _ => raise_ AttributeError "strip"
  end.

(** [acc += v] for a string [acc]. *)
Definition py_iadd_str (acc : pystr) (v : pyval) : result pystr :=
  match v with
  | PStr s => Ret (acc ++ s)
  | _ => raise_ TypeError "can only concatenate str to str"
  end.

(** [[0.0] * n] *)
Definition zero_vector (n : nat) : pyval :=
  PList (repeat (PFloat (S754_zero false)) n).

(** ** The external services *)

(** What a [requests.Response] answers to the three methods the
    programs call.  [raise_for_status] raises [HTTPError] for a 4xx or
    5xx status; [json] may raise; the line iterator yields [iter_lines]
    and then ends, or raises [iter_error] when the transfer breaks. *)
Record Response : Type := {
  raise_for_status : option exn;
  json : result pyval;
  iter_lines : list pybytes;
  iter_error : option exn
}.

(** One hit of a Milvus search, with the requested output field, a
    [VARCHAR] of the collection schema. *)
Record Hit : Type := { hit_id : Z; text_segment : pystr }.

(** What the programs do to the outside, in order. *)
Inductive event : Type :=
| EvPost (url : pystr) (payload : pyval) (stream : bool)
| EvSearch (data : list pyval) (param : pyval) (limit : Z)
| EvInsert (data : pyval)
| EvRead (path : pystr).

(** The services as an interface over an arbitrary state of the outside
    world.  [json_loads] is [json.loads]: [None] stands for
    [json.JSONDecodeError].  [read_document] stands for the three text
    extractors of [Doc2DB.process_file]: [None] for an extension that is
    not supported. *)
Class Services (World : Type) : Type := {
  requests_post : pystr -> pyval -> bool -> World -> result Response * World;
  collection_search :
    list pyval -> pyval -> Z -> World -> result (list (list Hit)) * World;
  collection_insert : pyval -> World -> result unit * World;
  read_document : pystr -> World -> result (option pystr) * World;
  json_loads : pystr -> option pyval
}.

(** ** The machine: state and exceptions *)

Section Machine.
Context {World : Type} `{Services World}.

(** The state a call runs in: the outside world, the trace of the
    calls made so far, and the [dict] object the caller of [pipe]
    passes as [body], which [pipe] updates in place. *)
Record St : Type := mkSt {
  world : World;
  trace : list event;
  body : pydict
}.

Definition M (A : Type) : Type := St -> result A * St.

Definition ret {A} (a : A) : M A := fun st => (Ret a, st).

Definition raise {A} (e : exn) : M A := fun st => (Raise e, st).

Definition bind {A B} (c : M A) (k : A -> M B) : M B :=
  fun st =>
    match c st with
    | (Ret a, st') => k a st'
    | (Raise e, st') => (Raise e, st')
    end.

Definition lift {A} (r : result A) : M A := fun st => (r, st).

(** [try: c  except <class>: h], the class given by its [isinstance]
    test. *)
Definition try_except {A} (c : M A) (cls : exn -> bool) (h : exn -> M A)
  : M A :=
  fun st =>
    match c st with
    | (Ret a, st') => (Ret a, st')
    | (Raise e, st') => if cls e then h e st' else (Raise e, st')
    end.

(** [try: c  except <class1>: h1  except <class2>: h2] *)
Definition try_except2 {A} (c : M A)
    (cls1 : exn -> bool) (h1 : exn -> M A)
    (cls2 : exn -> bool) (h2 : exn -> M A) : M A :=
  fun st =>
    match c st with
    | (Ret a, st') => (Ret a, st')
    | (Raise e, st') =>
      if cls1 e then h1 e st'
      else if cls2 e then h2 e st'
      else (Raise e, st')
    end.

(** [requests.post(url=url, json=payload, stream=stream)] *)
Definition post (url : pystr) (payload : pyval) (stream : bool)
  : M Response :=
  fun st =>
    let '(r, w) := requests_post url payload stream (world st) in
    (r, mkSt w (trace st ++ [EvPost url payload stream]) (body st)).

(** [collection.search(data=data, anns_field="embeddings", param=param,
    limit=limit, output_fields=["text_segment"])] *)
Definition search (data : list pyval) (param : pyval) (limit : Z)
  : M (list (list Hit)) :=
  fun st =>
    let '(r, w) := collection_search data param limit (world st) in
    (r, mkSt w (trace st ++ [EvSearch data param limit]) (body st)).

(** [collection.insert(data)] *)
Definition insert (data : pyval) : M unit :=
  fun st =>
    let '(r, w) := collection_insert data (world st) in
    (r, mkSt w (trace st ++ [EvInsert data]) (body st)).

Definition read (path : pystr) : M (option pystr) :=
  fun st =>
    let '(r, w) := read_document path (world st) in
    (r, mkSt w (trace st ++ [EvRead path]) (body st)).

(** [response.raise_for_status()] *)
Definition check_status (r : Response) : M unit :=
  match raise_for_status r with
  | None => ret tt
  | Some e => raise e
  end.

Definition get_body : M pydict := fun st => (Ret (body st), st).

Definition set_body (d : pydict) : M unit :=
  fun st => (Ret tt, mkSt (world st) (trace st) d).
End Machine.

Arguments St World : clear implicits.
Arguments M World A : clear implicits.

Declare Scope py_scope.
Delimit Scope py_scope with py.
Notation "x <- c ;; k" := (bind c (fun x => k))
  (at level 61, c at next level, right associativity) : py_scope.
Notation "c ;;; k" := (bind c (fun _ => k))
  (at level 61, right associativity) : py_scope.
Open Scope py_scope.

(** Sequencing of pure, fallible steps. *)
Definition rbind {A B} (r : result A) (k : A -> result B) : result B :=
  match r with
  | Ret a => k a
  | Raise e => Raise e
  end.
Notation "'let?' x := r 'in' k" := (rbind r (fun x => k))
  (at level 10, x name, r at level 100, k at level 200) : py_scope.

(** [l[0]] on a sequence of hit lists. *)
Definition list_getitem0 {A} (l : list A) : result A :=
  match l with
  | x :: _ => Ret x
  | [] => raise_ IndexError "list index out of range"
  end.

Definition nl : pystr := [10%N].

(** What [pipe] returns: a value (a string or the decoded JSON body) or
    the line iterator of the response, which has not been consumed yet. *)
Inductive pipe_value : Type :=
| Value (v : pyval)
| Lines (lines : list pybytes) (err : option exn).

Section PipeCommon.
Context {World : Type} `{Services World}.

(** [body['messages'] = []] *)
Definition clear_messages : M World unit :=
  b <- get_body ;;
  set_body (dict_set b (u "messages") (PList [])).

(** [body['messages'].append(turn)] *)
Definition messages_append (turn : pyval) : M World unit :=
  b <- get_body ;;
  msgs <- lift (py_getitem (PDict b) (u "messages")) ;;
  match msgs with
  | PList l => set_body (dict_set b (u "messages") (PList (l ++ [turn])))
  | _ => lift (raise_ AttributeError "append")
  end.

(** The logging block [if "user" in body: print(...)], of which the
    model keeps the two lookups [body["user"]["name"]] and
    [body["user"]["id"]]. *)
Definition print_user : M World unit :=
  b <- get_body ;;
  if dict_mem b (u "user") then
    usr <- lift (py_getitem (PDict b) (u "user")) ;;
    _ <- lift (py_getitem usr (u "name")) ;;
    usr' <- lift (py_getitem (PDict b) (u "user")) ;;
    _ <- lift (py_getitem usr' (u "id")) ;;
    ret tt
  else ret tt.

(** [{"role": "user", "content": combined_message}] *)
Definition user_turn (combined_message : pystr) : pyval :=
  PDict [(u "role", PStr (u "user")); (u "content", PStr combined_message)].
End PipeCommon.

(** ** [RAGpipeline.py] *)

Module RAGpipeline.

Record Valves : Type := {
  MILVUS_HOST : pystr;
  MILVUS_PORT : pystr;
  COLLECTION_NAME : pystr;
  OLLAMA_HOST : pystr;
  EMBEDDING_MODEL : pystr;
  LLM_MODEL : pystr;
  PROMPT : pystr
}.

Definition default_valves : Valves := {|
  MILVUS_HOST := u "localhost";
  MILVUS_PORT := u "19530";
  COLLECTION_NAME := u "RAGDB";
  OLLAMA_HOST := u "http://localhost:11434";
  EMBEDDING_MODEL := u "theepicdev/nomic-embed-text:v1.5-q6_K";
  LLM_MODEL := u "qwen2:72b";
  PROMPT := u "你是一个知识丰富的助手，能够回答各种问题。"
|}.

Section Pipeline.
Context {World : Type} `{Services World}.
(** [self.valves] *)
Variable valves : Valves.

Definition generate_embedding (text : pystr) : M World pyval :=
  try_except
    (response <- post (OLLAMA_HOST valves ++ u "/api/embeddings")
                   (PDict [(u "model", PStr (EMBEDDING_MODEL valves));
                           (u "prompt", PStr text)])
                   false ;;
     check_status response ;;;
     j <- lift (json response) ;;
     embedding <- lift (py_get j (u "embedding") (PList [])) ;;
     ret embedding)
    is_Exception
    (fun _ => ret (zero_vector 512)).

Definition search_params : pyval :=
  PDict [(u "metric_type", PStr (u "L2"));
         (u "params", PDict [(u "nprobe", PInt 10)])].

Definition retrieve_relevant_information (user_message : pystr)
  : M World (list pystr) :=
  user_vector <- generate_embedding user_message ;;
  results <- search [user_vector] search_params 5 ;;
  hits <- lift (list_getitem0 results) ;;
  ret (map text_segment hits).

Definition combine_user_message_with_context
    (user_message : pystr) (contexts : list pystr) : pystr :=
  PROMPT valves ++ (nl ++ nl) ++ user_message ++ (nl ++ nl)
    ++ join nl contexts.

(** The first half of [pipe], up to the [try]: the message list of
    [body] is emptied, the contexts are retrieved, the one user turn
    is appended, and the logging block runs. *)
Definition augment (user_message : pystr) : M World unit :=
  clear_messages ;;;
  retrieved_contexts <- retrieve_relevant_information user_message ;;
  let combined_message :=
    combine_user_message_with_context user_message retrieved_contexts in
  messages_append (user_turn combined_message) ;;;
  print_user.

Definition pipe (user_message model_id : pystr) (messages : list pyval)
  : M World pipe_value :=
  augment user_message ;;;
  try_except
    (b <- get_body ;;
     r <- post (OLLAMA_HOST valves ++ u "/v1/chat/completions")
            (PDict (dict_set b (u "model") (PStr (LLM_MODEL valves))))
            true ;;
     check_status r ;;;
     stream <- lift (py_getitem (PDict b) (u "stream")) ;;
     if truthy stream
     then ret (Lines (iter_lines r) (iter_error r))
     else (j <- lift (json r) ;; ret (Value j)))
    is_Exception
    (fun e => ret (Value (PStr (u "Error: " ++ exn_str e)))).
End Pipeline.
End RAGpipeline.

(** ** [pipelinewithHYDE.py] *)

Module HyDE.

Record Valves : Type := {
  MILVUS_HOST : pystr;
  MILVUS_PORT : pystr;
  COLLECTION_NAME : pystr;
  OLLAMA_HOST : pystr;
  EMBEDDING_MODEL : pystr;
  LLM_MODEL : pystr;
  PROMPT : pystr
}.

Definition default_valves : Valves := {|
  MILVUS_HOST := u "localhost";
  MILVUS_PORT := u "19530";
  COLLECTION_NAME := u "DB";
  OLLAMA_HOST := u "http://localhost:11434";
  EMBEDDING_MODEL := u "mxbai-embed-large:latest";
  LLM_MODEL := u "qwen2:72b";
  PROMPT := u "<扮演角色>你的知识库包含上市公司信息披露，公司管理、投资和辅助决策方面的信息，你需要帮助用户了解用户所需要了解的在公司管理等方面的知识，同时当用户在公司管理方面有问题时给予用户需要决策辅助或建议。</扮演角色>## 回答要求-只回答用户询问的内容，不要提及给予的任何信息或背景。-不要在给用户的答案中提及模板、提示词或已知信息。-请使用专业的语言来回答用户的问题。-如果你不知道答案，请回答“小秘正在学习相关知识中，您可以前往官方网站或联系相关管理人员获取您需要的知识”。-请使用与问题相同的语言来回答。-如果需要返回链接，将链接设置为可以点击的格式。"
|}.

Section Pipeline.
Context {World : Type} `{Services World}.
Variable valves : Valves.

Definition generate_embedding (text : pystr) : M World pyval :=
  try_except
    (response <- post (OLLAMA_HOST valves ++ u "/api/embeddings")
                   (PDict [(u "model", PStr (EMBEDDING_MODEL valves));
                           (u "prompt", PStr text);
                           (u "output_dim", PInt 1024)])
                   false ;;
     check_status response ;;;
     j <- lift (json response) ;;
     embedding <- lift (py_get j (u "embedding") (PList [])) ;;
     ret embedding)
    is_Exception
    (fun _ => ret (zero_vector 1024)).

Definition generate_hypothetical_question (text_block : pystr)
  : M World pystr :=
  response <- post (OLLAMA_HOST valves ++ u "/v1/completions")
                 (PDict [(u "model", PStr (LLM_MODEL valves));
                         (u "prompt",
                          PStr (u "为以下文本块生成一个假设性问题：" ++ (nl ++ nl)
                                ++ text_block))])
                 false ;;
  check_status response ;;;
  j <- lift (json response) ;;
  choices <- lift (py_get j (u "choices") (PList [PDict []])) ;;
  choice <- lift (py_getitem0 choices) ;;
  text <- lift (py_get choice (u "text") (PStr [])) ;;
  lift (py_strip text).

Definition generate_hypothetical_answer (user_message : pystr)
  : M World pystr :=
  response <- post (OLLAMA_HOST valves ++ u "/v1/completions")
                 (PDict [(u "model", PStr (LLM_MODEL valves));
                         (u "prompt",
                          PStr (u "基于以下问题生成一个假设性回答：" ++ (nl ++ nl)
                                ++ user_message))])
                 false ;;
  check_status response ;;;
  j <- lift (json response) ;;
  choices <- lift (py_get j (u "choices") (PList [PDict []])) ;;
  choice <- lift (py_getitem0 choices) ;;
  text <- lift (py_get choice (u "text") (PStr [])) ;;
  lift (py_strip text).

Definition search_params : pyval :=
  PDict [(u "metric_type", PStr (u "IP"));
         (u "params", PDict [(u "nprobe", PInt 10)])].

Definition retrieve_relevant_information (user_message : pystr)
  : M World (list pystr) :=
  user_vector <- generate_embedding user_message ;;
  hypothetical_answer <- generate_hypothetical_answer user_message ;;
  hypothetical_vector <- generate_embedding hypothetical_answer ;;
  results <- search [user_vector; hypothetical_vector] search_params 5 ;;
  hits <- lift (list_getitem0 results) ;;
  ret (map text_segment hits).

Definition combine_user_message_with_context
    (user_message : pystr) (contexts : list pystr) : pystr :=
  PROMPT valves ++ (nl ++ nl) ++ u "这是用户问题：" ++ (nl ++ nl)
    ++ user_message ++ (nl ++ nl)
    ++ u "这是你学习的内容，回答时请不要提及从此获取的信息："
    ++ join nl contexts.

(** The first half of [pipe], up to the [try]: the message list of
    [body] is emptied, the contexts are retrieved, the one user turn
    is appended, and the logging block runs. *)
Definition augment (user_message : pystr) : M World unit :=
  clear_messages ;;;
  retrieved_contexts <- retrieve_relevant_information user_message ;;
  let combined_message :=
    combine_user_message_with_context user_message retrieved_contexts in
  messages_append (user_turn combined_message) ;;;
  print_user.

Definition pipe (user_message model_id : pystr) (messages : list pyval)
  : M World pipe_value :=
  augment user_message ;;;
  try_except
    (b <- get_body ;;
     r <- post (OLLAMA_HOST valves ++ u "/v1/chat/completions")
            (PDict (dict_set b (u "model") (PStr (LLM_MODEL valves))))
            true ;;
     check_status r ;;;
     stream <- lift (py_getitem (PDict b) (u "stream")) ;;
     if truthy stream
     then ret (Lines (iter_lines r) (iter_error r))
     else (j <- lift (json r) ;; ret (Value j)))
    is_Exception
    (fun e => ret (Value (PStr (u "Error: " ++ exn_str e)))).
End Pipeline.
End HyDE.

(** ** [pipelinewithsupervision.py] *)

Module Supervised.

Record Valves : Type := {
  MILVUS_HOST : pystr;
  MILVUS_PORT : pystr;
  COLLECTION_NAME : pystr;
  OLLAMA_HOST : pystr;
  EMBEDDING_MODEL : pystr;
  LLM_MODEL : pystr;
  PROMPT : pystr;
  SUPERVISION_PROMPT : pystr
}.

Definition default_valves : Valves := {|
  MILVUS_HOST := u "localhost";
  MILVUS_PORT := u "19530";
  COLLECTION_NAME := u "DB";
  OLLAMA_HOST := u "http://localhost:11434";
  EMBEDDING_MODEL := u "mxbai-embed-large:latest";
  LLM_MODEL := u "qwen2:72b";
  PROMPT := u "<扮演角色>你的知识库包含上市公司信息披露，公司管理、投资和辅助决策方面的信息，你需要帮助用户了解用户所需要了解的在公司管理等方面的知识，同时当用户在公司管理方面有问题时给予用户需要决策辅助或建议。</扮演角色>## 回答要求-只回答用户询问的内容，不要提及给予的任何信息或背景。-不要在给用户的答案中提及模板、提示词或已知信息。-请使用专业的语言来回答用户的问题。-如果你不知道答案，请回答“小秘正在学习相关知识中，您可以前往官方网站或联系相关管理人员获取您需要的知识”。-请使用与问题相同的语言来回答。";
  SUPERVISION_PROMPT := u "<监督模型提示词>请根据以下用户问题和模型回答，判断该回答是否符合用户问题的要求"
|}.

(** The answer returned when no attempt is approved. *)
Definition exhausted_message : pystr :=
  u "正在学习相关知识中，您可以前往官方网站或联系相关管理人员获取您需要的知识。".

Definition max_retries : nat := 5.

Section Pipeline.
Context {World : Type} `{Services World}.
Variable valves : Valves.
(** Whether [connect_to_milvus] succeeded in [__init__]: when it did
    not, the instance has no attribute [collection]. *)
Variable has_collection : bool.

Definition generate_embedding (text : pystr) : M World pyval :=
  try_except
    (response <- post (OLLAMA_HOST valves ++ u "/api/embeddings")
                   (PDict [(u "model", PStr (EMBEDDING_MODEL valves));
                           (u "prompt", PStr text);
                           (u "output_dim", PInt 1024)])
                   false ;;
     check_status response ;;;
     j <- lift (json response) ;;
     embedding <- lift (py_get j (u "embedding") (PList [])) ;;
     n <- lift (py_len embedding) ;;
     if negb (Nat.eqb n 1024)
     then ret (zero_vector 1024)
     else ret embedding)
    is_Exception
    (fun _ => ret (zero_vector 1024)).

Definition search_params : pyval :=
  PDict [(u "metric_type", PStr (u "IP"));
         (u "params", PDict [(u "nprobe", PInt 10)])].

(** [self.collection.search(...)] *)
Definition self_collection_search (data : list pyval)
  : M World (list (list Hit)) :=
  if has_collection
  then search data search_params 10
  else lift (raise_ AttributeError "collection").

Definition retrieve_relevant_information (user_message : pystr)
  : M World (list pystr) :=
  user_vector <- generate_embedding user_message ;;
  try_except
    (results <- self_collection_search [user_vector] ;;
     if Nat.eqb (List.length results) 0
     then ret []
     else (hits <- lift (list_getitem0 results) ;;
           ret (map text_segment hits)))
    is_Exception
    (fun _ => ret []).

Definition combine_user_message_with_context
    (user_message : pystr) (contexts : list pystr) : pystr :=
  PROMPT valves ++ (nl ++ nl) ++ u "这是用户问题：" ++ (nl ++ nl)
    ++ user_message ++ (nl ++ nl)
    ++ u "这是你学习的内容，回答时请不要提及从此获取的信息："
    ++ join nl contexts.

Definition supervision_prompt_of (user_message generated_answer : pystr)
  : pystr :=
  SUPERVISION_PROMPT valves ++ nl
    ++ u "用户问题：" ++ user_message ++ nl
    ++ u "模型回答：" ++ generated_answer ++ nl
    ++ u "请判断上述回答是否符合用户问题的要求，并返回'true'或'false',返回示例：“true”。".

Definition supervise_answer (user_message generated_answer : pystr)
  : M World bool :=
  try_except
    (let supervision_prompt :=
       supervision_prompt_of user_message generated_answer in
     response <- post (OLLAMA_HOST valves ++ u "/v1/completions")
                   (PDict [(u "model", PStr (LLM_MODEL valves));
                           (u "prompt", PStr supervision_prompt)])
                   false ;;
     check_status response ;;;
     j <- lift (json response) ;;
     choices <- lift (py_get j (u "choices") (PList [PDict []])) ;;
     choice <- lift (py_getitem0 choices) ;;
     text <- lift (py_get choice (u "text") (PStr [])) ;;
     result <- lift (py_strip text) ;;
     ret (str_in (u "符合") result))
    is_Exception
    (fun _ => ret false).

(** [chunk.get("choices", [{}])[0].get("delta", {}).get("content", "")] *)
Definition delta_content_of (chunk : pyval) : result pyval :=
  let? choices := py_get chunk (u "choices") (PList [PDict []]) in
  let? choice := py_getitem0 choices in
  let? delta := py_get choice (u "delta") (PDict []) in
  py_get delta (u "content") (PStr []).

(** The loop [for line in r.iter_lines(): ...] of [pipe], started with
    the answer accumulated so far.  Leaving the loop by [break] gives
    the answer at once; an exception other than [json.JSONDecodeError]
    leaves the loop and the [while] around it. *)
Fixpoint consume_lines (lines : list pybytes) (err : option exn)
    (generated_answer : pystr) : result pystr :=
  match lines with
  | [] =>
    match err with
    | None => Ret generated_answer
    | Some e => Raise e
    end
  | line :: rest =>
    if Nat.eqb (List.length line) 0
    then consume_lines rest err generated_answer
    else
      match decode_utf8 line with
      | None => raise_ UnicodeDecodeError "utf-8"
      | Some line_str =>
        if startswith line_str (u "data: ") then
          let json_data := skipn (List.length (u "data: ")) line_str in
          if str_eqb (strip json_data) (u "[DONE]")
          then Ret generated_answer
          else
            match json_loads json_data with
            | None => consume_lines rest err generated_answer
            | Some chunk =>
              let? delta_content := delta_content_of chunk in
              let? answer := py_iadd_str generated_answer delta_content in
              consume_lines rest err answer
            end
        else consume_lines rest err generated_answer
      end
  end.

(** One pass through the body of [while retry_count < max_retries]:
    the generation request, the assembly of the streamed answer and
    the verdict of the supervisor. *)
Definition attempt (user_message : pystr) : M World (pystr * bool) :=
  b <- get_body ;;
  r <- post (OLLAMA_HOST valves ++ u "/v1/chat/completions")
         (PDict (dict_set b (u "model") (PStr (LLM_MODEL valves))))
         true ;;
  check_status r ;;;
  generated_answer <- lift (consume_lines (iter_lines r) (iter_error r) []) ;;
  is_valid <- supervise_answer user_message generated_answer ;;
  ret (generated_answer, is_valid).

(** The [while] loop, by the number [remaining] of passes left, which
    is [max_retries - retry_count]: the test [retry_count < max_retries]
    is [remaining <> 0] and [retry_count += 1] takes one off. *)
Fixpoint generation_loop (remaining : nat) (user_message : pystr)
  : M World pyval :=
  match remaining with
  | O => ret (PStr exhausted_message)
  | S remaining' =>
    a <- attempt user_message ;;
    if snd a
    then ret (PStr (fst a))
    else generation_loop remaining' user_message
  end.

(** The first half of [pipe], up to the [try]: the message list of
    [body] is emptied, the contexts are retrieved, the one user turn
    is appended, and the logging block runs. *)
Definition augment (user_message : pystr) : M World unit :=
  clear_messages ;;;
  retrieved_contexts <- retrieve_relevant_information user_message ;;
  let combined_message :=
    combine_user_message_with_context user_message retrieved_contexts in
  messages_append (user_turn combined_message) ;;;
  print_user.

Definition pipe (user_message model_id : pystr) (messages : list pyval)
  : M World pipe_value :=
  augment user_message ;;;
  try_except2
    (v <- generation_loop max_retries user_message ;; ret (Value v))
    is_RequestException
    (fun e => ret (Value (PStr (u "请求出错: " ++ exn_str e))))
    is_Exception
    (fun e => ret (Value (PStr (u "其他错误: " ++ exn_str e)))).
End Pipeline.
End Supervised.

(** ** Paths and files *)

(** [s.endswith(suffix)] *)
Definition endswith (s suffix : pystr) : bool :=
  startswith (rev s) (rev suffix).

(** [s.endswith((suffix1, suffix2, ...))] *)
Definition endswith_any (s : pystr) (suffixes : list pystr) : bool :=
  existsb (endswith s) suffixes.

(** [s.rfind(c)] for one character: the last index of [c] in [s], or
    [-1]. *)
Fixpoint rfind (c : N) (s : pystr) : Z :=
  match s with
  | [] => -1
  | x :: r =>
    let k := rfind c r in
    if (0 <=? k)%Z then (k + 1)%Z
    else if (x =? c)%N then 0%Z
    else (-1)%Z
  end.

(** [os.path.splitext(p)] of [posixpath]: the extension starts at the
    last dot of the last component, unless that component has only dots
    before it. *)
Definition splitext (p : pystr) : pystr * pystr :=
  let sepIndex := rfind 47 p in
  let dotIndex := rfind 46 p in
  if (sepIndex <? dotIndex)%Z then
    if existsb (fun c => negb (c =? 46)%N)
         (slice p (Z.to_nat (sepIndex + 1)) (Z.to_nat dotIndex))
    then (firstn (Z.to_nat dotIndex) p, skipn (Z.to_nat dotIndex) p)
    else (p, [])
  else (p, []).

(** What [Doc2DB.py] asks of the file system and of the document
    readers: [str.lower]; [os.path.getsize]; [time.sleep];
    [open(path, "r", encoding="utf-8").read()]; the paragraph texts of
    [Document(path)]; the page texts of [PdfFileReader(open(path, "rb"))]. *)
Class Files (World : Type) : Type := {
  str_lower : pystr -> pystr;
  os_path_getsize : pystr -> World -> result Z * World;
  time_sleep : Z -> World -> World;
  open_read : pystr -> World -> result pystr * World;
  docx_paragraphs : pystr -> World -> result (list pystr) * World;
  pdf_pages : pystr -> World -> result (list pystr) * World
}.

(** ** [Doc2DB.py] *)

Module Doc2DB.

(** [range(0, stop, step)] for a positive [step]: its
    [(stop + step - 1) // step] multiples of [step] from [0] on. *)
Definition py_range (stop step : nat) : list nat :=
  map (fun k => k * step) (seq 0 ((stop + step - 1) / step)).

(** [[text[i:i + segment_length]
      for i in range(0, len(text), segment_length)]].
    [range] raises [ValueError] for a zero step and is empty for a
    negative one. *)
Definition segments (text : pystr) (segment_length : Z)
  : result (list pystr) :=
  if (segment_length =? 0)%Z
  then raise_ ValueError "range() arg 3 must not be zero"
  else if (segment_length <? 0)%Z then Ret []
  else
    let L := Z.to_nat segment_length in
    Ret (map (fun i => slice text i (i + L)) (py_range (length text) L)).

(** The test [len(segment.strip()) == 0] of the loop. *)
Definition is_blank (segment : pystr) : bool :=
  Nat.eqb (length (strip segment)) 0.

Definition default_llm_model : pystr := u "qwen2:72b".
Definition default_base_url : pystr := u "http://localhost:11434".
Definition default_embedding_model : pystr :=
  u "theepicdev/nomic-embed-text:v1.5-q6_K".
Definition default_prompt : pystr := u "优化以下文段内容，去除无效信息".

Section Ingestion.
Context {World : Type} `{Services World}.

Definition summarize_text_with_llm (text : pystr) (prompt : pystr)
  : M World pyval :=
  try_except
    (let json_input :=
       PDict [(u "model", PStr default_llm_model);
              (u "messages",
               PList [PDict [(u "role", PStr (u "system"));
                             (u "content", PStr prompt)];
                      PDict [(u "role", PStr (u "user"));
                             (u "content", PStr text)]]);
              (u "stream", PBool false)] in
     response <- post (default_base_url ++ u "/v1/chat/completions")
                   json_input false ;;
     check_status response ;;;
     j <- lift (json response) ;;
     choices <- lift (py_get j (u "choices") (PList [])) ;;
     choice <- lift (py_getitem0 choices) ;;
     message <- lift (py_get choice (u "message") (PDict [])) ;;
     summarized_text <- lift (py_get message (u "content") (PStr [])) ;;
     ret summarized_text)
    is_RequestException
    (fun _ => ret (PStr text)).

Definition generate_embedding (text : pyval) : M World pyval :=
  try_except
    (let json_input :=
       PDict [(u "model", PStr default_embedding_model);
              (u "prompt", text)] in
     response <- post (default_base_url ++ u "/api/embeddings")
                   json_input false ;;
     check_status response ;;;
     j <- lift (json response) ;;
     embedding <- lift (py_get j (u "embedding") (PList [])) ;;
     ret embedding)
    is_RequestException
    (fun _ => ret (PList [])).

(** The part of the loop body after the summary: embedding, then
    insertion or the warning.  Both log lines evaluate
    [summarized_segment[:50]]. *)
Definition embed_and_insert (summarized_segment : pyval) : M World unit :=
  embedding <- generate_embedding summarized_segment ;;
  if truthy embedding && is_list embedding then
    try_except
      (let data_to_insert :=
         PList [PList [embedding]; PList [summarized_segment]] in
       insert data_to_insert ;;;
       _ <- lift (py_slice_to summarized_segment 50) ;;
       ret tt)
      is_Exception
      (fun _ => ret tt)
  else
    (_ <- lift (py_slice_to summarized_segment 50) ;; ret tt).

(** The body of [for segment in segments]. *)
Definition process_segment (prompt : pystr) (segment : pystr)
  : M World unit :=
  if is_blank segment then ret tt
  else
    (summarized_segment <- summarize_text_with_llm segment prompt ;;
     embed_and_insert summarized_segment).

Fixpoint process_segments (prompt : pystr) (segs : list pystr)
  : M World unit :=
  match segs with
  | [] => ret tt
  | segment :: rest =>
    process_segment prompt segment ;;;
    process_segments prompt rest
  end.

(** [process_file]: [read] stands for the extraction of the text by
    extension, [None] for the early return on an extension that is
    not supported. *)
Definition process_file (file_path : pystr) (segment_length : Z)
    (prompt : pystr) : M World unit :=
  try_except
    (doc <- read file_path ;;
     match doc with
     | None => ret tt
     | Some text =>
       segs <- lift (segments text segment_length) ;;
       process_segments prompt segs
     end)
    is_Exception
    (fun _ => ret tt).
End Ingestion.

Section Watcher.
Context {World : Type} (services : Services World) (files : Files World).

(** The first lines of [process_file]: the extension, lowered, chooses
    the reader; [None] is the branch [Unsupported file format]. *)
Definition extract_text (file_path : pystr) (w : World)
  : result (option pystr) * World :=
  let ext := str_lower (snd (splitext file_path)) in
  if str_eqb ext (u ".txt") then
    let '(r, w') := open_read file_path w in
    (rbind r (fun text => Ret (Some text)), w')
  else if str_eqb ext (u ".docx") then
    let '(r, w') := docx_paragraphs file_path w in
    (rbind r (fun paragraphs => Ret (Some (join nl paragraphs))), w')
  else if str_eqb ext (u ".pdf") then
    let '(r, w') := pdf_pages file_path w in
    (rbind r (fun pages => Ret (Some (join nl pages))), w')
  else (Ret None, w).

(** The services of the script: those of the model and of the store,
    with the documents read by [extract_text]. *)
Definition script_services : Services World := {|
  requests_post := @requests_post World services;
  collection_search := @collection_search World services;
  collection_insert := @collection_insert World services;
  read_document := extract_text;
  json_loads := @json_loads World services
|}.

(** [os.path.getsize(path)] *)
Definition getsize (path : pystr) : M World Z :=
  fun st =>
    let '(r, w) := os_path_getsize path (world st) in
    (r, mkSt w (trace st) (body st)).

(** [time.sleep(seconds)] *)
Definition sleep (seconds : Z) : M World unit :=
  fun st => (Ret tt, mkSt (time_sleep seconds (world st)) (trace st) (body st)).

(** The loop [while file_size == 0] of [on_created], by the number of
    polls allowed: [None] when the size is still zero after [fuel]
    polls. *)
Fixpoint wait_for_size (fuel : nat) (src_path : pystr) : M World (option Z) :=
  match fuel with
  | O => ret None
  | S fuel' =>
    file_size <- getsize src_path ;;
    if (file_size =? 0)%Z
    then (sleep 1 ;;; wait_for_size fuel' src_path)
    else ret (Some file_size)
  end.

Definition watched_suffixes : list pystr :=
  [u ".txt"; u ".doc"; u ".docx"; u ".pdf"].

(** [FileHandler.on_created], for an event with the fields
    [is_directory] and [src_path]: [None] when the polls run out. *)
Definition on_created (fuel : nat) (is_directory : bool) (src_path : pystr)
  : M World (option unit) :=
  if negb is_directory && endswith_any (str_lower src_path) watched_suffixes
  then
    (file_size <- wait_for_size fuel src_path ;;
     match file_size with
     | None => ret None
     | Some _ =>
       @process_file World script_services src_path 2000 default_prompt ;;;
       ret (Some tt)
     end)
  else ret (Some tt).
End Watcher.
End Doc2DB.

(** * Scripted environments

    Concrete instances of the services, used to run the programs on
    explicit inputs. *)

Module Scenario.

(** A script gives the answer of each service from the request; a post
    is also told how many posts were made before it.  The state of the
    scripted world is that number. *)
Record Script : Type := {
  on_post : nat -> pystr -> pyval -> result Response;
  on_search : list pyval -> result (list (list Hit));
  on_insert : pyval -> result unit;
  on_read : pystr -> result (option pystr)
}.

Definition b (s : string) : pybytes := list_byte_of_string s.
Arguments b s%_string.

(** The byte of the double quote. *)
Definition q : pybytes := [x22].

(** The JSON text [{"choices":[{"delta":{"content":"<content>"}}]}] of
    one streamed chunk, for a content without escapes. *)
Definition chunk_json (content : string) : pybytes :=
  b "{" ++ q ++ b "choices" ++ q ++ b ":[{" ++ q ++ b "delta" ++ q
    ++ b ":{" ++ q ++ b "content" ++ q ++ b ":" ++ q ++ b content ++ q
    ++ b "}}]}".
Arguments chunk_json content%_string.

Definition chunk_value (content : string) : pyval :=
  PDict [(u "choices",
          PList [PDict [(u "delta",
                         PDict [(u "content", PStr (u content))])]])].
Arguments chunk_value content%_string.

(** The line [data: <payload>] of a stream. *)
Definition data_line (payload : pybytes) : pybytes := b "data: " ++ payload.

(** The value of a completed chat whose content is [content]. *)
Definition chat_value (content : string) : pyval :=
  PDict [(u "choices",
          PList [PDict [(u "message",
                         PDict [(u "content", PStr (u content))])]])].
Arguments chat_value content%_string.

(** [json.loads] on the JSON texts of the scenarios; every other text
    the scenarios use is not JSON. *)
Definition loads_table : list (pybytes * pyval) :=
  [ (chunk_json "Hel", chunk_value "Hel");
    (chunk_json "lo", chunk_value "lo");
    (chunk_json "Hi", chunk_value "Hi");
    (b "{}", PDict []);
    (b "5", PInt 5) ].

Fixpoint loads_in (table : list (pybytes * pyval)) (text : pystr)
  : option pyval :=
  match table with
  | [] => None
  | (k, v) :: r =>
    match decode_utf8 k with
    | Some k' => if str_eqb k' text then Some v else loads_in r text
    | None => loads_in r text
    end
  end.

Definition loads : pystr -> option pyval := loads_in loads_table.

Definition services (s : Script) : Services nat := {|
  requests_post := fun url payload _ n => (on_post s n url payload, S n);
  collection_search := fun data _ _ n => (on_search s data, n);
  collection_insert := fun data n => (on_insert s data, n);
  read_document := fun path n => (on_read s path, n);
  json_loads := loads
|}.

(** The state a run starts in, with the caller's [body]. *)
Definition start (body : pydict) : St nat := mkSt 0 [] body.

(** Responses *)
Definition ok_json (v : pyval) : Response := {|
  raise_for_status := None;
  json := Ret v;
  iter_lines := [];
  iter_error := None
|}.

Definition ok_stream (lines : list pybytes) : Response := {|
  raise_for_status := None;
  json := Raise (mkExn RequestsJSONDecodeError (u "Extra data"));
  iter_lines := lines;
  iter_error := None
|}.

Definition server_error : Response := {|
  raise_for_status := Some (mkExn HTTPError (u "500 Server Error"));
  json := Raise (mkExn RequestsJSONDecodeError (u "Expecting value"));
  iter_lines := [];
  iter_error := None
|}.

(** The float [1.0] *)
Definition one : spec_float := S754_finite false 4503599627370496 (-52).

Definition embeddings_url : pystr := u "http://localhost:11434/api/embeddings".
Definition chat_url : pystr := u "http://localhost:11434/v1/chat/completions".
Definition completions_url : pystr := u "http://localhost:11434/v1/completions".

(** A completion whose text is [text]. *)
Definition completion (text : string) : Response :=
  ok_json (PDict [(u "choices", PList [PDict [(u "text", PStr (u text))]])]).
Arguments completion text%_string.

(** A healthy model service: a three-number embedding, the completion
    [guess], and a streamed answer [Hello]. *)
Definition healthy_post (n : nat) (url : pystr) (payload : pyval)
  : result Response :=
  if str_eqb url embeddings_url then
    Ret (ok_json (PDict [(u "embedding",
                          PList [PFloat one; PFloat one; PFloat one])]))
  else if str_eqb url completions_url then Ret (completion " guess ")
  else if str_eqb url chat_url then
    Ret (ok_stream [data_line (chunk_json "Hel"); data_line (chunk_json "lo");
                    data_line (b "[DONE]")])
  else Ret server_error.

(** The vector store is unreachable: every search raises. *)
Definition store_down : Script := {|
  on_post := healthy_post;
  on_search := fun _ => Raise (mkExn MilvusException (u "connection lost"));
  on_insert := fun _ => Raise (mkExn MilvusException (u "connection lost"));
  on_read := fun _ => Ret None
|}.

(** The store answers a search by one list of hits per query vector:
    segment [A] for the first vector, segment [B] for the second. *)
Definition store_two_lists : Script := {|
  on_post := healthy_post;
  on_search := fun data =>
    Ret (firstn (length data)
           [[ {| hit_id := 1; text_segment := u "A" |} ];
            [ {| hit_id := 2; text_segment := u "B" |} ]]);
  on_insert := fun _ => Ret tt;
  on_read := fun _ => Ret None
|}.

(** The model service is unreachable: every post raises. *)
Definition model_down : Script := {|
  on_post := fun _ _ _ => Raise (mkExn ConnectionError (u "connection refused"));
  on_search := fun _ => Ret [];
  on_insert := fun _ => Ret tt;
  on_read := fun _ => Ret None
|}.

(** The supervisor answers the post number [n] (counted over all the
    posts of the run) with the text [verdict_at n]; the rest of the
    model service is healthy and the store returns one hit. *)
Definition supervisor (verdict_at : nat -> string) : Script := {|
  on_post := fun n url payload =>
    if str_eqb url completions_url
    then Ret (completion (verdict_at n))
    else healthy_post n url payload;
  on_search := fun _ =>
    Ret [[ {| hit_id := 1; text_segment := u "X is defined as Y" |} ]];
  on_insert := fun _ => Ret tt;
  on_read := fun _ => Ret None
|}.


(** A stream with an empty line, a data frame that is not JSON, a
    comment line, and a chunk after the sentinel. *)
Definition noisy_stream : list pybytes :=
  [ data_line (chunk_json "Hel");
    [];
    data_line (b "{oops");
    b ": keep-alive";
    data_line (chunk_json "lo");
    data_line (b "[DONE]");
    data_line (chunk_json "Hi") ].

(** An ingestion where the first summary request gets a 500 answer, the
    later ones the summary [S], and where the store refuses every
    insertion.  The document read is [A. B. C.]. *)
Definition store_refuses : Script := {|
  on_post := fun n url payload =>
    if str_eqb url chat_url then
      match n with
      | O => Ret server_error
      | S _ => Ret (ok_json (chat_value "S"))
      end
    else healthy_post n url payload;
  on_search := fun _ => Ret [];
  on_insert := fun _ => Raise (mkExn MilvusException (u "insert refused"));
  on_read := fun _ => Ret (Some (u "A. B. C."))
|}.

Definition a_body : pydict :=
  [(u "stream", PBool true);
   (u "messages", PList [PDict [(u "role", PStr (u "user"));
                                (u "content", PStr (u "earlier question"))]])].
End Scenario.

(** * Vocabulary of the properties *)

(** What the embedding service sent back, looked at the way the
    programs do: [response.json().get("embedding", [])]. *)
Definition response_embedding (resp : Response) : result pyval :=
  let? j := json resp in py_get j (u "embedding") (PList []).

(** The embedding request failed: the post raised, or
    [raise_for_status] did. *)
Definition request_failed (r : result Response) : Prop :=
  match r with
  | Raise _ => True
  | Ret resp => raise_for_status resp <> None
  end.

(** The request failed with an exception of the class [cls]. *)
Definition request_failed_with (cls : exn -> bool) (r : result Response)
  : Prop :=
  match r with
  | Raise e => cls e = true
  | Ret resp => exists e, raise_for_status resp = Some e /\ cls e = true
  end.

(** [needle] occurs in [s]. *)
Definition infix (needle s : pystr) : Prop :=
  exists pre post, s = pre ++ needle ++ post.

(** The text of the supervision model's response, read the way
    [supervise_answer] reads it:
    [response.json().get("choices", [{}])[0].get("text", "")]. *)
Definition response_text (resp : Response) : result pyval :=
  let? j := json resp in
  let? choices := py_get j (u "choices") (PList [PDict []]) in
  let? choice := py_getitem0 choices in
  py_get choice (u "text") (PStr []).

(** The verdict is [True] exactly on a successful request whose
    response text holds the keyword. *)
Definition approves (r : result Response) (verdict : bool) : Prop :=
  verdict = true <->
  exists resp text,
    r = Ret resp /\ raise_for_status resp = None
    /\ response_text resp = Ret (PStr text)
    /\ infix (u "符合") text.


(** ** Frames of the streamed answer *)

Section Frames.
Context {World : Type} `{Services World}.

(** How the loop of [pipe] reads one line of the stream. *)
Inductive frame : Type :=
| Blank                   (* an empty line *)
| Undecodable             (* bytes that are not UTF-8 *)
| NoData                  (* a line without the marker [data: ] *)
| Done                    (* the sentinel: a payload that strips to [[DONE]] *)
| Unparseable             (* a data frame whose payload is not JSON *)
| Chunk (chunk : pyval).  (* a data frame whose payload parses *)

Definition classify (line : pybytes) : frame :=
  match line with
  | [] => Blank
  | _ :: _ =>
    match decode_utf8 line with
    | None => Undecodable
    | Some line_str =>
      if negb (startswith line_str (u "data: ")) then NoData
      else
        let payload := skipn 6 line_str in
        if str_eqb (strip payload) (u "[DONE]") then Done
        else
          match json_loads payload with
          | None => Unparseable
          | Some chunk => Chunk chunk
          end
    end
  end.

(** The incremental content fragment of a parsed chunk, when it has
    one. *)
Definition fragment (chunk : pyval) : option pystr :=
  match Supervised.delta_content_of chunk with
  | Ret (PStr s) => Some s
  | _ => None
  end.

(** The frames that precede the first sentinel. *)
Fixpoint before_done (frames : list frame) : list frame :=
  match frames with
  | [] => []
  | Done :: _ => []
  | f :: r => f :: before_done r
  end.

Definition has_done (frames : list frame) : bool :=
  existsb (fun f => match f with Done => true | _ => false end) frames.

Definition fragment_of (f : frame) : pystr :=
  match f with
  | Chunk chunk =>
    match fragment chunk with
    | Some s => s
    | None => []
    end
  | _ => []
  end.

(** The answer as the specification words it: the fragments of the
    parseable data frames before the first sentinel, in order. *)
Definition assembled (lines : list pybytes) : pystr :=
  concat (map fragment_of (before_done (map classify lines))).

(** A stream the loop reads to its end: before the sentinel every line
    decodes and every parsed chunk has a string fragment, and the
    transfer does not break before the sentinel. *)
Definition frame_ok (f : frame) : bool :=
  match f with
  | Undecodable => false
  | Chunk chunk =>
    match fragment chunk with
    | Some _ => true
    | None => false
    end
  | _ => true
  end.

Definition stream_ok (lines : list pybytes) (err : option exn) : Prop :=
  forallb frame_ok (before_done (map classify lines)) = true
  /\ (has_done (map classify lines) = true \/ err = None).
End Frames.

(** ** Calls in a trace *)

Definition is_post_to (url : pystr) (ev : event) : bool :=
  match ev with
  | EvPost url' _ _ => str_eqb url' url
  | _ => false
  end.

(** The number of posts to [url] in a trace. *)
Definition posts_to (url : pystr) (tr : list event) : nat :=
  length (filter (is_post_to url) tr).

Section SupervisedLoop.
Context {World : Type} `{Services World}.
Variable valves : Supervised.Valves.

(** The address of the generation requests. *)
Definition generation_url : pystr :=
  Supervised.OLLAMA_HOST valves ++ u "/v1/chat/completions".

Definition generation_calls (tr : list event) : nat :=
  posts_to generation_url tr.

(** The generation request made while the caller's [body] is [b]:
    [{**body, "model": LLM_MODEL}], streamed. *)
Definition generation_request (b : pydict) : event :=
  EvPost generation_url
    (PDict (dict_set b (u "model") (PStr (Supervised.LLM_MODEL valves))))
    true.

(** [rejected user_message n st st']: from [st], [n] passes of the loop
    in a row assemble an answer that the supervisor rejects, and leave
    the state [st']. *)
Inductive rejected (user_message : pystr)
  : nat -> St World -> St World -> Prop :=
| rejected_O : forall st, rejected user_message 0 st st
| rejected_S : forall n st answer st1 st2,
    Supervised.attempt valves user_message st = (Ret (answer, false), st1) ->
    rejected user_message n st1 st2 ->
    rejected user_message (S n) st st2.

End SupervisedLoop.

(** ** What a generation request carries *)

(** The message list in the payload of a post. *)
Definition sent_messages (ev : event) : option pyval :=
  match ev with
  | EvPost _ (PDict d) _ => dict_lookup d (u "messages")
  | _ => None
  end.

(** Every post to [url] among [evs] carries exactly the message list
    [msgs]. *)
Definition all_carry (url : pystr) (msgs : pyval) (evs : list event) : Prop :=
  Forall (fun ev => is_post_to url ev = true -> sent_messages ev = Some msgs)
    evs.

(** The address of the generation requests of [RAGpipeline.py]. *)
Definition base_generation_url (valves : RAGpipeline.Valves) : pystr :=
  RAGpipeline.OLLAMA_HOST valves ++ u "/v1/chat/completions".

(** ** Ingestion *)

(** The addresses and the payload of the requests of [Doc2DB.py]. *)
Definition summary_url : pystr :=
  Doc2DB.default_base_url ++ u "/v1/chat/completions".

Definition embedding_url : pystr :=
  Doc2DB.default_base_url ++ u "/api/embeddings".

Definition summary_payload (prompt text : pystr) : pyval :=
  PDict [(u "model", PStr Doc2DB.default_llm_model);
         (u "messages",
          PList [PDict [(u "role", PStr (u "system"));
                        (u "content", PStr prompt)];
                 PDict [(u "role", PStr (u "user"));
                        (u "content", PStr text)]]);
         (u "stream", PBool false)].

(** [[[embedding], [summarized_segment]]], the record given to the
    store. *)
Definition stored_record (embedding summarized_segment : pyval) : pyval :=
  PList [PList [embedding]; PList [summarized_segment]].

(** The records given to [collection.insert], in order. *)
Fixpoint insert_attempts (tr : list event) : list pyval :=
  match tr with
  | [] => []
  | EvInsert data :: r => data :: insert_attempts r
  | _ :: r => insert_attempts r
  end.

(** The segments that pass the blank test. *)
Definition non_blank (segs : list pystr) : list pystr :=
  filter (fun s => negb (Doc2DB.is_blank s)) segs.

(** ** Trimmed strings *)

(** A string that neither begins nor ends with white space. *)
Definition trimmed (s : pystr) : Prop :=
  (forall c r, s = c :: r -> isspace c = false)
  /\ (forall c r, rev s = c :: r -> isspace c = false).

(** The number of records given to the store in a trace. *)
Definition insert_count (tr : list event) : nat :=
  length (insert_attempts tr).

(** The calls a segment that is not blank can cost: a summary; a summary
    and an embedding; a summary, an embedding and an insertion. *)
Inductive segment_calls : list event -> Prop :=
| calls_summary : forall p,
    segment_calls [EvPost summary_url p false]
| calls_embedding : forall p q,
    segment_calls [EvPost summary_url p false; EvPost embedding_url q false]
| calls_insert : forall p q d,
    segment_calls [EvPost summary_url p false; EvPost embedding_url q false;
                   EvInsert d].


(** ** The watcher *)

(** [str.lower] on a character of the ASCII range. *)
Definition ascii_lower (c : N) : N :=
  if ((65 <=? c) && (c <=? 90))%N then (c + 32)%N else c.

Definition is_ascii (s : pystr) : Prop := Forall (fun c => (c < 128)%N) s.

(** [str_lower] agrees with Python on ASCII strings. *)
Definition lower_on_ascii {World : Type} (files : Files World) : Prop :=
  forall s, is_ascii s -> str_lower s = map ascii_lower s.

(** [zero_polls path k w w']: from the world [w], [k] polls of the size
    of [path] in a row answer zero, each followed by a sleep of one
    second, and leave the world [w']. *)
Inductive zero_polls {World : Type} (files : Files World) (path : pystr)
  : nat -> World -> World -> Prop :=
| zero_polls_O : forall w, zero_polls files path 0 w w
| zero_polls_S : forall k w w1 w2,
    os_path_getsize path w = (Ret 0%Z, w1) ->
    zero_polls files path k (time_sleep 1 w1) w2 ->
    zero_polls files path (S k) w w2.

(** ** The single generation request of [RAGpipeline.py] and [pipelinewithHYDE.py] *)

(** The string [f"Error: {e}"]. *)
Definition error_text (e : exn) : pipe_value :=
  Value (PStr (u "Error: " ++ exn_str e)).

(** [one_shot_outcome b r v]: [v] is what the [try] block of [pipe]
    gives for the answer [r] of the service while the caller's [body]
    is [b]. *)
Definition one_shot_outcome (b : pydict) (r : result Response)
    (v : pipe_value) : Prop :=
  (forall e, r = Raise e -> v = error_text e)
  /\ (forall resp e,
        r = Ret resp -> raise_for_status resp = Some e -> v = error_text e)
  /\ (forall resp,
        r = Ret resp -> raise_for_status resp = None ->
        (dict_lookup b (u "stream") = None ->
         exists e, exn_cls e = KeyError /\ v = error_text e)
        /\ (forall s,
              dict_lookup b (u "stream") = Some s -> truthy s = true ->
              v = Lines (iter_lines resp) (iter_error resp))
        /\ (forall s,
              dict_lookup b (u "stream") = Some s -> truthy s = false ->
              match json resp with
              | Ret j => v = Value j
              | Raise e => v = error_text e
              end)).

(** The address of the generation requests of [pipelinewithHYDE.py]. *)
Definition hyde_generation_url (valves : HyDE.Valves) : pystr :=
  HyDE.OLLAMA_HOST valves ++ u "/v1/chat/completions".

(** The number of searches in a trace. *)
Definition searches (tr : list event) : nat :=
  length (filter (fun ev => match ev with
                            | EvSearch _ _ _ => true
                            | _ => false
                            end) tr).

(** ** The logging block of [pipe] *)


(** ** Retrieval *)

(** The [IndexError] of [results[0]] on an empty list. *)
Definition out_of_range : exn :=
  mkExn IndexError (u "list index out of range").

(** The request for the hypothetical answer of [pipelinewithHYDE.py]. *)
Definition hypothetical_answer_request (valves : HyDE.Valves)
    (user_message : pystr) : pystr * pyval :=
  (HyDE.OLLAMA_HOST valves ++ u "/v1/completions",
   PDict [(u "model", PStr (HyDE.LLM_MODEL valves));
          (u "prompt",
           PStr (u "基于以下问题生成一个假设性回答：" ++ (nl ++ nl)
                 ++ user_message))]).

(** The request [r] failed with the exception [e]. *)
Definition request_raises (r : result Response) (e : exn) : Prop :=
  r = Raise e \/ exists resp, r = Ret resp /\ raise_for_status resp = Some e.

(** [s] is [text] without white space around it. *)
Definition trimming_of (text s : pystr) : Prop :=
  trimmed s
  /\ exists before after,
       text = before ++ s ++ after
       /\ forallb isspace before = true /\ forallb isspace after = true.

(** The request for the hypothetical question of [pipelinewithHYDE.py]. *)
Definition hypothetical_question_request (valves : HyDE.Valves)
    (text_block : pystr) : pystr * pyval :=
  (HyDE.OLLAMA_HOST valves ++ u "/v1/completions",
   PDict [(u "model", PStr (HyDE.LLM_MODEL valves));
          (u "prompt",
           PStr (u "为以下文本块生成一个假设性问题：" ++ (nl ++ nl)
                 ++ text_block))]).

(** * More scripted environments *)

Module Scenario2.

(** The summary service answers with a JSON object that has no
    [choices]; the document read is [A. B. C.]. *)
Definition summary_without_choices : Scenario.Script := {|
  Scenario.on_post := fun n url payload =>
    if str_eqb url Scenario.chat_url
    then Ret (Scenario.ok_json (PDict []))
    else Scenario.healthy_post n url payload;
  Scenario.on_search := fun _ => Ret [];
  Scenario.on_insert := fun _ => Ret tt;
  Scenario.on_read := fun _ => Ret (Some (u "A. B. C."))
|}.

(** A healthy ingestion: summaries [S], embeddings of three numbers, a
    store that accepts; the document read is [A. B. C.]. *)
Definition healthy_ingestion : Scenario.Script := {|
  Scenario.on_post := fun n url payload =>
    if str_eqb url Scenario.chat_url
    then Ret (Scenario.ok_json (Scenario.chat_value "S"))
    else Scenario.healthy_post n url payload;
  Scenario.on_search := fun _ => Ret [];
  Scenario.on_insert := fun _ => Ret tt;
  Scenario.on_read := fun _ => Ret (Some (u "A. B. C."))
|}.

(** The completion service is unreachable; the embeddings and the
    store answer. *)
Definition completions_down : Scenario.Script := {|
  Scenario.on_post := fun n url payload =>
    if str_eqb url Scenario.completions_url
    then Raise (mkExn ConnectionError (u "connection refused"))
    else Scenario.healthy_post n url payload;
  Scenario.on_search := fun _ =>
    Ret [[ {| hit_id := 1; text_segment := u "X is defined as Y" |} ]];
  Scenario.on_insert := fun _ => Ret tt;
  Scenario.on_read := fun _ => Ret None
|}.

(** The JSON texts [{"choices":[{"delta":{"content":null}}]}], a chunk
    whose content is [null], and [{"choices":[]}], a chunk without
    choices, with the values they parse to. *)
Definition null_content_json : pybytes :=
  Scenario.b "{" ++ Scenario.q ++ Scenario.b "choices" ++ Scenario.q
    ++ Scenario.b ":[{" ++ Scenario.q ++ Scenario.b "delta" ++ Scenario.q
    ++ Scenario.b ":{" ++ Scenario.q ++ Scenario.b "content" ++ Scenario.q
    ++ Scenario.b ":null}}]}".

Definition null_content_value : pyval :=
  PDict [(u "choices",
          PList [PDict [(u "delta", PDict [(u "content", PNone)])]])].

Definition empty_choices_json : pybytes :=
  Scenario.b "{" ++ Scenario.q ++ Scenario.b "choices" ++ Scenario.q
    ++ Scenario.b ":[]}".

Definition empty_choices_value : pyval := PDict [(u "choices", PList [])].

(** [json.loads] on the texts of [Scenario] and on these two. *)
Definition loads : pystr -> option pyval :=
  Scenario.loads_in
    (Scenario.loads_table
       ++ [(null_content_json, null_content_value);
           (empty_choices_json, empty_choices_value)]).

Definition services (s : Scenario.Script) : Services nat := {|
  requests_post := fun url payload _ n =>
    (Scenario.on_post s n url payload, S n);
  collection_search := fun data _ _ n => (Scenario.on_search s data, n);
  collection_insert := fun data n => (Scenario.on_insert s data, n);
  read_document := fun path n => (Scenario.on_read s path, n);
  json_loads := loads
|}.

(** The generation streams [lines]; the supervisor would approve any
    answer; the embeddings are healthy and the store returns one hit. *)
Definition streaming (lines : list pybytes) : Scenario.Script := {|
  Scenario.on_post := fun n url payload =>
    if str_eqb url Scenario.chat_url then Ret (Scenario.ok_stream lines)
    else if str_eqb url Scenario.completions_url
    then Ret (Scenario.completion "符合")
    else Scenario.healthy_post n url payload;
  Scenario.on_search := fun _ =>
    Ret [[ {| hit_id := 1; text_segment := u "X is defined as Y" |} ]];
  Scenario.on_insert := fun _ => Ret tt;
  Scenario.on_read := fun _ => Ret None
|}.

(** The answer [Hello] in two chunks, with a chunk whose content is
    [null] between them. *)
Definition null_content_stream : list pybytes :=
  [ Scenario.data_line (Scenario.chunk_json "Hel");
    Scenario.data_line null_content_json;
    Scenario.data_line (Scenario.chunk_json "lo");
    Scenario.data_line (Scenario.b "[DONE]") ].

(** The same answer, with a chunk without choices before the
    sentinel. *)
Definition empty_choices_stream : list pybytes :=
  [ Scenario.data_line (Scenario.chunk_json "Hel");
    Scenario.data_line (Scenario.chunk_json "lo");
    Scenario.data_line empty_choices_json;
    Scenario.data_line (Scenario.b "[DONE]") ].

(** The summary service answers without [choices]; the document read
    starts with four blanks. *)
Definition blank_start_without_choices : Scenario.Script := {|
  Scenario.on_post := Scenario.on_post summary_without_choices;
  Scenario.on_search := fun _ => Ret [];
  Scenario.on_insert := fun _ => Ret tt;
  Scenario.on_read := fun _ => Ret (Some (u "    A. B. C."))
|}.

(** A file system where the size of a file is zero at the first
    [zero_polls] polls of a run and eight afterwards; every text file
    reads [A. B. C.].  The state of the world counts the polls and the
    posts together. *)
Definition files (zero_polls : nat) : Files nat := {|
  str_lower := map ascii_lower;
  os_path_getsize := fun _ n =>
    (Ret (if Nat.ltb n zero_polls then 0%Z else 8%Z), S n);
  time_sleep := fun _ n => n;
  open_read := fun _ n => (Ret (u "A. B. C."), n);
  docx_paragraphs := fun _ n => (Ret [u "A. B."; u "C."], n);
  pdf_pages := fun _ n => (Ret [u "A. B."; u "C."], n)
|}.
End Scenario2.

(** * Properties *)

(** ** Strings *)

Lemma lstrip_nil_iff (s : pystr) :
  lstrip s = [] <-> forallb isspace s = true.
Proof.
  induction s as [|c r IH]; simpl.
  - tauto.
  - destruct (isspace c); simpl.
    + exact IH.
    + split; discriminate.
Qed.

Lemma lstrip_head (s : pystr) :
  lstrip s = [] \/ exists c r, lstrip s = c :: r /\ isspace c = false.
Proof.
  induction s as [|c r IH]; simpl.
  - now left.
  - destruct (isspace c) eqn:E.
    + exact IH.
    + right. now exists c, r.
Qed.

Lemma forallb_rev {A} (f : A -> bool) (l : list A) :
  forallb f (rev l) = forallb f l.
Proof.
  induction l as [|a l IH]; simpl; auto.
  rewrite forallb_app, IH. simpl. rewrite andb_true_r. apply andb_comm.
Qed.

(** A string strips to the empty string exactly when all its characters
    are white space. *)
Lemma strip_nil_iff (s : pystr) :
  strip s = [] <-> forallb isspace s = true.
Proof.
  unfold strip, rstrip. split.
  - intros E.
    assert (E' : lstrip (rev (lstrip s)) = []).
    { rewrite <- (rev_involutive (lstrip (rev (lstrip s)))), E. reflexivity. }
    apply lstrip_nil_iff in E'. rewrite forallb_rev in E'.
    destruct (lstrip_head s) as [N | (c & r & Ec & Hc)].
    + now apply lstrip_nil_iff.
    + rewrite Ec in E'. simpl in E'. rewrite Hc in E'. discriminate.
  - intros E. apply lstrip_nil_iff in E. rewrite E. reflexivity.
Qed.

Lemma is_blank_iff (s : pystr) :
  Doc2DB.is_blank s = true <-> forallb isspace s = true.
Proof.
  unfold Doc2DB.is_blank. rewrite Nat.eqb_eq, length_zero_iff_nil.
  apply strip_nil_iff.
Qed.

(** ** The chunker of [Doc2DB.process_file] *)

Section Chunker.
Variable L : nat.
Hypothesis L_pos : 0 < L.

Lemma skipn_skipn {A} (a b : nat) (l : list A) :
  skipn a (skipn b l) = skipn (b + a) l.
Proof.
  revert l; induction b as [|b IH]; intros l; simpl.
  - reflexivity.
  - destruct l; [now rewrite skipn_nil | apply IH].
Qed.

Lemma concat_pieces (m : nat) : forall T : pystr,
  length T <= m * L ->
  concat (map (fun i => slice T i (i + L)) (map (fun k => k * L) (seq 0 m)))
  = T.
Proof.
  induction m as [|m IH]; intros T HT.
  - simpl in *. destruct T; [reflexivity | simpl in HT; lia].
  - rewrite <- cons_seq, <- seq_shift. simpl map. rewrite !map_map. simpl concat.
    transitivity (firstn L T ++ skipn L T); [| apply firstn_skipn].
    f_equal.
    + unfold slice. simpl skipn. f_equal. lia.
    + etransitivity; [| apply (IH (skipn L T))].
      * rewrite map_map. f_equal. apply map_ext. intros k. unfold slice.
        rewrite skipn_skipn. repeat (f_equal; try lia).
      * rewrite length_skipn. simpl in HT. lia.
Qed.

Lemma ceil_covers (n : nat) : n <= ((n + L - 1) / L) * L.
Proof.
  pose proof (Nat.div_mod_eq (n + L - 1) L) as E.
  pose proof (Nat.mod_upper_bound (n + L - 1) L) as B.
  nia.
Qed.
End Chunker.

Lemma segments_pos (T : pystr) (L : Z) :
  (0 < L)%Z ->
  Doc2DB.segments T L =
  Ret (map (fun i => slice T i (i + Z.to_nat L))
         (Doc2DB.py_range (length T) (Z.to_nat L))).
Proof.
  intros HL. unfold Doc2DB.segments.
  destruct (Z.eqb_spec L 0); [lia |].
  destruct (Z.ltb_spec L 0); [lia | reflexivity].
Qed.

Lemma slice_length_le {A} (s : list A) (i n : nat) :
  length (slice s i (i + n)) <= n.
Proof.
  unfold slice. rewrite length_firstn. lia.
Qed.

(** C6. For a positive segment length [L] the chunker returns the
    slices [T[0:L]], [T[L:2L]], ... in order, [ceil(len(T) / L)] of
    them; their concatenation is [T]; none is longer than [L]; every
    segment that passes the blank test has a character that is not white
    space; and the sequence is determined by [(T, L)]. *)
Theorem C6_chunker_covers_text (T : pystr) (L : Z) :
  (0 < L)%Z ->
  exists segs : list pystr,
    Doc2DB.segments T L = Ret segs
    /\ length segs = (length T + Z.to_nat L - 1) / Z.to_nat L
    /\ (forall k, k < length segs ->
          nth k segs [] = slice T (k * Z.to_nat L) ((k + 1) * Z.to_nat L))
    /\ concat segs = T
    /\ Forall (fun s => length s <= Z.to_nat L) segs
    /\ Forall (fun s => exists c, In c s /\ isspace c = false)
         (filter (fun s => negb (Doc2DB.is_blank s)) segs)
    /\ (forall segs', Doc2DB.segments T L = Ret segs' -> segs' = segs).
Proof.
  intros HL. rewrite (segments_pos T HL).
  set (n := Z.to_nat L). assert (Hn : 0 < n) by (unfold n; lia).
  eexists. split; [reflexivity |].
  unfold Doc2DB.py_range.
  repeat split.
  - now rewrite !length_map, length_seq.
  - intros k Hk. rewrite !length_map, length_seq in Hk.
    rewrite map_map.
    rewrite (nth_indep _ [] (slice T (0 * n) (0 * n + n)))
      by now rewrite length_map, length_seq.
    rewrite (map_nth (fun k => slice T (k * n) (k * n + n))).
    rewrite seq_nth by exact Hk. simpl. f_equal. lia.
  - apply concat_pieces; [exact Hn | apply ceil_covers; exact Hn].
  - apply Forall_forall. intros s Hs.
    apply in_map_iff in Hs. destruct Hs as (i & <- & _).
    apply slice_length_le.
  - apply Forall_forall. intros s Hs.
    apply filter_In in Hs. destruct Hs as [_ Hs].
    destruct (forallb isspace s) eqn:E.
    + apply is_blank_iff in E. rewrite E in Hs. discriminate.
    + clear Hs. induction s as [|c r IH]; simpl in E; [discriminate |].
      destruct (isspace c) eqn:Ec.
      * destruct (IH E) as (c' & Hin & Hc'). exists c'. split; [now right | exact Hc'].
      * exists c. split; [now left | exact Ec].
  - intros segs' E. now inversion E.
Qed.

(** The first end-to-end example of the specification: ["A. B. C."] with
    segment length 4. *)
Lemma C6_chunker_covers_text_witness :
  (0 < 4)%Z /\
  exists segs : list pystr,
    Doc2DB.segments (u "A. B. C.") 4 = Ret segs
    /\ segs = [u "A. B"; u ". C."]
    /\ concat segs = u "A. B. C."
    /\ Forall (fun s => length s <= 4) segs.
Proof.
  split; [lia |].
  destruct (@C6_chunker_covers_text (u "A. B. C.") 4 ltac:(lia))
    as (segs & E & _ & _ & Hc & Hl & _).
  exists segs. repeat split; try assumption.
  vm_compute in E. now inversion E.
Defined.

(** ** The embedding client *)

Lemma zero_vector_len (n : nat) : py_len (zero_vector n) = Ret n.
Proof. simpl. now rewrite repeat_length. Qed.

(** Steps through one monadic definition: the definitions of the machine
    are unfolded and the first pending answer of a service is split. *)
Ltac unfold_machine :=
  unfold try_except, try_except2, bind, post, search, insert, read,
    check_status, lift, ret, raise, get_body, set_body in *.

Ltac split_answer :=
  match goal with
  | |- context [requests_post ?a ?b ?c ?x] =>
    destruct (requests_post a b c x) as [[?resp | ?e] ?w] eqn:?Epost
  | |- context [collection_search ?a ?b ?c ?x] =>
    destruct (collection_search a b c x) as [[?results | ?e] ?w] eqn:?Esearch
  | |- context [collection_insert ?a ?x] =>
    destruct (collection_insert a x) as [[[] | ?e] ?w] eqn:?Einsert
  end; cbn [fst snd].

Section EmbeddingClient.
Context {World : Type} `{Services World}.

Lemma supervised_generate_embedding_spec
    (valves : Supervised.Valves) (text : pystr) (st : St World) :
  let url := Supervised.OLLAMA_HOST valves ++ u "/api/embeddings" in
  let payload :=
    PDict [(u "model", PStr (Supervised.EMBEDDING_MODEL valves));
           (u "prompt", PStr text); (u "output_dim", PInt 1024)] in
  let r := fst (requests_post url payload false (world st)) in
  exists v st',
    Supervised.generate_embedding valves text st = (Ret v, st')
    /\ body st' = body st
    /\ trace st' = trace st ++ [EvPost url payload false]
    /\ py_len v = Ret 1024
    /\ (request_failed r -> v = zero_vector 1024)
    /\ (forall resp emb,
          r = Ret resp -> response_embedding resp = Ret emb ->
          py_len emb <> Ret 1024 -> v = zero_vector 1024)
    /\ (forall resp emb,
          r = Ret resp -> raise_for_status resp = None ->
          response_embedding resp = Ret emb ->
          py_len emb = Ret 1024 -> v = emb).
Proof.
  cbv zeta. unfold Supervised.generate_embedding, response_embedding.
  unfold_machine. split_answer.
  2:{ do 2 eexists. do 3 (split; [reflexivity |]).
      repeat split; try apply zero_vector_len; intros; congruence. }
  destruct (raise_for_status resp) as [e|] eqn:Es; cbn.
  { do 2 eexists. do 3 (split; [reflexivity |]).
    repeat split; try apply zero_vector_len; intros; congruence. }
  destruct (json resp) as [j | e] eqn:Ej; cbn.
  2:{ do 2 eexists. do 3 (split; [reflexivity |]).
      repeat split; try apply zero_vector_len; intros ? ? E;
        inversion E; subst; rewrite ?Ej; cbn; congruence. }
  destruct (py_get j (u "embedding") (PList [])) as [emb | e] eqn:Eg; cbn.
  2:{ do 2 eexists. do 3 (split; [reflexivity |]).
      repeat split; try apply zero_vector_len; intros ? ? E;
        inversion E; subst; rewrite ?Ej; cbn; congruence. }
  destruct (py_len emb) as [n | e] eqn:El; cbn.
  2:{ do 2 eexists. do 3 (split; [reflexivity |]).
      repeat split; try apply zero_vector_len; intros ? ? E;
        inversion E; subst; rewrite ?Ej; cbn; rewrite ?Eg; intros;
        congruence. }
  destruct (Nat.eqb_spec n 1024) as [-> | Hn]; cbn.
  - do 2 eexists. do 3 (split; [reflexivity |]).
    repeat split; try assumption.
    + intros F. cbn in F. congruence.
    + intros ? ? E. inversion E; subst. rewrite Ej. cbn. rewrite Eg.
      intros E'. inversion E'; subst. congruence.
    + intros ? ? E. inversion E; subst. rewrite Ej. cbn. rewrite Eg.
      intros _ E'. now inversion E'.
  - do 2 eexists. do 3 (split; [reflexivity |]).
    repeat split; try apply zero_vector_len.
    intros ? ? E. inversion E; subst. rewrite Ej. cbn. rewrite Eg.
    intros _ E' E''. inversion E'; subst. congruence.
Qed.

Lemma base_generate_embedding_spec
    (valves : RAGpipeline.Valves) (text : pystr) (st : St World) :
  let url := RAGpipeline.OLLAMA_HOST valves ++ u "/api/embeddings" in
  let payload :=
    PDict [(u "model", PStr (RAGpipeline.EMBEDDING_MODEL valves));
           (u "prompt", PStr text)] in
  let r := fst (requests_post url payload false (world st)) in
  exists v st',
    RAGpipeline.generate_embedding valves text st = (Ret v, st')
    /\ body st' = body st
    /\ (request_failed r -> v = zero_vector 512).
Proof.
  cbv zeta. unfold RAGpipeline.generate_embedding.
  unfold_machine. split_answer.
  2:{ do 2 eexists. repeat split. }
  destruct (raise_for_status resp) as [e|] eqn:Es; cbn.
  { do 2 eexists. repeat split. }
  destruct (json resp) as [j | e]; cbn;
    [destruct (py_get j (u "embedding") (PList [])); cbn |];
    do 2 eexists; (split; [reflexivity |]); (split; [reflexivity |]);
    intros F; congruence.
Qed.

Lemma hyde_generate_embedding_spec
    (valves : HyDE.Valves) (text : pystr) (st : St World) :
  let url := HyDE.OLLAMA_HOST valves ++ u "/api/embeddings" in
  let payload :=
    PDict [(u "model", PStr (HyDE.EMBEDDING_MODEL valves));
           (u "prompt", PStr text); (u "output_dim", PInt 1024)] in
  let r := fst (requests_post url payload false (world st)) in
  exists v st',
    HyDE.generate_embedding valves text st = (Ret v, st')
    /\ body st' = body st
    /\ (request_failed r -> v = zero_vector 1024).
Proof.
  cbv zeta. unfold HyDE.generate_embedding.
  unfold_machine. split_answer.
  2:{ do 2 eexists. repeat split. }
  destruct (raise_for_status resp) as [e|] eqn:Es; cbn.
  { do 2 eexists. repeat split. }
  destruct (json resp) as [j | e]; cbn;
    [destruct (py_get j (u "embedding") (PList [])); cbn |];
    do 2 eexists; (split; [reflexivity |]); (split; [reflexivity |]);
    intros F; congruence.
Qed.

Lemma doc2db_generate_embedding_spec (text : pyval) (st : St World) :
  let url := Doc2DB.default_base_url ++ u "/api/embeddings" in
  let payload :=
    PDict [(u "model", PStr Doc2DB.default_embedding_model);
           (u "prompt", text)] in
  let r := fst (requests_post url payload false (world st)) in
  request_failed_with is_RequestException r ->
  exists st',
    Doc2DB.generate_embedding text st = (Ret (PList []), st')
    /\ body st' = body st.
Proof.
  cbv zeta. unfold Doc2DB.generate_embedding.
  unfold_machine. split_answer; cbn; intros F.
  - destruct F as (e & -> & ->). cbn. eexists. split; reflexivity.
  - rewrite F. eexists. split; reflexivity.
Qed.

(** C2, as amended. In the three query pipelines [generate_embedding]
    never raises, and when the embedding request fails (the post or
    [raise_for_status] raises) it returns a zero vector of the length
    written in that pipeline: 1024 in the supervised and the HyDE
    pipeline, 512 in the base pipeline.  What the supervised pipeline
    returns always has length 1024, and an embedding of another length
    is replaced there by the zero vector of length 1024.  In
    [Doc2DB.py], a request that fails with an exception of [requests]
    gives the empty list. *)
Theorem C2_embedding_fallback_by_variant :
  (forall (valves : Supervised.Valves) (text : pystr) (st : St World),
      let r := fst (requests_post
                      (Supervised.OLLAMA_HOST valves ++ u "/api/embeddings")
                      (PDict [(u "model", PStr (Supervised.EMBEDDING_MODEL valves));
                              (u "prompt", PStr text);
                              (u "output_dim", PInt 1024)])
                      false (world st)) in
      exists v st',
        Supervised.generate_embedding valves text st = (Ret v, st')
        /\ py_len v = Ret 1024
        /\ (request_failed r -> v = zero_vector 1024)
        /\ (forall resp emb,
              r = Ret resp -> response_embedding resp = Ret emb ->
              py_len emb <> Ret 1024 -> v = zero_vector 1024))
  /\ (forall (valves : HyDE.Valves) (text : pystr) (st : St World),
      let r := fst (requests_post
                      (HyDE.OLLAMA_HOST valves ++ u "/api/embeddings")
                      (PDict [(u "model", PStr (HyDE.EMBEDDING_MODEL valves));
                              (u "prompt", PStr text);
                              (u "output_dim", PInt 1024)])
                      false (world st)) in
      exists v st',
        HyDE.generate_embedding valves text st = (Ret v, st')
        /\ (request_failed r -> v = zero_vector 1024))
  /\ (forall (valves : RAGpipeline.Valves) (text : pystr) (st : St World),
      let r := fst (requests_post
                      (RAGpipeline.OLLAMA_HOST valves ++ u "/api/embeddings")
                      (PDict [(u "model", PStr (RAGpipeline.EMBEDDING_MODEL valves));
                              (u "prompt", PStr text)])
                      false (world st)) in
      exists v st',
        RAGpipeline.generate_embedding valves text st = (Ret v, st')
        /\ (request_failed r -> v = zero_vector 512))
  /\ (forall (text : pyval) (st : St World),
      let r := fst (requests_post
                      (Doc2DB.default_base_url ++ u "/api/embeddings")
                      (PDict [(u "model", PStr Doc2DB.default_embedding_model);
                              (u "prompt", text)])
                      false (world st)) in
      request_failed_with is_RequestException r ->
      exists st', Doc2DB.generate_embedding text st = (Ret (PList []), st')).
Proof.
  repeat split.
  - intros valves text st.
    destruct (supervised_generate_embedding_spec valves text st)
      as (v & st' & E & _ & _ & Hl & Hf & Hw & _).
    exists v, st'. auto.
  - intros valves text st.
    destruct (hyde_generate_embedding_spec valves text st)
      as (v & st' & E & _ & Hf).
    exists v, st'. auto.
  - intros valves text st.
    destruct (base_generate_embedding_spec valves text st)
      as (v & st' & E & _ & Hf).
    exists v, st'. auto.
  - intros text st r F.
    destruct (doc2db_generate_embedding_spec text st F) as (st' & E & _).
    now exists st'.
Qed.
End EmbeddingClient.

(** C2, witness: with the model service unreachable, the supervised
    pipeline returns the zero vector of length 1024 and the ingestion
    script the empty list. *)
Lemma C2_embedding_fallback_by_variant_witness :
  fst (@Supervised.generate_embedding nat
         (Scenario.services Scenario.model_down) Supervised.default_valves
         (u "What is X?") (Scenario.start []))
  = Ret (zero_vector 1024)
  /\ fst (@Doc2DB.generate_embedding nat
            (Scenario.services Scenario.model_down)
            (PStr (u "A. B")) (Scenario.start []))
     = Ret (PList []).
Proof.
  destruct (@C2_embedding_fallback_by_variant nat
              (Scenario.services Scenario.model_down))
    as (HS & _ & _ & HD).
  split.
  - destruct (HS Supervised.default_valves (u "What is X?") (Scenario.start []))
      as (v & st' & E & _ & Hf & _).
    rewrite E. cbn. f_equal. apply Hf. exact I.
  - destruct (HD (PStr (u "A. B")) (Scenario.start [])) as (st' & E).
    + reflexivity.
    + rewrite E. reflexivity.
Defined.

(** C2, counterexample: with the model service unreachable, the
    [generate_embedding] of [Doc2DB.py], whose collection has dimension
    768, returns the empty list, which is not the zero vector of length
    768. *)
Lemma C2_counterexample_doc2db_returns_empty_list :
  request_failed
    (fst (@requests_post nat (Scenario.services Scenario.model_down)
            (Doc2DB.default_base_url ++ u "/api/embeddings")
            (PDict [(u "model", PStr Doc2DB.default_embedding_model);
                    (u "prompt", PStr (u "A. B"))])
            false 0))
  /\ fst (@Doc2DB.generate_embedding nat
            (Scenario.services Scenario.model_down)
            (PStr (u "A. B")) (Scenario.start []))
     = Ret (PList [])
  /\ py_len (PList []) <> Ret 768
  /\ PList [] <> zero_vector 768.
Proof.
  repeat split; try exact I; try reflexivity; discriminate.
Qed.

(** ** Retrieval *)

Section Retrieval.
Context {World : Type} `{Services World}.

(** In the supervised pipeline the retrieval never raises and leaves
    [body] alone; when the search raises, or the instance has no
    collection, it returns the empty list. *)
Lemma supervised_retrieve_spec
    (valves : Supervised.Valves) (hc : bool) (user_message : pystr)
    (st : St World) :
  exists ctx st',
    Supervised.retrieve_relevant_information valves hc user_message st
    = (Ret ctx, st')
    /\ body st' = body st
    /\ (forall v st1 e w,
          Supervised.generate_embedding valves user_message st = (Ret v, st1) ->
          collection_search [v] Supervised.search_params 10 (world st1)
          = (Raise e, w) ->
          ctx = [])
    /\ (hc = false -> ctx = []).
Proof.
  unfold Supervised.retrieve_relevant_information.
  destruct (supervised_generate_embedding_spec valves user_message st)
    as (v & st1 & E & Hb & _ & _).
  unfold bind at 1. rewrite E.
  unfold Supervised.self_collection_search.
  destruct hc.
  - unfold_machine. split_answer.
    + destruct (Nat.eqb (length results) 0); cbn.
      * do 2 eexists. split; [reflexivity |]. split; [exact Hb |].
        split; [reflexivity | discriminate].
      * destruct (list_getitem0 results); cbn;
          do 2 eexists; (split; [reflexivity |]); (split; [exact Hb |]);
          (split; [| discriminate]);
          intros ? ? ? ? E1 E2; inversion E1; subst; congruence.
    + do 2 eexists. split; [reflexivity |]. split; [exact Hb |].
      split; [reflexivity | discriminate].
  - unfold_machine. cbn. do 2 eexists. split; [reflexivity |].
    split; [exact Hb |]. split; reflexivity.
Qed.

(** In the base pipeline an exception of the search leaves
    [retrieve_relevant_information]. *)
Lemma base_retrieve_propagates
    (valves : RAGpipeline.Valves) (user_message : pystr) (st : St World)
    v st1 e w :
  RAGpipeline.generate_embedding valves user_message st = (Ret v, st1) ->
  collection_search [v] RAGpipeline.search_params 5 (world st1) = (Raise e, w) ->
  fst (RAGpipeline.retrieve_relevant_information valves user_message st)
  = Raise e.
Proof.
  intros E1 E2. unfold RAGpipeline.retrieve_relevant_information.
  unfold bind at 1. rewrite E1. unfold_machine. rewrite E2. reflexivity.
Qed.

(** In the HyDE pipeline the search is made with both vectors, and the
    list returned is made of the first hit list alone, whatever the
    lists that follow it hold. *)
Lemma hyde_retrieve_keeps_first_list
    (valves : HyDE.Valves) (user_message : pystr) (st : St World)
    v1 s1 answer s2 v2 s3 hits others w :
  HyDE.generate_embedding valves user_message st = (Ret v1, s1) ->
  HyDE.generate_hypothetical_answer valves user_message s1
  = (Ret answer, s2) ->
  HyDE.generate_embedding valves answer s2 = (Ret v2, s3) ->
  collection_search [v1; v2] HyDE.search_params 5 (world s3)
  = (Ret (hits :: others), w) ->
  HyDE.retrieve_relevant_information valves user_message st
  = (Ret (map text_segment hits),
     mkSt w (trace s3 ++ [EvSearch [v1; v2] HyDE.search_params 5])
       (body s3)).
Proof.
  intros E1 E2 E3 E4. unfold HyDE.retrieve_relevant_information.
  unfold bind at 1. rewrite E1. unfold bind at 1. rewrite E2.
  unfold bind at 1. rewrite E3. unfold_machine. rewrite E4. reflexivity.
Qed.
End Retrieval.

(** C5, at the failing input: the vector store raises on every search.
    The retrieval of [RAGpipeline.py] and of [pipelinewithHYDE.py] lets
    the exception through; that of [pipelinewithsupervision.py] returns
    the empty list. *)
Theorem C5_search_failure_leaves_unguarded_retrieval :
  fst (@RAGpipeline.retrieve_relevant_information nat
         (Scenario.services Scenario.store_down) RAGpipeline.default_valves
         (u "What is X?") (Scenario.start []))
  = Raise (mkExn MilvusException (u "connection lost"))
  /\ fst (@HyDE.retrieve_relevant_information nat
            (Scenario.services Scenario.store_down) HyDE.default_valves
            (u "What is X?") (Scenario.start []))
     = Raise (mkExn MilvusException (u "connection lost"))
  /\ fst (@Supervised.retrieve_relevant_information nat
            (Scenario.services Scenario.store_down) Supervised.default_valves
            true (u "What is X?") (Scenario.start []))
     = Ret [].
Proof. vm_compute. repeat split. Qed.

(** C1, at the failing input: the vector store raises on every search,
    and the call to [pipe] of [RAGpipeline.py] and of
    [pipelinewithHYDE.py] ends with that exception instead of a value.
    On the same input the [pipe] of [pipelinewithsupervision.py]
    returns a string. *)
Theorem C1_pipe_raises_when_search_raises :
  fst (@RAGpipeline.pipe nat (Scenario.services Scenario.store_down)
         RAGpipeline.default_valves (u "What is X?") (u "rag") []
         (Scenario.start Scenario.a_body))
  = Raise (mkExn MilvusException (u "connection lost"))
  /\ fst (@HyDE.pipe nat (Scenario.services Scenario.store_down)
            HyDE.default_valves (u "What is X?") (u "rag") []
            (Scenario.start Scenario.a_body))
     = Raise (mkExn MilvusException (u "connection lost"))
  /\ fst (@Supervised.pipe nat (Scenario.services Scenario.store_down)
            Supervised.default_valves true (u "What is X?") (u "rag") []
            (Scenario.start Scenario.a_body))
     = Ret (Value (PStr Supervised.exhausted_message)).
Proof. vm_compute. repeat split. Qed.

(** C4, at the failing input: the store answers the search of the HyDE
    pipeline with one hit list per query vector, segment [A] for the
    vector of the user message and segment [B] for the vector of the
    hypothetical answer.  The search is made once with both vectors, and
    the retrieval returns [A] alone. *)
Theorem C4_hyde_drops_hits_of_second_vector :
  let run := @HyDE.retrieve_relevant_information nat
               (Scenario.services Scenario.store_two_lists)
               HyDE.default_valves (u "What is X?") (Scenario.start []) in
  fst run = Ret [u "A"]
  /\ ~ In (u "B") [u "A"]
  /\ exists user_vector hypothetical_vector,
       filter (fun ev => match ev with EvSearch _ _ _ => true | _ => false end)
         (trace (snd run))
       = [EvSearch [user_vector; hypothetical_vector] HyDE.search_params 5].
Proof.
  cbv zeta. split; [vm_compute; reflexivity |].
  split.
  - vm_compute. intros [E | []]. discriminate.
  - do 2 eexists. vm_compute. reflexivity.
Qed.

(** ** Substrings *)

Lemma startswith_iff (p s : pystr) :
  startswith s p = true <-> exists post, s = p ++ post.
Proof.
  revert s. induction p as [|a p IH]; intros s.
  - split; [intros _; now exists s | now destruct s].
  - destruct s as [|c s]; simpl.
    + split; [discriminate | intros (post & E); discriminate].
    + rewrite andb_true_iff, N.eqb_eq, IH. split.
      * intros (-> & post & ->). now exists post.
      * intros (post & E). inversion E; subst. split; [reflexivity | now exists post].
Qed.

Lemma str_in_iff (needle s : pystr) :
  str_in needle s = true <-> infix needle s.
Proof.
  induction s as [|c r IH].
  - cbn [str_in]. rewrite orb_false_r, startswith_iff. split.
    + intros (post & E). now exists [], post.
    + intros (pre & post & E). destruct pre; [now exists post |].
      discriminate.
  - cbn [str_in]. rewrite orb_true_iff, startswith_iff, IH. split.
    + intros [(post & E) | (pre & post & E)].
      * now exists [], post.
      * exists (c :: pre), post. now rewrite E.
    + intros (pre & post & E). destruct pre as [|c' pre].
      * left. now exists post.
      * right. inversion E; subst. now exists pre, post.
Qed.

Lemma infix_cons_space (a c : N) (n r : pystr) :
  isspace a = false -> isspace c = true ->
  infix (a :: n) (c :: r) <-> infix (a :: n) r.
Proof.
  intros Ha Hc. split.
  - intros (pre & post & E). destruct pre as [|c' pre].
    + inversion E; subst. congruence.
    + inversion E; subst. now exists pre, post.
  - intros (pre & post & ->). now exists (c :: pre), post.
Qed.

Lemma infix_lstrip (a : N) (n s : pystr) :
  isspace a = false ->
  infix (a :: n) (lstrip s) <-> infix (a :: n) s.
Proof.
  intros Ha. induction s as [|c r IH]; simpl; [tauto |].
  destruct (isspace c) eqn:Hc; [| tauto].
  rewrite IH. symmetry. now apply infix_cons_space.
Qed.

Lemma infix_rev (needle s : pystr) :
  infix needle s <-> infix (rev needle) (rev s).
Proof.
  assert (D : forall n t, infix n t -> infix (rev n) (rev t)).
  { intros n t (pre & post & ->). exists (rev post), (rev pre).
    now rewrite !rev_app_distr, app_assoc. }
  split; [apply D |].
  intros I. apply D in I. now rewrite !rev_involutive in I.
Qed.

Lemma infix_strip (needle s : pystr) (a z : N) (n m : pystr) :
  needle = a :: n -> rev needle = z :: m ->
  isspace a = false -> isspace z = false ->
  infix needle (strip s) <-> infix needle s.
Proof.
  intros En Er Ha Hz. unfold strip, rstrip.
  rewrite infix_rev, rev_involutive, Er, infix_lstrip by exact Hz.
  rewrite <- Er, <- infix_rev, En. now apply infix_lstrip.
Qed.

(** The keyword the supervisor's answer is searched for survives
    [strip]. *)
Lemma approval_keyword_strip (s : pystr) :
  str_in (u "符合") (strip s) = str_in (u "符合") s.
Proof.
  apply eq_true_iff_eq. rewrite !str_in_iff.
  apply (@infix_strip (u "符合") s 31526%N 21512%N [21512%N] [31526%N]);
    reflexivity.
Qed.

(** ** The supervisor *)

Section Supervisor.
Context {World : Type} `{Services World}.

Lemma approves_rejections (r : result Response) (verdict : bool) :
  approves r verdict ->
  (forall resp,
      r = Ret resp -> response_text resp = Ret (PStr (u "true")) ->
      verdict = false)
  /\ (request_failed r -> verdict = false)
  /\ (forall resp,
        r = Ret resp ->
        (forall text, response_text resp <> Ret (PStr text)) ->
        verdict = false).
Proof.
  intros Hiff. repeat split.
  - intros resp Er Et. destruct verdict; [| reflexivity].
    destruct (proj1 Hiff eq_refl) as (resp' & text & Er' & _ & Et' & Hin).
    rewrite Er in Er'. inversion Er'; subst resp'.
    rewrite Et in Et'. inversion Et'; subst text.
    apply str_in_iff in Hin. vm_compute in Hin. discriminate.
  - intros F. destruct verdict; [| reflexivity].
    destruct (proj1 Hiff eq_refl) as (resp' & text & Er' & Es & _).
    rewrite Er' in F. cbn in F. congruence.
  - intros resp Er Hn. destruct verdict; [| reflexivity].
    destruct (proj1 Hiff eq_refl) as (resp' & text & Er' & _ & Et' & _).
    rewrite Er in Er'. inversion Er'; subst resp'.
    now apply Hn in Et'.
Qed.

Lemma supervise_answer_spec
    (valves : Supervised.Valves) (user_message generated_answer : pystr)
    (st : St World) :
  exists (verdict : bool) (st' : St World),
    Supervised.supervise_answer valves user_message generated_answer st
    = (Ret verdict, st')
    /\ body st' = body st
    /\ trace st' =
       trace st ++
       [EvPost (Supervised.OLLAMA_HOST valves ++ u "/v1/completions")
          (PDict [(u "model", PStr (Supervised.LLM_MODEL valves));
                  (u "prompt",
                   PStr (Supervised.supervision_prompt_of valves
                           user_message generated_answer))])
          false]
    /\ approves
         (fst (requests_post
                 (Supervised.OLLAMA_HOST valves ++ u "/v1/completions")
                 (PDict [(u "model", PStr (Supervised.LLM_MODEL valves));
                         (u "prompt",
                          PStr (Supervised.supervision_prompt_of valves
                                  user_message generated_answer))])
                 false (world st)))
         verdict.
Proof.
  unfold Supervised.supervise_answer, approves, response_text.
  unfold_machine.
  generalize (requests_post
                (Supervised.OLLAMA_HOST valves ++ u "/v1/completions")
                (PDict [(u "model", PStr (Supervised.LLM_MODEL valves));
                        (u "prompt",
                         PStr (Supervised.supervision_prompt_of valves
                                 user_message generated_answer))])
                false (world st)).
  intros [[resp | e] w]; cbn [fst].
  2:{ do 2 eexists. split; [reflexivity |]. split; [reflexivity |].
  split; [reflexivity |].
      split; [discriminate | intros (? & ? & E & _); discriminate]. }
  destruct (raise_for_status resp) as [e|] eqn:Es; cbn.
  { do 2 eexists. split; [reflexivity |]. split; [reflexivity |].
  split; [reflexivity |].
    split; [discriminate |].
    intros (? & ? & E & E' & _). inversion E; subst. congruence. }
  assert (Hno :
    (forall text, (let? j := json resp in
                   let? choices := py_get j (u "choices") (PList [PDict []]) in
                   let? choice := py_getitem0 choices in
                   py_get choice (u "text") (PStr [])) <> Ret (PStr text)) ->
    false = true <->
    (exists resp' text,
        Ret resp = Ret resp' /\ raise_for_status resp' = None
        /\ (let? j := json resp' in
            let? choices := py_get j (u "choices") (PList [PDict []]) in
            let? choice := py_getitem0 choices in
            py_get choice (u "text") (PStr [])) = Ret (PStr text)
        /\ infix (u "符合") text)).
  { intros Hn. split; [discriminate |].
    intros (? & text & E & _ & E' & _). inversion E; subst.
    now apply Hn in E'. }
  destruct (json resp) as [j | e] eqn:Ej; cbn in *.
  2:{ do 2 eexists. split; [reflexivity |]. split; [reflexivity |].
  split; [reflexivity |].
      apply Hno. discriminate. }
  destruct (py_get j (u "choices") (PList [PDict []])) as [ch | e] eqn:Ec;
    cbn in *.
  2:{ do 2 eexists. split; [reflexivity |]. split; [reflexivity |].
  split; [reflexivity |].
      apply Hno. discriminate. }
  destruct (py_getitem0 ch) as [c0 | e] eqn:E0; cbn in *.
  2:{ do 2 eexists. split; [reflexivity |]. split; [reflexivity |].
  split; [reflexivity |].
      apply Hno. discriminate. }
  destruct (py_get c0 (u "text") (PStr [])) as [t | e] eqn:Et; cbn in *.
  2:{ do 2 eexists. split; [reflexivity |]. split; [reflexivity |].
  split; [reflexivity |].
      apply Hno. discriminate. }
  destruct t as [| | | | text | |]; cbn;
    try (do 2 eexists; (split; [reflexivity |]); (split; [reflexivity |]);
    (split; [reflexivity |]);
         apply Hno; discriminate).
  do 2 eexists. split; [reflexivity |]. split; [reflexivity |].
  split; [reflexivity |].
  rewrite approval_keyword_strip, str_in_iff. split.
  - intros Hin. exists resp, text. repeat split; try assumption.
    rewrite Ej. cbn. rewrite Ec. cbn. rewrite E0. cbn. exact Et.
  - intros (? & text' & E & _ & E' & Hin). inversion E; subst.
    rewrite Ej in E'. cbn in E'. rewrite Ec in E'. cbn in E'.
    rewrite E0 in E'. cbn in E'. rewrite Et in E'.
    inversion E'; subst. exact Hin.
Qed.

(** C10. [supervise_answer] never raises.  It returns [True] exactly
    when the request succeeds and the text of the response is a string
    in which the keyword occurs.  So the answer [true], which the
    supervision prompt asks for, is a rejection, and so is every
    failed request and every response without a text. *)
Theorem C10_supervisor_approves_on_keyword_only
    (valves : Supervised.Valves) (user_message generated_answer : pystr)
    (st : St World) :
  let r := fst (requests_post
                  (Supervised.OLLAMA_HOST valves ++ u "/v1/completions")
                  (PDict [(u "model", PStr (Supervised.LLM_MODEL valves));
                          (u "prompt",
                           PStr (Supervised.supervision_prompt_of valves
                                   user_message generated_answer))])
                  false (world st)) in
  exists (verdict : bool) (st' : St World),
    Supervised.supervise_answer valves user_message generated_answer st
    = (Ret verdict, st')
    /\ (verdict = true <->
        exists resp text,
          r = Ret resp /\ raise_for_status resp = None
          /\ response_text resp = Ret (PStr text)
          /\ infix (u "符合") text)
    /\ (forall resp,
          r = Ret resp -> response_text resp = Ret (PStr (u "true")) ->
          verdict = false)
    /\ (request_failed r -> verdict = false)
    /\ (forall resp,
          r = Ret resp ->
          (forall text, response_text resp <> Ret (PStr text)) ->
          verdict = false).
Proof.
  cbv zeta.
  destruct (supervise_answer_spec valves user_message generated_answer st)
    as (verdict & st' & E & _ & _ & Hiff).
  exists verdict, st'. split; [exact E |]. split; [exact Hiff |].
  now apply approves_rejections.
Qed.
End Supervisor.

(** C10, witness: a supervisor that answers [true] rejects, one that
    answers with the keyword approves. *)
Lemma C10_supervisor_approves_on_keyword_only_witness :
  fst (@Supervised.supervise_answer nat
         (Scenario.services (Scenario.supervisor (fun _ => "true"%string)))
         Supervised.default_valves (u "What is X?") (u "Hello")
         (Scenario.start []))
  = Ret false
  /\ fst (@Supervised.supervise_answer nat
            (Scenario.services (Scenario.supervisor (fun _ => "符合"%string)))
            Supervised.default_valves (u "What is X?") (u "Hello")
            (Scenario.start []))
     = Ret true.
Proof.
  split.
  - destruct (@C10_supervisor_approves_on_keyword_only nat
                (Scenario.services (Scenario.supervisor (fun _ => "true"%string)))
                Supervised.default_valves (u "What is X?") (u "Hello")
                (Scenario.start []))
      as (verdict & st' & E & _ & Htrue & _).
    rewrite E. cbn. f_equal.
    apply (Htrue (Scenario.completion "true")); reflexivity.
  - destruct (@C10_supervisor_approves_on_keyword_only nat
                (Scenario.services (Scenario.supervisor (fun _ => "符合"%string)))
                Supervised.default_valves (u "What is X?") (u "Hello")
                (Scenario.start []))
      as (verdict & st' & E & Hiff & _).
    rewrite E. cbn. f_equal. apply Hiff.
    exists (Scenario.completion "符合"), (u "符合").
    repeat split. now exists [], [].
Defined.

(** ** Assembly of the streamed answer *)

Section Assembly.
Context {World : Type} `{Services World}.

Lemma data_marker_length : length (u "data: ") = 6.
Proof. reflexivity. Qed.

(** One step of the loop, by the class of the line. *)
Lemma consume_lines_cons (line : pybytes) (rest : list pybytes)
    (err : option exn) (acc : pystr) :
  Supervised.consume_lines (line :: rest) err acc =
  match classify line with
  | Blank | NoData | Unparseable => Supervised.consume_lines rest err acc
  | Undecodable => raise_ UnicodeDecodeError "utf-8"
  | Done => Ret acc
  | Chunk chunk =>
    let? delta_content := Supervised.delta_content_of chunk in
    let? answer := py_iadd_str acc delta_content in
    Supervised.consume_lines rest err answer
  end.
Proof.
  unfold classify. cbn [Supervised.consume_lines].
  rewrite data_marker_length.
  destruct line as [|b0 line]; [reflexivity |].
  cbn [length Nat.eqb].
  destruct (decode_utf8 (b0 :: line)) as [line_str |]; [| reflexivity].
  destruct (startswith line_str (u "data: ")); cbn [negb]; [| reflexivity].
  destruct (str_eqb (strip (skipn 6 line_str)) (u "[DONE]")); [reflexivity |].
  destruct (json_loads (skipn 6 line_str)); reflexivity.
Qed.

Lemma consume_lines_sound (lines : list pybytes) (err : option exn) :
  forall acc answer,
    Supervised.consume_lines lines err acc = Ret answer ->
    answer = acc ++ assembled lines.
Proof.
  unfold assembled.
  induction lines as [|line rest IH]; intros acc answer E.
  - cbn in E. destruct err; [discriminate |]. inversion E.
    cbn. now rewrite app_nil_r.
  - rewrite consume_lines_cons in E. cbn [map].
    destruct (classify line) eqn:C; cbn [before_done fragment_of map concat];
      try (now apply IH); try discriminate.
    + inversion E. now rewrite app_nil_r.
    + unfold fragment.
      destruct (Supervised.delta_content_of chunk) as [d | e];
        [| discriminate].
      cbn in E. destruct d; try discriminate. cbn in E.
      apply IH in E. now rewrite E, app_assoc.
Qed.

Lemma consume_lines_complete (lines : list pybytes) (err : option exn) :
  forall acc,
    stream_ok lines err ->
    Supervised.consume_lines lines err acc = Ret (acc ++ assembled lines).
Proof.
  unfold assembled, stream_ok.
  induction lines as [|line rest IH]; intros acc [Hok Hend].
  - cbn in *. destruct Hend as [? | ->]; [discriminate |].
    now rewrite app_nil_r.
  - rewrite consume_lines_cons. cbn [map] in *.
    destruct (classify line) eqn:C;
      cbn [before_done fragment_of map concat forallb frame_ok has_done
           existsb orb andb] in *;
      try (apply IH; split; assumption); try discriminate.
    + now rewrite app_nil_r.
    + unfold fragment in *.
      destruct (Supervised.delta_content_of chunk) as [d | e];
        [| discriminate].
      destruct d; try discriminate. cbn.
      rewrite IH by (split; assumption). now rewrite app_assoc.
Qed.

Lemma consume_lines_skip (pre : list pybytes) (line : pybytes)
    (post : list pybytes) (err : option exn) :
  classify line = Unparseable ->
  forall acc,
    Supervised.consume_lines (pre ++ line :: post) err acc
    = Supervised.consume_lines (pre ++ post) err acc.
Proof.
  intros C. induction pre as [|l pre IH]; intros acc.
  - cbn [app]. now rewrite consume_lines_cons, C.
  - cbn [app]. rewrite !consume_lines_cons.
    destruct (classify l); try reflexivity; try apply IH.
    destruct (Supervised.delta_content_of chunk); [| reflexivity]. cbn.
    destruct (py_iadd_str acc a); [| reflexivity]. cbn. apply IH.
Qed.

Lemma consume_lines_after_done (lines more : list pybytes)
    (err err' : option exn) :
  has_done (map classify lines) = true ->
  forall acc,
    Supervised.consume_lines (lines ++ more) err' acc
    = Supervised.consume_lines lines err acc.
Proof.
  induction lines as [|l lines IH]; intros Hd acc; [discriminate |].
  cbn [app]. rewrite !consume_lines_cons. cbn in Hd.
  destruct (classify l); try reflexivity; try (now apply IH).
  destruct (Supervised.delta_content_of chunk); [| reflexivity]. cbn.
  destruct (py_iadd_str acc a); [| reflexivity]. cbn. now apply IH.
Qed.

(** A frame before the sentinel that does not decode, or that parses
    to a chunk without a string fragment, ends the loop with an
    exception: no answer is assembled, whatever the other frames
    hold. *)
Lemma consume_lines_raises (lines : list pybytes) (err : option exn) :
  forallb frame_ok (before_done (map classify lines)) = false ->
  forall acc, exists e, Supervised.consume_lines lines err acc = Raise e.
Proof.
  induction lines as [|line rest IH]; intros Hbad acc; [discriminate |].
  rewrite consume_lines_cons. cbn [map] in Hbad.
  destruct (classify line) eqn:C;
    cbn [before_done forallb frame_ok andb] in Hbad;
    try (now apply IH); try discriminate.
  - now eexists.
  - unfold fragment in Hbad.
    destruct (Supervised.delta_content_of chunk) as [d | e];
      [| now eexists].
    cbn. destruct d; try (now eexists). cbn. now apply IH.
Qed.
End Assembly.

(** C9, at the failing inputs: the stream of the answer [Hello] with,
    before the sentinel, a frame that parses to a chunk whose content
    is [null], or to a chunk without choices.  Every frame parses and
    the fragments of the parseable frames make [Hello], but the loop
    raises [TypeError], or [IndexError], past the handler of
    [json.JSONDecodeError]: no answer is assembled, and [pipe] returns
    the error string after one generation request, without asking the
    supervisor, who would have approved. *)
Theorem C9_frame_without_fragment_loses_the_answer :
  let run lines :=
    @Supervised.pipe nat (Scenario2.services (Scenario2.streaming lines))
      Supervised.default_valves true (u "What is X?") (u "rag") []
      (Scenario.start Scenario.a_body) in
  let loop lines :=
    @Supervised.consume_lines nat
      (Scenario2.services (Scenario2.streaming lines)) lines None [] in
  let frames lines :=
    map (@classify nat (Scenario2.services (Scenario2.streaming lines)))
      lines in
  let fragments lines :=
    @assembled nat (Scenario2.services (Scenario2.streaming lines)) lines in
  (frames Scenario2.null_content_stream
   = [Chunk (Scenario.chunk_value "Hel"); Chunk Scenario2.null_content_value;
      Chunk (Scenario.chunk_value "lo"); Done]
   /\ fragments Scenario2.null_content_stream = u "Hello"
   /\ exists e,
        exn_cls e = TypeError
        /\ loop Scenario2.null_content_stream = Raise e
        /\ fst (run Scenario2.null_content_stream)
           = Ret (Value (PStr (u "其他错误: " ++ exn_str e)))
        /\ generation_calls Supervised.default_valves
             (trace (snd (run Scenario2.null_content_stream))) = 1
        /\ posts_to Scenario.completions_url
             (trace (snd (run Scenario2.null_content_stream))) = 0)
  /\ (frames Scenario2.empty_choices_stream
      = [Chunk (Scenario.chunk_value "Hel"); Chunk (Scenario.chunk_value "lo");
         Chunk Scenario2.empty_choices_value; Done]
      /\ fragments Scenario2.empty_choices_stream = u "Hello"
      /\ exists e,
           exn_cls e = IndexError
           /\ loop Scenario2.empty_choices_stream = Raise e
           /\ fst (run Scenario2.empty_choices_stream)
              = Ret (Value (PStr (u "其他错误: " ++ exn_str e)))
           /\ generation_calls Supervised.default_valves
                (trace (snd (run Scenario2.empty_choices_stream))) = 1
           /\ posts_to Scenario.completions_url
                (trace (snd (run Scenario2.empty_choices_stream))) = 0).
Proof.
  cbv zeta. split.
  - split; [vm_compute; reflexivity |].
    split; [vm_compute; reflexivity |].
    destruct (@consume_lines_raises nat
                (Scenario2.services
                   (Scenario2.streaming Scenario2.null_content_stream))
                Scenario2.null_content_stream None eq_refl [])
      as (e & Ee).
    exists e. vm_compute in Ee. injection Ee as <-.
    repeat split; vm_compute; reflexivity.
  - split; [vm_compute; reflexivity |].
    split; [vm_compute; reflexivity |].
    destruct (@consume_lines_raises nat
                (Scenario2.services
                   (Scenario2.streaming Scenario2.empty_choices_stream))
                Scenario2.empty_choices_stream None eq_refl [])
      as (e & Ee).
    exists e. vm_compute in Ee. injection Ee as <-.
    repeat split; vm_compute; reflexivity.
Qed.

(** ** Counting the calls *)

Lemma str_eqb_eq (a b : pystr) : str_eqb a b = true <-> a = b.
Proof.
  unfold str_eqb. destruct (list_eq_dec N.eq_dec a b); split; congruence.
Qed.

Lemma str_eqb_refl (a : pystr) : str_eqb a a = true.
Proof. now apply str_eqb_eq. Qed.

Lemma str_eqb_suffix (h a b : pystr) :
  a <> b -> str_eqb (h ++ a) (h ++ b) = false.
Proof.
  intros N. destruct (str_eqb (h ++ a) (h ++ b)) eqn:E; [| reflexivity].
  apply str_eqb_eq, app_inv_head in E. contradiction.
Qed.

Lemma posts_to_app (url : pystr) (t1 t2 : list event) :
  posts_to url (t1 ++ t2) = posts_to url t1 + posts_to url t2.
Proof. unfold posts_to. now rewrite filter_app, length_app. Qed.

(** ** The supervised generation loop *)

Section Loop.
Context {World : Type} `{Services World}.
Variable valves : Supervised.Valves.

Lemma supervision_is_not_generation payload stream :
  is_post_to (generation_url valves)
    (EvPost (Supervised.OLLAMA_HOST valves ++ u "/v1/completions")
       payload stream) = false.
Proof. cbn. apply str_eqb_suffix. discriminate. Qed.

Lemma embedding_is_not_generation payload stream :
  is_post_to (generation_url valves)
    (EvPost (Supervised.OLLAMA_HOST valves ++ u "/api/embeddings")
       payload stream) = false.
Proof. cbn. apply str_eqb_suffix. discriminate. Qed.

Lemma generation_request_counts (b : pydict) :
  generation_calls valves [generation_request valves b] = 1.
Proof.
  unfold generation_calls, posts_to, generation_request. cbn.
  now rewrite str_eqb_refl.
Qed.

(** One pass of the loop makes exactly one generation request, with the
    caller's [body] and the model name, and leaves [body] alone. *)
Lemma attempt_spec (user_message : pystr) (st : St World) r st' :
  Supervised.attempt valves user_message st = (r, st') ->
  body st' = body st
  /\ exists evs,
       trace st' = trace st ++ generation_request valves (body st) :: evs
       /\ generation_calls valves evs = 0.
Proof.
  unfold Supervised.attempt. unfold_machine. split_answer.
  2:{ intros E. inversion E; subst. cbn. split; [reflexivity |].
      now exists []. }
  destruct (raise_for_status resp) as [e|]; cbn.
  { intros E. inversion E; subst. cbn. split; [reflexivity |].
    now exists []. }
  destruct (Supervised.consume_lines (iter_lines resp) (iter_error resp) [])
    as [answer | e]; cbn.
  2:{ intros E. inversion E; subst. cbn. split; [reflexivity |].
      now exists []. }
  match goal with
  | |- context [Supervised.supervise_answer valves user_message answer ?s] =>
    destruct (supervise_answer_spec valves user_message answer s)
      as (verdict & s' & E' & Hb & Ht & _)
  end.
  rewrite E'. intros E. inversion E; subst. cbn in *.
  split; [exact Hb |]. eexists. split.
  - rewrite Ht, <- app_assoc. reflexivity.
  - unfold generation_calls, posts_to. cbn [filter].
    now rewrite supervision_is_not_generation.
Qed.

Lemma rejected_spec (user_message : pystr) (n : nat) (st st' : St World) :
  rejected valves user_message n st st' ->
  body st' = body st
  /\ generation_calls valves (trace st')
     = generation_calls valves (trace st) + n
  /\ forall m,
       Supervised.generation_loop valves (n + m) user_message st
       = Supervised.generation_loop valves m user_message st'.
Proof.
  induction 1 as [st | n st answer st1 st2 Ea _ (IHb & IHc & IHl)].
  - repeat split. lia.
  - destruct (attempt_spec _ _ Ea) as (Hb & evs & Ht & Hc).
    split; [congruence |]. split.
    + rewrite IHc, Ht. unfold generation_calls in *.
      rewrite posts_to_app.
      change (generation_request valves (body st) :: evs)
        with ([generation_request valves (body st)] ++ evs).
      rewrite posts_to_app, Hc.
      pose proof (generation_request_counts (body st)) as G.
      unfold generation_calls in G. rewrite G. lia.
    + intros m. cbn [Nat.add Supervised.generation_loop].
      unfold bind at 1. rewrite Ea. cbn [snd fst]. apply IHl.
Qed.


(** How the loop ends: with the exhaustion message after [n] rejected
    passes, with an answer at the first pass that is approved, or with
    the exception of the first pass that raises. *)
Lemma generation_loop_ends (user_message : pystr) (n : nat) :
  forall st r st',
    Supervised.generation_loop valves n user_message st = (r, st') ->
    (r = Ret (PStr Supervised.exhausted_message)
     /\ rejected valves user_message n st st')
    \/ (exists k answer st1,
          k < n /\ rejected valves user_message k st st1
          /\ Supervised.attempt valves user_message st1
             = (Ret (answer, true), st')
          /\ r = Ret (PStr answer))
    \/ (exists k e st1,
          k < n /\ rejected valves user_message k st st1
          /\ Supervised.attempt valves user_message st1 = (Raise e, st')
          /\ r = Raise e).
Proof.
  induction n as [|n IH]; intros st r st' E.
  - cbn in E. inversion E; subst. left. split; [reflexivity | constructor].
  - cbn [Supervised.generation_loop] in E. unfold bind at 1 in E.
    destruct (Supervised.attempt valves user_message st)
      as [[[answer [|]] | e] st1] eqn:Ea; cbn [fst snd] in E.
    + inversion E; subst. right. left.
      exists 0, answer, st. repeat split; try lia; try assumption.
      constructor.
    + apply IH in E.
      destruct E as [(-> & R) | [(k & a & s & Hk & R & Ea' & ->)
                                | (k & e & s & Hk & R & Ea' & ->)]].
      * left. split; [reflexivity |]. econstructor; eassumption.
      * right. left. exists (S k), a, s. repeat split; try lia; try assumption.
        econstructor; eassumption.
      * right. right. exists (S k), e, s.
        repeat split; try lia; try assumption.
        econstructor; eassumption.
    + inversion E; subst. right. right.
      exists 0, e, st. repeat split; try lia; try assumption. constructor.
Qed.
End Loop.

(** ** Dictionaries *)

Lemma dict_lookup_set_same (d : pydict) (k : pystr) (v : pyval) :
  dict_lookup (dict_set d k v) k = Some v.
Proof.
  induction d as [|[k' v'] d IH]; cbn.
  - now rewrite str_eqb_refl.
  - destruct (str_eqb k' k) eqn:E; cbn; rewrite E; [reflexivity | exact IH].
Qed.

Lemma dict_lookup_set_other (d : pydict) (k k' : pystr) (v : pyval) :
  str_eqb k k' = false ->
  dict_lookup (dict_set d k v) k' = dict_lookup d k'.
Proof.
  intros N. induction d as [|[k0 v0] d IH]; cbn.
  - now rewrite N.
  - destruct (str_eqb k0 k) eqn:E; cbn.
    + apply str_eqb_eq in E. subst k0. now rewrite N.
    + destruct (str_eqb k0 k'); [reflexivity | exact IH].
Qed.

Lemma dict_set_set (d : pydict) (k : pystr) (v v' : pyval) :
  dict_set (dict_set d k v) k v' = dict_set d k v'.
Proof.
  induction d as [|[k0 v0] d IH]; cbn.
  - now rewrite str_eqb_refl.
  - destruct (str_eqb k0 k) eqn:E; cbn; rewrite E; [reflexivity |].
    now rewrite IH.
Qed.

Lemma py_getitem_set_same (d : pydict) (k : pystr) (v : pyval) :
  py_getitem (PDict (dict_set d k v)) k = Ret v.
Proof. cbn. now rewrite dict_lookup_set_same. Qed.

(** ** The first half of [pipe] *)

Section Augment.
Context {World : Type} `{Services World}.

(** The embedding of the supervised pipeline depends on the text and on
    the world alone, and adds one post to the trace. *)
Lemma supervised_generate_embedding_run
    (valves : Supervised.Valves) (text : pystr) (w : World) :
  exists v w' ev,
    is_post_to (generation_url valves) ev = false
    /\ forall t b,
        Supervised.generate_embedding valves text (mkSt w t b)
        = (Ret v, mkSt w' (t ++ [ev]) b).
Proof.
  unfold Supervised.generate_embedding. unfold_machine. cbn [world trace body].
  split_answer;
    [destruct (raise_for_status resp); cbn;
       [| destruct (json resp) as [j|]; cbn;
          [destruct (py_get j (u "embedding") (PList [])) as [emb|]; cbn;
             [destruct (py_len emb) as [n|]; cbn;
                [destruct (negb (Nat.eqb n 1024)); cbn |] |] |]] |];
    do 3 eexists; (split; [apply embedding_is_not_generation |]);
    intros; reflexivity.
Qed.

(** The retrieval of the supervised pipeline returns a list that
    depends on the message and on the world alone; it makes no
    generation request and leaves [body] alone. *)
Lemma supervised_retrieve_run
    (valves : Supervised.Valves) (hc : bool) (user_message : pystr)
    (w : World) :
  exists ctx w' evs,
    generation_calls valves evs = 0
    /\ forall t b,
        Supervised.retrieve_relevant_information valves hc user_message
          (mkSt w t b)
        = (Ret ctx, mkSt w' (t ++ evs) b).
Proof.
  destruct (supervised_generate_embedding_run valves user_message w)
    as (v & w1 & ev & Hev & Eg).
  unfold Supervised.retrieve_relevant_information,
    Supervised.self_collection_search.
  assert (C1 : generation_calls valves [ev] = 0).
  { unfold generation_calls, posts_to. cbn. now rewrite Hev. }
  assert (C2 : forall d p l,
             generation_calls valves [ev; EvSearch d p l] = 0).
  { intros. unfold generation_calls, posts_to. cbn. now rewrite Hev. }
  destruct hc.
  - destruct (collection_search [v] Supervised.search_params 10 w1)
      as [[results | e] w2] eqn:Es.
    + destruct (Nat.eqb (length results) 0) eqn:El.
      * exists [], w2, [ev; EvSearch [v] Supervised.search_params 10].
        split; [apply C2 |]. intros t b.
        unfold bind at 1. rewrite Eg. unfold_machine. cbn. rewrite Es, El.
        now rewrite <- app_assoc.
      * destruct (list_getitem0 results) as [hits | e] eqn:E0.
        -- exists (map text_segment hits), w2,
             [ev; EvSearch [v] Supervised.search_params 10].
           split; [apply C2 |]. intros t b.
           unfold bind at 1. rewrite Eg. unfold_machine. cbn.
           rewrite Es, El, E0. now rewrite <- app_assoc.
        -- exists [], w2, [ev; EvSearch [v] Supervised.search_params 10].
           split; [apply C2 |]. intros t b.
           unfold bind at 1. rewrite Eg. unfold_machine. cbn.
           rewrite Es, El, E0. cbn. now rewrite <- app_assoc.
    + exists [], w2, [ev; EvSearch [v] Supervised.search_params 10].
      split; [apply C2 |]. intros t b.
      unfold bind at 1. rewrite Eg. unfold_machine. cbn. rewrite Es. cbn.
      now rewrite <- app_assoc.
  - exists [], w1, [ev]. split; [apply C1 |]. intros t b.
    unfold bind at 1. rewrite Eg. unfold_machine. cbn. reflexivity.
Qed.

(** The logging block changes nothing. *)
Lemma print_user_state (st : St World) :
  exists r, print_user st = (r, st).
Proof.
  unfold print_user. unfold_machine.
  destruct (dict_mem (body st) (u "user")); [| now eexists].
  destruct (py_getitem (PDict (body st)) (u "user")) as [usr | e];
    [| now eexists].
  destruct (py_getitem usr (u "name")); [| now eexists].
  destruct (py_getitem usr (u "id")); now eexists.
Qed.

(** The first half of the supervised [pipe] leaves in [body] one user
    turn, made of the message and of the contexts retrieved in this
    call; it makes no generation request. *)
Lemma supervised_augment_run
    (valves : Supervised.Valves) (hc : bool) (user_message : pystr)
    (w : World) :
  exists ctx w' evs,
    generation_calls valves evs = 0
    /\ (forall t b,
          Supervised.retrieve_relevant_information valves hc user_message
            (mkSt w t b)
          = (Ret ctx, mkSt w' (t ++ evs) b))
    /\ forall t b, exists r,
        Supervised.augment valves hc user_message (mkSt w t b)
        = (r, mkSt w' (t ++ evs)
                (dict_set b (u "messages")
                   (PList [user_turn
                             (Supervised.combine_user_message_with_context
                                valves user_message ctx)]))).
Proof.
  destruct (supervised_retrieve_run valves hc user_message w)
    as (ctx & w' & evs & Hc & Er).
  exists ctx, w', evs. split; [exact Hc |]. split; [exact Er |].
  intros t b.
  unfold Supervised.augment, clear_messages, messages_append.
  unfold bind at 1. unfold bind at 1. unfold get_body at 1. cbn [body].
  unfold set_body at 1. cbn [world trace].
  unfold bind at 1. rewrite Er.
  unfold bind at 1. unfold bind at 1. unfold bind at 1.
  unfold get_body at 1. cbn [body]. unfold lift at 1.
  cbn [py_getitem]. rewrite dict_lookup_set_same.
  unfold set_body at 1. cbn [world trace app]. rewrite dict_set_set.
  apply print_user_state.
Qed.

Lemma print_user_absent (st : St World) :
  dict_mem (body st) (u "user") = false -> print_user st = (Ret tt, st).
Proof.
  intros E. unfold print_user. unfold_machine. now rewrite E.
Qed.

Lemma dict_mem_set_other (d : pydict) (k k' : pystr) (v : pyval) :
  str_eqb k k' = false -> dict_mem (dict_set d k v) k' = dict_mem d k'.
Proof.
  intros N. unfold dict_mem. now rewrite dict_lookup_set_other.
Qed.

Lemma supervised_augment_returns
    (valves : Supervised.Valves) (hc : bool) (user_message : pystr)
    (st : St World) :
  dict_mem (body st) (u "user") = false ->
  exists st1,
    Supervised.augment valves hc user_message st = (Ret tt, st1).
Proof.
  intros Hu. destruct st as [w t b]. cbn [body] in Hu.
  destruct (supervised_retrieve_run valves hc user_message w)
    as (ctx & w' & evs & Hc & Er).
  unfold Supervised.augment, clear_messages, messages_append.
  unfold bind at 1. unfold bind at 1. unfold get_body at 1. cbn [body].
  unfold set_body at 1. cbn [world trace].
  unfold bind at 1. rewrite Er.
  unfold bind at 1. unfold bind at 1. unfold bind at 1.
  unfold get_body at 1. cbn [body]. unfold lift at 1.
  rewrite py_getitem_set_same.
  unfold set_body at 1. cbn [world trace app]. rewrite dict_set_set.
  rewrite print_user_absent; [now eexists |].
  cbn [body]. now rewrite dict_mem_set_other.
Qed.

Lemma supervised_pipe_unfold
    (valves : Supervised.Valves) (hc : bool)
    (user_message model_id : pystr) (messages : list pyval) (st : St World) :
  Supervised.pipe valves hc user_message model_id messages st =
  match Supervised.augment valves hc user_message st with
  | (Ret _, st1) =>
    match Supervised.generation_loop valves Supervised.max_retries
            user_message st1 with
    | (Ret v, st') => (Ret (Value v), st')
    | (Raise e, st') =>
      (Ret (Value (PStr ((if is_RequestException e
                          then u "请求出错: " else u "其他错误: ")
                         ++ exn_str e))), st')
    end
  | (Raise e, st1) => (Raise e, st1)
  end.
Proof.
  unfold Supervised.pipe. unfold bind at 1.
  destruct (Supervised.augment valves hc user_message st) as [[[] | e] st1];
    [| reflexivity].
  unfold try_except2, bind, ret.
  destruct (Supervised.generation_loop valves Supervised.max_retries
              user_message st1) as [[v | e] st']; [reflexivity |].
  destruct (is_RequestException e); reflexivity.
Qed.

(** The supervised [pipe] returns a value whenever [body] has no
    ["user"] entry, whatever the services do. *)
Lemma supervised_pipe_returns
    (valves : Supervised.Valves) (hc : bool)
    (user_message model_id : pystr) (messages : list pyval) (st : St World) :
  dict_mem (body st) (u "user") = false ->
  exists v st',
    Supervised.pipe valves hc user_message model_id messages st
    = (Ret (Value v), st').
Proof.
  intros Hu. rewrite supervised_pipe_unfold.
  destruct (supervised_augment_returns valves hc user_message st Hu)
    as (st1 & ->).
  destruct (Supervised.generation_loop valves Supervised.max_retries
              user_message st1) as [[v | e] st']; now do 2 eexists.
Qed.
End Augment.

(** ** The retry bound *)

Section RetryBound.
Context {World : Type} `{Services World}.
Variable valves : Supervised.Valves.
Variable has_collection : bool.



Lemma augment_calls (user_message : pystr) (st : St World) r st1 :
  Supervised.augment valves has_collection user_message st = (r, st1) ->
  generation_calls valves (trace st1) = generation_calls valves (trace st).
Proof.
  destruct st as [w t b].
  destruct (supervised_augment_run valves has_collection user_message w)
    as (ctx & w' & evs & Hc & _ & Ha).
  destruct (Ha t b) as (r' & E). rewrite E. intros E'. inversion E'; subst.
  cbn [trace]. unfold generation_calls in *. rewrite posts_to_app, Hc. lia.
Qed.

End RetryBound.


(** ** No memory between calls *)

Lemma posts_to_zero_iff (url : pystr) (evs : list event) :
  posts_to url evs = 0 <-> Forall (fun ev => is_post_to url ev = false) evs.
Proof.
  unfold posts_to. induction evs as [|ev evs IH]; cbn.
  - split; [constructor | reflexivity].
  - destruct (is_post_to url ev) eqn:E; cbn.
    + split; [discriminate | intros F; inversion F; congruence].
    + rewrite IH. split; [now constructor | intros F; now inversion F].
Qed.

Lemma all_carry_none (url : pystr) (msgs : pyval) (evs : list event) :
  posts_to url evs = 0 -> all_carry url msgs evs.
Proof.
  intros Z. apply posts_to_zero_iff in Z. unfold all_carry.
  eapply Forall_impl; [| exact Z]. cbn. intros ev E1 E2. congruence.
Qed.

Lemma all_carry_app (url : pystr) (msgs : pyval) (e1 e2 : list event) :
  all_carry url msgs e1 -> all_carry url msgs e2 ->
  all_carry url msgs (e1 ++ e2).
Proof. unfold all_carry. intros. now apply Forall_app. Qed.

Section Stateless.
Context {World : Type} `{Services World}.

Lemma generation_request_carries (valves : Supervised.Valves) (b : pydict) :
  sent_messages (generation_request valves b) = dict_lookup b (u "messages").
Proof. cbn. now apply dict_lookup_set_other. Qed.

(** The passes of the loop leave [body] alone, and their generation
    requests carry its message list. *)
Lemma generation_loop_carries (valves : Supervised.Valves)
    (user_message : pystr) (n : nat) :
  forall (st : St World) r st' msgs,
    dict_lookup (body st) (u "messages") = Some msgs ->
    Supervised.generation_loop valves n user_message st = (r, st') ->
    body st' = body st
    /\ exists evs,
         trace st' = trace st ++ evs
         /\ all_carry (generation_url valves) msgs evs.
Proof.
  induction n as [|n IH]; intros st r st' msgs Hm E.
  - cbn in E. inversion E; subst. split; [reflexivity |].
    exists []. split; [now rewrite app_nil_r | constructor].
  - cbn [Supervised.generation_loop] in E. unfold bind at 1 in E.
    destruct (Supervised.attempt valves user_message st)
      as [[[answer verdict] | e] st1] eqn:Ea.
    + destruct (attempt_spec _ _ _ Ea) as (Hb & evs & Ht & Hc).
      assert (Hone : all_carry (generation_url valves) msgs
                       (generation_request valves (body st) :: evs)).
      { constructor; [| now apply all_carry_none].
        intros _. now rewrite generation_request_carries. }
      cbn [fst snd] in E. destruct verdict.
      * inversion E; subst. split; [exact Hb |]. eexists. split; eassumption.
      * apply (IH st1 r st' msgs) in E; [| now rewrite Hb].
        destruct E as (Hb' & evs' & Ht' & Hc').
        split; [congruence |].
        exists ((generation_request valves (body st) :: evs) ++ evs').
        split; [now rewrite Ht', Ht, <- app_assoc |].
        now apply all_carry_app.
    + destruct (attempt_spec _ _ _ Ea) as (Hb & evs & Ht & Hc).
      inversion E; subst. split; [exact Hb |]. eexists. split; [eassumption |].
      constructor; [| now apply all_carry_none].
      intros _. now rewrite generation_request_carries.
Qed.

(** The supervised [pipe], whatever [body] and the trace hold when it
    is called. *)
Lemma supervised_pipe_fresh (valves : Supervised.Valves) (hc : bool)
    (user_message model_id : pystr) (messages : list pyval) (w : World) :
  exists ctx,
    fst (Supervised.retrieve_relevant_information valves hc user_message
           (mkSt w [] [])) = Ret ctx
    /\ forall t b,
        let run := Supervised.pipe valves hc user_message model_id messages
                     (mkSt w t b) in
        let turns :=
          PList [user_turn (Supervised.combine_user_message_with_context
                              valves user_message ctx)] in
        dict_lookup (body (snd run)) (u "messages") = Some turns
        /\ exists evs,
             trace (snd run) = t ++ evs
             /\ all_carry (generation_url valves) turns evs.
Proof.
  destruct (supervised_augment_run valves hc user_message w)
    as (ctx & w' & evs & Hc & Er & Ha).
  exists ctx. split; [now rewrite Er |].
  intros t b. cbv zeta. rewrite supervised_pipe_unfold.
  destruct (Ha t b) as (r & Ea). rewrite Ea.
  set (turns := PList [user_turn
                         (Supervised.combine_user_message_with_context
                            valves user_message ctx)]) in *.
  set (st1 := mkSt w' (t ++ evs) (dict_set b (u "messages") turns)) in *.
  assert (Hm : dict_lookup (body st1) (u "messages") = Some turns)
    by apply dict_lookup_set_same.
  destruct r as [[] | e]; cbn [snd].
  - destruct (Supervised.generation_loop valves Supervised.max_retries
                user_message st1) as [r' st'] eqn:El.
    destruct (generation_loop_carries _ _ _ _ Hm El)
      as (Hb & evs' & Ht & Hcar).
    assert (G : dict_lookup (body st') (u "messages") = Some turns
                /\ exists evs0, trace st' = t ++ evs0
                     /\ all_carry (generation_url valves) turns evs0).
    { split; [now rewrite Hb |]. exists (evs ++ evs').
      split; [rewrite Ht; cbn; now rewrite app_assoc |].
      apply all_carry_app; [now apply all_carry_none | exact Hcar]. }
    destruct r'; exact G.
  - split; [exact Hm |]. exists evs. split; [reflexivity |].
    now apply all_carry_none.
Qed.

Lemma base_embedding_is_not_generation (valves : RAGpipeline.Valves)
    payload stream :
  is_post_to (base_generation_url valves)
    (EvPost (RAGpipeline.OLLAMA_HOST valves ++ u "/api/embeddings")
       payload stream) = false.
Proof. cbn. apply str_eqb_suffix. discriminate. Qed.

Lemma base_generate_embedding_run
    (valves : RAGpipeline.Valves) (text : pystr) (w : World) :
  exists v w' ev,
    is_post_to (base_generation_url valves) ev = false
    /\ forall t b,
        RAGpipeline.generate_embedding valves text (mkSt w t b)
        = (Ret v, mkSt w' (t ++ [ev]) b).
Proof.
  unfold RAGpipeline.generate_embedding. unfold_machine. cbn [world trace body].
  split_answer;
    [destruct (raise_for_status resp); cbn;
       [| destruct (json resp) as [j|]; cbn;
          [destruct (py_get j (u "embedding") (PList [])) as [emb|]; cbn |]] |];
    do 3 eexists; (split; [apply base_embedding_is_not_generation |]);
    intros; reflexivity.
Qed.

(** The retrieval of the base pipeline ends in a way that depends on
    the message and on the world alone. *)
Lemma base_retrieve_run
    (valves : RAGpipeline.Valves) (user_message : pystr) (w : World) :
  exists r w' evs,
    posts_to (base_generation_url valves) evs = 0
    /\ forall t b,
        RAGpipeline.retrieve_relevant_information valves user_message
          (mkSt w t b)
        = (r, mkSt w' (t ++ evs) b).
Proof.
  destruct (base_generate_embedding_run valves user_message w)
    as (v & w1 & ev & Hev & Eg).
  unfold RAGpipeline.retrieve_relevant_information.
  assert (C : forall d p l,
             posts_to (base_generation_url valves) [ev; EvSearch d p l] = 0).
  { intros. unfold posts_to. cbn. now rewrite Hev. }
  destruct (collection_search [v] RAGpipeline.search_params 5 w1)
    as [[results | e] w2] eqn:Es.
  - destruct (list_getitem0 results) as [hits | e] eqn:E0.
    + exists (Ret (map text_segment hits)), w2,
        [ev; EvSearch [v] RAGpipeline.search_params 5].
      split; [apply C |]. intros t b.
      unfold bind at 1. rewrite Eg. unfold_machine. cbn.
      rewrite Es, E0. now rewrite <- app_assoc.
    + exists (Raise e), w2, [ev; EvSearch [v] RAGpipeline.search_params 5].
      split; [apply C |]. intros t b.
      unfold bind at 1. rewrite Eg. unfold_machine. cbn.
      rewrite Es, E0. now rewrite <- app_assoc.
  - exists (Raise e), w2, [ev; EvSearch [v] RAGpipeline.search_params 5].
    split; [apply C |]. intros t b.
    unfold bind at 1. rewrite Eg. unfold_machine. cbn.
    rewrite Es. now rewrite <- app_assoc.
Qed.

(** The second half of the base [pipe] makes one generation request,
    with the caller's [body] and the model name, and returns a value. *)
Lemma base_generation_part (valves : RAGpipeline.Valves) (st : St World) :
  exists v w',
    try_except
      (b <- get_body ;;
       r <- post (RAGpipeline.OLLAMA_HOST valves ++ u "/v1/chat/completions")
              (PDict (dict_set b (u "model")
                        (PStr (RAGpipeline.LLM_MODEL valves))))
              true ;;
       check_status r ;;;
       stream <- lift (py_getitem (PDict b) (u "stream")) ;;
       if truthy stream
       then ret (Lines (iter_lines r) (iter_error r))
       else (j <- lift (json r) ;; ret (Value j)))
      is_Exception
      (fun e => ret (Value (PStr (u "Error: " ++ exn_str e))))
      st
    = (Ret v,
       mkSt w'
         (trace st ++
          [EvPost (base_generation_url valves)
             (PDict (dict_set (body st) (u "model")
                       (PStr (RAGpipeline.LLM_MODEL valves))))
             true])
         (body st)).
Proof.
  unfold_machine. unfold base_generation_url. split_answer.
  2:{ do 2 eexists; reflexivity. }
  destruct (raise_for_status resp); cbn; [do 2 eexists; reflexivity |].
  destruct (dict_lookup (body st) (u "stream")) as [s |]; cbn;
    [| do 2 eexists; reflexivity].
  destruct (truthy s); cbn; [do 2 eexists; reflexivity |].
  destruct (json resp); cbn; do 2 eexists; reflexivity.
Qed.

(** The first half of the base [pipe]: one user turn when the
    retrieval returns, an empty message list when it raises. *)
Lemma base_augment_run
    (valves : RAGpipeline.Valves) (user_message : pystr) (w : World) :
  exists r w' evs,
    posts_to (base_generation_url valves) evs = 0
    /\ (forall t b,
          RAGpipeline.retrieve_relevant_information valves user_message
            (mkSt w t b)
          = (r, mkSt w' (t ++ evs) b))
    /\ forall t b,
        match r with
        | Ret ctx =>
          exists r',
            RAGpipeline.augment valves user_message (mkSt w t b)
            = (r', mkSt w' (t ++ evs)
                     (dict_set b (u "messages")
                        (PList [user_turn
                                  (RAGpipeline.combine_user_message_with_context
                                     valves user_message ctx)])))
        | Raise e =>
          RAGpipeline.augment valves user_message (mkSt w t b)
          = (Raise e, mkSt w' (t ++ evs) (dict_set b (u "messages") (PList [])))
        end.
Proof.
  destruct (base_retrieve_run valves user_message w)
    as (r & w' & evs & Hc & Er).
  exists r, w', evs. split; [exact Hc |]. split; [exact Er |].
  intros t b.
  destruct r as [ctx | e];
    unfold RAGpipeline.augment, clear_messages, messages_append;
    unfold bind at 1; unfold bind at 1; unfold get_body at 1; cbn [body];
    unfold set_body at 1; cbn [world trace];
    unfold bind at 1; rewrite Er; [| reflexivity].
  unfold bind at 1. unfold bind at 1. unfold bind at 1.
  unfold get_body at 1. cbn [body]. unfold lift at 1.
  rewrite py_getitem_set_same.
  unfold set_body at 1. cbn [world trace app]. rewrite dict_set_set.
  apply print_user_state.
Qed.

Lemma base_pipe_unfold (valves : RAGpipeline.Valves)
    (user_message model_id : pystr) (messages : list pyval) (st : St World) :
  RAGpipeline.pipe valves user_message model_id messages st =
  match RAGpipeline.augment valves user_message st with
  | (Ret _, st1) =>
    try_except
      (b <- get_body ;;
       r <- post (RAGpipeline.OLLAMA_HOST valves ++ u "/v1/chat/completions")
              (PDict (dict_set b (u "model")
                        (PStr (RAGpipeline.LLM_MODEL valves))))
              true ;;
       check_status r ;;;
       stream <- lift (py_getitem (PDict b) (u "stream")) ;;
       if truthy stream
       then ret (Lines (iter_lines r) (iter_error r))
       else (j <- lift (json r) ;; ret (Value j)))
      is_Exception
      (fun e => ret (Value (PStr (u "Error: " ++ exn_str e))))
      st1
  | (Raise e, st1) => (Raise e, st1)
  end.
Proof.
  unfold RAGpipeline.pipe. unfold bind at 1.
  destruct (RAGpipeline.augment valves user_message st) as [[[] | e] st1];
    reflexivity.
Qed.

(** The base [pipe], whatever [body] and the trace hold when it is
    called. *)
Lemma base_pipe_fresh (valves : RAGpipeline.Valves)
    (user_message model_id : pystr) (messages : list pyval) (w : World) :
  forall t b,
    let run := RAGpipeline.pipe valves user_message model_id messages
                 (mkSt w t b) in
    exists evs,
      trace (snd run) = t ++ evs
      /\ match fst (RAGpipeline.retrieve_relevant_information valves
                      user_message (mkSt w [] [])) with
         | Ret ctx =>
           let turns :=
             PList [user_turn (RAGpipeline.combine_user_message_with_context
                                 valves user_message ctx)] in
           dict_lookup (body (snd run)) (u "messages") = Some turns
           /\ all_carry (base_generation_url valves) turns evs
         | Raise e =>
           fst run = Raise e
           /\ dict_lookup (body (snd run)) (u "messages") = Some (PList [])
           /\ posts_to (base_generation_url valves) evs = 0
         end.
Proof.
  destruct (base_augment_run valves user_message w)
    as (r & w' & evs & Hc & Er & Ha).
  intros t b. cbv zeta. rewrite Er. cbn [fst].
  rewrite base_pipe_unfold. specialize (Ha t b).
  destruct r as [ctx | e].
  - destruct Ha as (r' & Ea). rewrite Ea.
    set (turns := PList [user_turn
                           (RAGpipeline.combine_user_message_with_context
                              valves user_message ctx)]).
    set (st1 := mkSt w' (t ++ evs) (dict_set b (u "messages") turns)).
    destruct r' as [[] | e].
    + destruct (base_generation_part valves st1) as (v & w2 & Eg).
      rewrite Eg. cbn [snd trace body]. unfold st1. cbn [trace body].
      eexists. split.
      * now rewrite <- app_assoc.
      * split; [apply dict_lookup_set_same |].
        apply all_carry_app; [now apply all_carry_none |].
        constructor; [| constructor]. intros _. cbn [sent_messages].
        rewrite dict_lookup_set_other by reflexivity.
        apply dict_lookup_set_same.
    + cbn [snd]. unfold st1. cbn [trace body].
      exists evs. split; [reflexivity |].
      split; [apply dict_lookup_set_same | now apply all_carry_none].
  - rewrite Ha. cbn [snd fst trace body]. exists evs. split; [reflexivity |].
    split; [reflexivity |]. split; [apply dict_lookup_set_same | exact Hc].
Qed.

(** C8. Take any first call to [pipe] and the state it leaves, and a
    second call with any [body] (the same object, a new one, anything).
    After the second call the message list of its [body] is exactly one
    user turn, whose content is the prompt built from the second
    message and from the contexts retrieved from the store during that
    call; every generation request of the second call carries that list
    and nothing else as messages.  The prompt is a function of the
    second message and of the outside world: nothing of the first
    call's body, contexts or answer enters it.  In the base pipeline
    this holds whenever the retrieval of the second call returns; when
    it raises, the message list is empty and no generation request is
    made. *)
Theorem C8_second_call_prompt_is_fresh :
  (forall (valves : Supervised.Valves) (hc : bool)
          (m1 id1 : pystr) (msgs1 : list pyval) (st0 : St World)
          (m2 id2 : pystr) (msgs2 : list pyval) (body2 : pydict),
      let st1 := snd (Supervised.pipe valves hc m1 id1 msgs1 st0) in
      let run2 := Supervised.pipe valves hc m2 id2 msgs2
                    (mkSt (world st1) (trace st1) body2) in
      exists ctx2 evs,
        fst (Supervised.retrieve_relevant_information valves hc m2
               (mkSt (world st1) [] [])) = Ret ctx2
        /\ dict_lookup (body (snd run2)) (u "messages")
           = Some (PList [user_turn
                            (Supervised.combine_user_message_with_context
                               valves m2 ctx2)])
        /\ trace (snd run2) = trace st1 ++ evs
        /\ all_carry (generation_url valves)
             (PList [user_turn
                       (Supervised.combine_user_message_with_context
                          valves m2 ctx2)])
             evs)
  /\ (forall (valves : RAGpipeline.Valves)
             (m1 id1 : pystr) (msgs1 : list pyval) (st0 : St World)
             (m2 id2 : pystr) (msgs2 : list pyval) (body2 : pydict),
        let st1 := snd (RAGpipeline.pipe valves m1 id1 msgs1 st0) in
        let run2 := RAGpipeline.pipe valves m2 id2 msgs2
                      (mkSt (world st1) (trace st1) body2) in
        exists evs,
          trace (snd run2) = trace st1 ++ evs
          /\ match fst (RAGpipeline.retrieve_relevant_information valves m2
                          (mkSt (world st1) [] [])) with
             | Ret ctx2 =>
               dict_lookup (body (snd run2)) (u "messages")
               = Some (PList [user_turn
                                (RAGpipeline.combine_user_message_with_context
                                   valves m2 ctx2)])
               /\ all_carry (base_generation_url valves)
                    (PList [user_turn
                              (RAGpipeline.combine_user_message_with_context
                                 valves m2 ctx2)])
                    evs
             | Raise e =>
               fst run2 = Raise e
               /\ dict_lookup (body (snd run2)) (u "messages")
                  = Some (PList [])
               /\ posts_to (base_generation_url valves) evs = 0
             end).
Proof.
  split.
  - intros valves hc m1 id1 msgs1 st0 m2 id2 msgs2 body2 st1 run2.
    destruct (supervised_pipe_fresh valves hc m2 id2 msgs2 (world st1))
      as (ctx2 & Er & Hp).
    destruct (Hp (trace st1) body2) as (Hm & evs & Ht & Hc).
    exists ctx2, evs. repeat split; assumption.
  - intros valves m1 id1 msgs1 st0 m2 id2 msgs2 body2 st1 run2.
    apply base_pipe_fresh.
Qed.
End Stateless.

(** ** Ingestion of one document *)

Section IngestionProperties.
Context {World : Type} `{Services World}.

(** The summary makes one post; when that request fails with an
    exception of [requests], the text comes back unchanged. *)
Lemma summarize_spec (text prompt : pystr) (st : St World) :
  exists res st',
    Doc2DB.summarize_text_with_llm text prompt st = (res, st')
    /\ body st' = body st
    /\ trace st' =
       trace st ++ [EvPost summary_url (summary_payload prompt text) false]
    /\ (request_failed_with is_RequestException
          (fst (requests_post summary_url (summary_payload prompt text)
                  false (world st))) ->
        res = Ret (PStr text)).
Proof.
  unfold Doc2DB.summarize_text_with_llm. unfold_machine.
  change (Doc2DB.default_base_url ++ u "/v1/chat/completions")
    with summary_url.
  change (PDict [(u "model", PStr Doc2DB.default_llm_model);
                 (u "messages",
                  PList [PDict [(u "role", PStr (u "system"));
                                (u "content", PStr prompt)];
                         PDict [(u "role", PStr (u "user"));
                                (u "content", PStr text)]]);
                 (u "stream", PBool false)])
    with (summary_payload prompt text).
  destruct (requests_post summary_url (summary_payload prompt text) false
              (world st)) as [[resp | e] w]; cbn [fst].
  2:{ destruct (is_RequestException e) eqn:Ee;
        do 2 eexists; (split; [reflexivity |]); (split; [reflexivity |]);
        (split; [reflexivity |]); cbn [request_failed_with];
        intros; congruence. }
  destruct (raise_for_status resp) as [e|] eqn:Es;
    cbn -[is_RequestException request_failed_with].
  { destruct (is_RequestException e) eqn:Ee;
      do 2 eexists; (split; [reflexivity |]); (split; [reflexivity |]);
      (split; [reflexivity |]);
      intros (e' & E & Ee'); rewrite Es in E; inversion E; subst;
      congruence. }
  assert (Hno : forall res : result pyval,
             request_failed_with is_RequestException (Ret resp) ->
             res = Ret (PStr text)).
  { intros res (e & E & _). rewrite Es in E. discriminate. }
  destruct (json resp) as [j | e]; cbn.
  2:{ destruct (is_RequestException e);
        do 2 eexists; (split; [reflexivity |]); (split; [reflexivity |]);
        (split; [reflexivity |]); apply Hno. }
  destruct (py_get j (u "choices") (PList [])) as [ch | e]; cbn.
  2:{ destruct (is_RequestException e);
        do 2 eexists; (split; [reflexivity |]); (split; [reflexivity |]);
        (split; [reflexivity |]); apply Hno. }
  destruct (py_getitem0 ch) as [c0 | e]; cbn.
  2:{ destruct (is_RequestException e);
        do 2 eexists; (split; [reflexivity |]); (split; [reflexivity |]);
        (split; [reflexivity |]); apply Hno. }
  destruct (py_get c0 (u "message") (PDict [])) as [m | e]; cbn.
  2:{ destruct (is_RequestException e);
        do 2 eexists; (split; [reflexivity |]); (split; [reflexivity |]);
        (split; [reflexivity |]); apply Hno. }
  destruct (py_get m (u "content") (PStr [])) as [c | e]; cbn;
    [| destruct (is_RequestException e)];
    do 2 eexists; (split; [reflexivity |]); (split; [reflexivity |]);
    (split; [reflexivity |]); apply Hno.
Qed.

(** The embedding of the ingestion makes one post. *)
Lemma doc2db_embedding_trace (text : pyval) (st : St World) :
  exists res st',
    Doc2DB.generate_embedding text st = (res, st')
    /\ body st' = body st
    /\ trace st' =
       trace st ++
       [EvPost embedding_url
          (PDict [(u "model", PStr Doc2DB.default_embedding_model);
                  (u "prompt", text)])
          false].
Proof.
  unfold Doc2DB.generate_embedding. unfold_machine.
  change (Doc2DB.default_base_url ++ u "/api/embeddings") with embedding_url.
  split_answer.
  2:{ destruct (is_RequestException e); do 2 eexists; repeat split. }
  destruct (raise_for_status resp) as [e|]; cbn.
  { destruct (is_RequestException e); do 2 eexists; repeat split. }
  destruct (json resp) as [j | e]; cbn.
  2:{ destruct (is_RequestException e); do 2 eexists; repeat split. }
  destruct (py_get j (u "embedding") (PList [])) as [emb | e]; cbn;
    [| destruct (is_RequestException e)]; do 2 eexists; repeat split.
Qed.

(** An embedding that is empty or not a list: the segment is skipped,
    nothing is given to the store. *)
Lemma embed_and_insert_skips (summarized emb : pyval) (st st1 : St World) :
  Doc2DB.generate_embedding summarized st = (Ret emb, st1) ->
  truthy emb && is_list emb = false ->
  exists r, Doc2DB.embed_and_insert summarized st = (r, st1).
Proof.
  intros Eg Hc. unfold Doc2DB.embed_and_insert. unfold bind at 1.
  rewrite Eg, Hc. unfold_machine.
  destruct (py_slice_to summarized 50); eexists; reflexivity.
Qed.

(** A usable embedding: the record is given to the store, and whatever
    the store does, an exception included, the loop body ends
    normally. *)
Lemma embed_and_insert_tolerates (summarized emb : pyval) (st st1 : St World) :
  Doc2DB.generate_embedding summarized st = (Ret emb, st1) ->
  truthy emb && is_list emb = true ->
  Doc2DB.embed_and_insert summarized st
  = (Ret tt,
     mkSt (snd (collection_insert (stored_record emb summarized) (world st1)))
       (trace st1 ++ [EvInsert (stored_record emb summarized)])
       (body st1)).
Proof.
  intros Eg Hc. unfold Doc2DB.embed_and_insert. unfold bind at 1.
  rewrite Eg, Hc. unfold_machine. fold (stored_record emb summarized).
  destruct (collection_insert (stored_record emb summarized) (world st1))
    as [[[] | e] w]; cbn; [| reflexivity].
  destruct (py_slice_to summarized 50); reflexivity.
Qed.

Lemma posts_to_snoc (url : pystr) (tr : list event) (ev : event) :
  posts_to url (tr ++ [ev])
  = posts_to url tr + (if is_post_to url ev then 1 else 0).
Proof.
  rewrite posts_to_app. unfold posts_to. cbn.
  now destruct (is_post_to url ev).
Qed.

(** With a model service whose summaries and embeddings come back,
    every segment that is not blank is summarized and embedded, and the
    loop ends normally, whatever the store does with the insertions. *)
Lemma process_segments_runs_through (prompt : pystr) :
  (forall text st, exists v st',
      Doc2DB.summarize_text_with_llm text prompt st = (Ret (PStr v), st')) ->
  (forall text st, exists emb st',
      Doc2DB.generate_embedding text st = (Ret emb, st')) ->
  forall segs st,
  exists st',
    Doc2DB.process_segments prompt segs st = (Ret tt, st')
    /\ posts_to summary_url (trace st')
       = posts_to summary_url (trace st) + length (non_blank segs)
    /\ posts_to embedding_url (trace st')
       = posts_to embedding_url (trace st) + length (non_blank segs).
Proof.
  intros Hs He. induction segs as [|segment rest IH]; intros st.
  - exists st. cbn. repeat split; lia.
  - cbn [Doc2DB.process_segments]. unfold bind at 1.
    unfold Doc2DB.process_segment. unfold non_blank in *. cbn [filter].
    destruct (Doc2DB.is_blank segment) eqn:Hb; cbn [negb].
    + unfold ret at 1. apply IH.
    + destruct (Hs segment st) as (v & st1 & Esum).
      destruct (summarize_spec segment prompt st)
        as (res & st1' & Esum' & _ & Ht1 & _).
      rewrite Esum in Esum'. inversion Esum'; subst res st1'. clear Esum'.
      destruct (He (PStr v) st1) as (emb & st2 & Eemb).
      destruct (doc2db_embedding_trace (PStr v) st1)
        as (res & st2' & Eemb' & _ & Ht2).
      rewrite Eemb in Eemb'. inversion Eemb'; subst res st2'. clear Eemb'.
      unfold bind at 1. rewrite Esum.
      destruct (truthy emb && is_list emb) eqn:Hc.
      * rewrite (embed_and_insert_tolerates _ _ Eemb Hc).
        match goal with
        | |- context [Doc2DB.process_segments prompt rest ?s] =>
          destruct (IH s) as (st' & Ep & Hsum & Hemb)
        end.
        exists st'. split; [exact Ep |].
        cbn [trace length] in *.
        rewrite Hsum, Hemb, !posts_to_snoc, Ht2, !posts_to_snoc, Ht1,
          !posts_to_snoc.
        cbn [is_post_to]. split.
        -- replace (str_eqb summary_url summary_url) with true
             by (symmetry; apply str_eqb_refl).
           replace (str_eqb embedding_url summary_url) with false
             by (vm_compute; reflexivity).
           lia.
        -- replace (str_eqb embedding_url embedding_url) with true
             by (symmetry; apply str_eqb_refl).
           replace (str_eqb summary_url embedding_url) with false
             by (vm_compute; reflexivity).
           lia.
      * assert (Esk : Doc2DB.embed_and_insert (PStr v) st1 = (Ret tt, st2)).
        { unfold Doc2DB.embed_and_insert. unfold bind at 1.
          rewrite Eemb, Hc. reflexivity. }
        rewrite Esk.
        destruct (IH st2) as (st' & Ep & Hsum & Hemb).
        exists st'. split; [exact Ep |].
        cbn [length].
        rewrite Hsum, Hemb, Ht2, !posts_to_snoc, Ht1, !posts_to_snoc.
        cbn [is_post_to]. split.
        -- replace (str_eqb summary_url summary_url) with true
             by (symmetry; apply str_eqb_refl).
           replace (str_eqb embedding_url summary_url) with false
             by (vm_compute; reflexivity).
           lia.
        -- replace (str_eqb embedding_url embedding_url) with true
             by (symmetry; apply str_eqb_refl).
           replace (str_eqb summary_url embedding_url) with false
             by (vm_compute; reflexivity).
           lia.
Qed.

(** C7. In the loop of [process_file] over the segments of one
    document: when the summary request of a segment fails with an
    exception of [requests], the segment text itself is embedded and
    inserted; when the embedding is empty or not a list, nothing is
    given to the store for that segment; when the record is given to
    the store, the loop goes on with the remaining segments from the
    state the store leaves, whether the insertion succeeded or raised;
    and with a model service whose summaries and embeddings come back,
    every segment that is not blank is summarized and embedded and the
    loop ends normally, whatever the insertions do. *)
Theorem C7_ingestion_degrades_per_segment (prompt : pystr) :
  (forall segment st,
      Doc2DB.is_blank segment = false ->
      request_failed_with is_RequestException
        (fst (requests_post summary_url (summary_payload prompt segment)
                false (world st))) ->
      exists st1,
        Doc2DB.summarize_text_with_llm segment prompt st
        = (Ret (PStr segment), st1)
        /\ Doc2DB.process_segment prompt segment st
           = Doc2DB.embed_and_insert (PStr segment) st1)
  /\ (forall summarized emb st st1,
        Doc2DB.generate_embedding summarized st = (Ret emb, st1) ->
        truthy emb && is_list emb = false ->
        exists r,
          Doc2DB.embed_and_insert summarized st = (r, st1)
          /\ insert_attempts (trace st1) = insert_attempts (trace st))
  /\ (forall segment rest summarized emb st st1 st2,
        Doc2DB.is_blank segment = false ->
        Doc2DB.summarize_text_with_llm segment prompt st
        = (Ret summarized, st1) ->
        Doc2DB.generate_embedding summarized st1 = (Ret emb, st2) ->
        truthy emb && is_list emb = true ->
        Doc2DB.process_segments prompt (segment :: rest) st
        = Doc2DB.process_segments prompt rest
            (mkSt (snd (collection_insert (stored_record emb summarized)
                          (world st2)))
               (trace st2 ++ [EvInsert (stored_record emb summarized)])
               (body st2)))
  /\ ((forall text st, exists v st',
          Doc2DB.summarize_text_with_llm text prompt st
          = (Ret (PStr v), st')) ->
      (forall text st, exists emb st',
          Doc2DB.generate_embedding text st = (Ret emb, st')) ->
      forall segs st,
      exists st',
        Doc2DB.process_segments prompt segs st = (Ret tt, st')
        /\ posts_to summary_url (trace st')
           = posts_to summary_url (trace st) + length (non_blank segs)
        /\ posts_to embedding_url (trace st')
           = posts_to embedding_url (trace st) + length (non_blank segs)).
Proof.
  split; [| split; [| split]].
  - intros segment st Hb F.
    destruct (summarize_spec segment prompt st)
      as (res & st1 & Esum & _ & _ & Hf).
    rewrite (Hf F) in Esum. exists st1. split; [exact Esum |].
    unfold Doc2DB.process_segment. rewrite Hb.
    unfold bind at 1. now rewrite Esum.
  - intros summarized emb st st1 Eg Hc.
    destruct (embed_and_insert_skips _ _ Eg Hc) as (r & E).
    exists r. split; [exact E |].
    destruct (doc2db_embedding_trace summarized st)
      as (res & st' & Eg' & _ & Ht).
    rewrite Eg in Eg'. inversion Eg'; subst. rewrite Ht.
    clear. induction (trace st) as [|ev tr IH]; [reflexivity |].
    cbn. destruct ev; cbn; now rewrite ?IH.
  - intros segment rest summarized emb st st1 st2 Hb Esum Eg Hc.
    cbn [Doc2DB.process_segments]. unfold bind at 1.
    unfold Doc2DB.process_segment. rewrite Hb.
    unfold bind at 1. rewrite Esum.
    now rewrite (embed_and_insert_tolerates _ _ Eg Hc).
  - apply process_segments_runs_through.
Qed.

(** [process_file] never raises: what its body raises is caught and
    logged. *)
Lemma process_file_returns (file_path : pystr) (segment_length : Z)
    (prompt : pystr) (st : St World) :
  exists st',
    Doc2DB.process_file file_path segment_length prompt st = (Ret tt, st').
Proof.
  unfold Doc2DB.process_file, try_except.
  match goal with
  | |- context [match ?c st with _ => _ end] =>
    destruct (c st) as [[[] | e] st']
  end; eexists; reflexivity.
Qed.
End IngestionProperties.

(** C7, witness: the document [A. B. C.] cut at length 4, with a first
    summary request answered by a 500 status and a store that refuses
    every insertion.  The first segment is embedded as it is; its
    record is refused and the loop goes on with the second segment;
    both segments are summarized and embedded, two records are given to
    the store, and the loop ends normally.  With the model service
    unreachable the embedding is the empty list and nothing is given to
    the store. *)
Lemma C7_ingestion_degrades_per_segment_witness :
  (exists st1,
      @Doc2DB.summarize_text_with_llm nat
        (Scenario.services Scenario.store_refuses)
        (u "A. B") Doc2DB.default_prompt (Scenario.start [])
      = (Ret (PStr (u "A. B")), st1))
  /\ (exists r st1,
        @Doc2DB.embed_and_insert nat (Scenario.services Scenario.model_down)
          (PStr (u "A. B")) (Scenario.start []) = (r, st1)
        /\ insert_attempts (trace st1) = [])
  /\ (exists emb st3,
        insert_attempts (trace st3) = [stored_record emb (PStr (u "A. B"))]
        /\ @Doc2DB.process_segments nat
             (Scenario.services Scenario.store_refuses)
             Doc2DB.default_prompt [u "A. B"; u ". C."] (Scenario.start [])
           = @Doc2DB.process_segments nat
               (Scenario.services Scenario.store_refuses)
               Doc2DB.default_prompt [u ". C."] st3)
  /\ exists st',
       @Doc2DB.process_segments nat
         (Scenario.services Scenario.store_refuses)
         Doc2DB.default_prompt [u "A. B"; u ". C."] (Scenario.start [])
       = (Ret tt, st')
       /\ posts_to summary_url (trace st') = 2
       /\ posts_to embedding_url (trace st') = 2
       /\ length (insert_attempts (trace st')) = 2.
Proof.
  destruct (@C7_ingestion_degrades_per_segment nat
              (Scenario.services Scenario.store_refuses)
              Doc2DB.default_prompt) as (Ha & _ & Hc & Hd).
  destruct (@C7_ingestion_degrades_per_segment nat
              (Scenario.services Scenario.model_down)
              Doc2DB.default_prompt) as (_ & Hb & _).
  split; [| split; [| split]].
  - destruct (Ha (u "A. B") (Scenario.start [])) as (st1 & E & _).
    + reflexivity.
    + exists (mkExn HTTPError (u "500 Server Error")). split; reflexivity.
    + now exists st1.
  - pose (st1 := snd (@Doc2DB.generate_embedding nat
                        (Scenario.services Scenario.model_down)
                        (PStr (u "A. B")) (Scenario.start []))).
    destruct (Hb (PStr (u "A. B")) (PList []) (Scenario.start []) st1)
      as (r & E & Hi); [reflexivity | reflexivity |].
    exists r, st1. exact (conj E Hi).
  - set (svc := Scenario.services Scenario.store_refuses).
    pose (st1 := snd (@Doc2DB.summarize_text_with_llm nat svc
                        (u "A. B") Doc2DB.default_prompt (Scenario.start []))).
    pose (emb := PList [PFloat Scenario.one; PFloat Scenario.one;
                        PFloat Scenario.one]).
    pose (st2 := snd (@Doc2DB.generate_embedding nat svc
                        (PStr (u "A. B")) st1)).
    assert (Es : @Doc2DB.summarize_text_with_llm nat svc
                   (u "A. B") Doc2DB.default_prompt (Scenario.start [])
                 = (Ret (PStr (u "A. B")), st1)) by (vm_compute; reflexivity).
    assert (Ee : @Doc2DB.generate_embedding nat svc (PStr (u "A. B")) st1
                 = (Ret emb, st2)) by (vm_compute; reflexivity).
    pose proof (Hc (u "A. B") [u ". C."] (PStr (u "A. B")) emb
                  (Scenario.start []) st1 st2 eq_refl Es Ee eq_refl) as E.
    exists emb. eexists. split; [| exact E].
    vm_compute. reflexivity.
  - assert (Hs : forall text st, exists v st',
               @Doc2DB.summarize_text_with_llm nat
                 (Scenario.services Scenario.store_refuses)
                 text Doc2DB.default_prompt st = (Ret (PStr v), st')).
    { intros text [[|n] t b]; do 2 eexists; reflexivity. }
    assert (He : forall text st, exists emb st',
               @Doc2DB.generate_embedding nat
                 (Scenario.services Scenario.store_refuses)
                 text st = (Ret emb, st')).
    { intros text [n t b]. do 2 eexists. reflexivity. }
    destruct (Hd Hs He [u "A. B"; u ". C."] (Scenario.start []))
      as (st' & Ep & Hsum & Hemb).
    exists st'. split; [exact Ep |].
    split; [rewrite Hsum; reflexivity |].
    split; [rewrite Hemb; reflexivity |].
    vm_compute in Ep. inversion Ep. reflexivity.
Defined.

(** C8, witness: two calls in a row on the same [body] object.  After
    the second call the message list holds the one turn built from the
    second question and the segment retrieved for it; the earlier
    question and the first answer are gone. *)
Lemma C8_second_call_prompt_is_fresh_witness :
  let svc := Scenario.services (Scenario.supervisor (fun _ => "符合"%string)) in
  let st1 :=
    snd (@Supervised.pipe nat svc Supervised.default_valves true
           (u "What is X?") (u "rag") [] (Scenario.start Scenario.a_body)) in
  let run2 :=
    @Supervised.pipe nat svc Supervised.default_valves true
      (u "What is Z?") (u "rag") [] (mkSt (world st1) (trace st1) (body st1)) in
  dict_lookup (body (snd run2)) (u "messages")
  = Some (PList [user_turn
                   (Supervised.combine_user_message_with_context
                      Supervised.default_valves (u "What is Z?")
                      [u "X is defined as Y"])]).
Proof.
  intros svc st1 run2.
  destruct (@C8_second_call_prompt_is_fresh nat svc) as (HS & _).
  destruct (HS Supervised.default_valves true
              (u "What is X?") (u "rag") [] (Scenario.start Scenario.a_body)
              (u "What is Z?") (u "rag") [] (body st1))
    as (ctx2 & evs & Er & Hm & _).
  fold st1 in Hm. fold run2 in Hm. rewrite Hm.
  vm_compute in Er. inversion Er. reflexivity.
Defined.

(** * Further properties of the programs *)

(** ** The chunker: the shape of the segments *)

Lemma py_range_bounds (len n : nat) :
  0 < n ->
  let m := (len + n - 1) / n in
  len <= m * n /\ (0 < len -> (m - 1) * n < len /\ 0 < m) /\ (len = 0 -> m = 0).
Proof.
  intros Hn m.
  pose proof (Nat.div_mod_eq (len + n - 1) n) as E.
  pose proof (Nat.mod_upper_bound (len + n - 1) n) as B.
  fold m in E. repeat split; nia.
Qed.

(** X1. For a positive segment length [L], no segment is empty, every
    segment but the last has exactly [L] characters, an empty text
    gives no segment, and a text of at most [L] characters is its own
    single segment. *)
Theorem X1_segments_are_full_but_the_last (T : pystr) (L : Z) :
  (0 < L)%Z ->
  exists segs : list pystr,
    Doc2DB.segments T L = Ret segs
    /\ Forall (fun s => s <> []) segs
    /\ (forall k, S k < length segs ->
          length (nth k segs []) = Z.to_nat L)
    /\ (T = [] -> segs = [])
    /\ (T <> [] -> length T <= Z.to_nat L -> segs = [T]).
Proof.
  intros HL. rewrite (segments_pos T HL).
  set (n := Z.to_nat L). assert (Hn : 0 < n) by (unfold n; lia).
  eexists. split; [reflexivity |].
  unfold Doc2DB.py_range.
  destruct (py_range_bounds (length T) Hn) as (Hcov & Hpos & Hzero).
  set (m := (length T + n - 1) / n) in *.
  assert (Hslice : forall k, k < m ->
            length (slice T (k * n) (k * n + n))
            = Nat.min n (length T - k * n)).
  { intros k Hk. unfold slice. rewrite length_firstn, length_skipn.
    f_equal. lia. }
  assert (Hlast : 0 < length T -> forall k, k < m -> k * n < length T).
  { intros Hlen k Hk. destruct (Hpos Hlen) as (Hm & _). nia. }
  repeat split.
  - apply Forall_forall. intros s Hs. rewrite map_map in Hs.
    apply in_map_iff in Hs. destruct Hs as (k & <- & Hk).
    apply in_seq in Hk. intros E.
    assert (Hk' : k < m) by lia.
    pose proof (Hslice k Hk') as Hl. rewrite E in Hl. cbn in Hl.
    destruct (length T) eqn:El.
    + rewrite (Hzero eq_refl) in Hk'. lia.
    + assert (k * n < S n0) by (apply Hlast; lia). lia.
  - intros k Hk. rewrite !length_map, length_seq in Hk. rewrite map_map.
    rewrite (nth_indep _ [] (slice T (0 * n) (0 * n + n)))
      by (rewrite length_map, length_seq; lia).
    rewrite (map_nth (fun k => slice T (k * n) (k * n + n))).
    rewrite seq_nth by lia. cbn [Nat.add]. rewrite Hslice by lia.
    assert (0 < length T) by (destruct (length T); [rewrite Hzero in Hk |]; lia).
    assert (S k * n < length T) by (apply Hlast; lia). lia.
  - intros ->. cbn [length] in *. fold m. now rewrite (Hzero eq_refl).
  - intros HT Hlen.
    assert (Hm : m = 1).
    { assert (0 < length T) by (destruct T; [congruence | cbn; lia]).
      destruct (Hpos H) as (H1 & H2). nia. }
    fold m. rewrite Hm. cbn. unfold slice. cbn.
    rewrite Nat.sub_0_r. now rewrite firstn_all2.
Qed.

(** X1, witness: [A. B. C. D] at length 4 gives two full segments and a
    last one of two characters. *)
Lemma X1_segments_are_full_but_the_last_witness :
  (0 < 4)%Z
  /\ exists segs : list pystr,
       Doc2DB.segments (u "A. B. C. D") 4 = Ret segs
       /\ segs = [u "A. B"; u ". C."; u " D"]
       /\ Forall (fun s => s <> []) segs.
Proof.
  split; [lia |].
  destruct (@X1_segments_are_full_but_the_last (u "A. B. C. D") 4 ltac:(lia))
    as (segs & E & Hne & _).
  exists segs. split; [exact E |]. split; [| exact Hne].
  vm_compute in E. now inversion E.
Defined.

(** ** Ingestion: what a document costs *)

Lemma insert_attempts_app (t1 t2 : list event) :
  insert_attempts (t1 ++ t2) = insert_attempts t1 ++ insert_attempts t2.
Proof.
  induction t1 as [|ev t1 IH]; [reflexivity |].
  destruct ev; cbn; now rewrite IH.
Qed.

Lemma insert_count_app (t1 t2 : list event) :
  insert_count (t1 ++ t2) = insert_count t1 + insert_count t2.
Proof.
  unfold insert_count. now rewrite insert_attempts_app, length_app.
Qed.

Lemma summary_post_counts payload stream :
  is_post_to summary_url (EvPost summary_url payload stream) = true
  /\ is_post_to embedding_url (EvPost summary_url payload stream) = false.
Proof. split; vm_compute; reflexivity. Qed.

Lemma embedding_post_counts payload stream :
  is_post_to summary_url (EvPost embedding_url payload stream) = false
  /\ is_post_to embedding_url (EvPost embedding_url payload stream) = true.
Proof. split; vm_compute; reflexivity. Qed.

Lemma segment_calls_counts (evs : list event) :
  segment_calls evs ->
  posts_to summary_url evs = 1
  /\ posts_to embedding_url evs <= 1
  /\ insert_count evs <= posts_to embedding_url evs.
Proof.
  intros [p | p q | p q d]; repeat split; vm_compute; lia.
Qed.

Section IngestionCost.
Context {World : Type} `{Services World}.

Lemma embed_and_insert_trace (summarized : pyval) (st : St World) r st' :
  Doc2DB.embed_and_insert summarized st = (r, st') ->
  exists q,
    (trace st' = trace st ++ [EvPost embedding_url q false]
     \/ (exists d, trace st' = trace st ++ [EvPost embedding_url q false;
                                           EvInsert d]
                   /\ r = Ret tt))
    /\ (forall e st1, Doc2DB.generate_embedding summarized st = (Raise e, st1) ->
                      r = Raise e /\ st' = st1).
Proof.
  destruct (doc2db_embedding_trace summarized st)
    as (res & st1 & Eg & _ & Ht).
  intros E. eexists. destruct res as [emb | e].
  - destruct (truthy emb && is_list emb) eqn:Hc.
    + rewrite (embed_and_insert_tolerates _ _ Eg Hc) in E.
      inversion E; subst. cbn [trace]. split.
      * right. eexists. rewrite Ht, <- app_assoc. split; reflexivity.
      * intros e st2 E'. rewrite Eg in E'. discriminate.
    + destruct (embed_and_insert_skips _ _ Eg Hc) as (r' & E').
      rewrite E' in E. inversion E; subst. split; [now left |].
      intros e st2 E''. rewrite Eg in E''. discriminate.
  - unfold Doc2DB.embed_and_insert in E. unfold bind at 1 in E.
    rewrite Eg in E. inversion E; subst. split; [now left |].
    intros e' st2 E'. rewrite Eg in E'. inversion E'; subst. now split.
Qed.

Lemma process_segment_trace (prompt segment : pystr) (st : St World) r st' :
  Doc2DB.process_segment prompt segment st = (r, st') ->
  (Doc2DB.is_blank segment = true /\ r = Ret tt /\ st' = st)
  \/ (Doc2DB.is_blank segment = false
      /\ exists evs,
           trace st' = trace st ++ evs
           /\ segment_calls evs
           /\ (r = Ret tt -> posts_to embedding_url evs = 1)).
Proof.
  unfold Doc2DB.process_segment.
  destruct (Doc2DB.is_blank segment) eqn:Hb.
  - intros E. inversion E. now left.
  - intros E. right. split; [reflexivity |].
    destruct (summarize_spec segment prompt st)
      as (res & st1 & Es & _ & Ht & _).
    unfold bind at 1 in E. rewrite Es in E.
    destruct res as [summarized | e].
    + destruct (embed_and_insert_trace _ _ E) as (q & Hq & _).
      destruct Hq as [Hq | (d & Hq & Hr)].
      * eexists. split; [rewrite Hq, Ht, <- app_assoc; reflexivity |].
        split; [constructor |]. intros _. vm_compute. reflexivity.
      * eexists. split; [rewrite Hq, Ht, <- app_assoc; reflexivity |].
        split; [constructor |]. intros _. vm_compute. reflexivity.
    + inversion E; subst. eexists. split; [exact Ht |].
      split; [constructor | discriminate].
Qed.

(** X2. Whatever the services do, the loop over the segments of a
    document makes at most one summary request for each segment that is
    not blank and none for a blank one, never more embedding requests
    than summary requests, and never gives the store more records than
    it made embedding requests; when the loop ends normally, every
    segment that is not blank was summarized and embedded. *)
Theorem X2_ingestion_calls_are_bounded (prompt : pystr) (segs : list pystr) :
  forall (st : St World) r st',
    Doc2DB.process_segments prompt segs st = (r, st') ->
    exists evs,
      trace st' = trace st ++ evs
      /\ posts_to summary_url evs <= length (non_blank segs)
      /\ posts_to embedding_url evs <= posts_to summary_url evs
      /\ insert_count evs <= posts_to embedding_url evs
      /\ (r = Ret tt ->
          posts_to summary_url evs = length (non_blank segs)
          /\ posts_to embedding_url evs = length (non_blank segs)).
Proof.
  induction segs as [|segment rest IH]; intros st r st' E.
  - cbn in E. inversion E; subst. exists []. rewrite app_nil_r.
    cbn. repeat split; lia.
  - cbn [Doc2DB.process_segments] in E. unfold bind at 1 in E.
    destruct (Doc2DB.process_segment prompt segment st) as [r1 st1] eqn:E1.
    apply process_segment_trace in E1.
    unfold non_blank in *. cbn [filter].
    destruct E1 as [(Hb & -> & ->) | (Hb & evs1 & Ht1 & Hc1 & Hr1)];
      rewrite Hb; cbn [negb].
    + apply IH in E. exact E.
    + apply segment_calls_counts in Hc1. destruct Hc1 as (Hs1 & He1 & Hi1).
      destruct r1 as [[] | e].
      * apply IH in E.
        destruct E as (evs & Ht & Hs & He & Hi & Hr).
        exists (evs1 ++ evs). split; [now rewrite Ht, Ht1, app_assoc |].
        rewrite !posts_to_app, insert_count_app. cbn [length].
        specialize (Hr1 eq_refl).
        do 3 (split; [lia |]). intros Er. destruct (Hr Er). lia.
      * inversion E; subst. exists evs1. split; [exact Ht1 |].
        cbn [length]. do 3 (split; [lia |]). discriminate.
Qed.
End IngestionCost.

(** X2, instance: the two segments of [A. B. C.] at length 4 with a
    store that refuses every insertion cost two summaries, two
    embeddings and two insertions. *)
Lemma X2_ingestion_calls_are_bounded_witness :
  exists st' evs,
    @Doc2DB.process_segments nat (Scenario.services Scenario.store_refuses)
      Doc2DB.default_prompt [u "A. B"; u ". C."] (Scenario.start [])
    = (Ret tt, st')
    /\ trace st' = evs
    /\ posts_to summary_url evs = 2
    /\ posts_to embedding_url evs = 2
    /\ insert_count evs <= 2.
Proof.
  destruct (@Doc2DB.process_segments nat
              (Scenario.services Scenario.store_refuses)
              Doc2DB.default_prompt [u "A. B"; u ". C."] (Scenario.start []))
    as [r st'] eqn:E.
  destruct (@X2_ingestion_calls_are_bounded nat
              (Scenario.services Scenario.store_refuses)
              Doc2DB.default_prompt [u "A. B"; u ". C."]
              (Scenario.start []) r st' E)
    as (evs & Ht & Hs & He & Hi & Hr).
  assert (Er : r = Ret tt) by (vm_compute in E; now inversion E).
  subst r. destruct (Hr eq_refl) as (Hs' & He').
  exists st', evs. cbn [Scenario.start trace app] in Ht.
  change (length (non_blank [u "A. B"; u ". C."])) with 2 in *.
  repeat split; try assumption. lia.
Defined.

Section IngestionAborts.
Context {World : Type} `{Services World}.

(** A summary answer without [choices] makes
    [summarize_text_with_llm] raise [IndexError], which it does not
    catch. *)
Lemma summarize_without_choices (text prompt : pystr) (st : St World)
    resp w j :
  requests_post summary_url (summary_payload prompt text) false (world st)
  = (Ret resp, w) ->
  raise_for_status resp = None ->
  json resp = Ret j ->
  py_get j (u "choices") (PList []) = Ret (PList []) ->
  Doc2DB.summarize_text_with_llm text prompt st
  = (raise_ IndexError "list index out of range",
     mkSt w (trace st ++ [EvPost summary_url (summary_payload prompt text) false])
       (body st)).
Proof.
  intros Ep Es Ej Ec. unfold Doc2DB.summarize_text_with_llm. unfold_machine.
  change (Doc2DB.default_base_url ++ u "/v1/chat/completions")
    with summary_url.
  change (PDict [(u "model", PStr Doc2DB.default_llm_model);
                 (u "messages",
                  PList [PDict [(u "role", PStr (u "system"));
                                (u "content", PStr prompt)];
                         PDict [(u "role", PStr (u "user"));
                                (u "content", PStr text)]]);
                 (u "stream", PBool false)])
    with (summary_payload prompt text).
  rewrite Ep, Es. cbn. rewrite Ej. cbn. rewrite Ec. reflexivity.
Qed.

(** Blank segments at the head of a document cost nothing. *)
Lemma process_segments_skips_blanks (prompt : pystr)
    (blanks rest : list pystr) (st : St World) :
  forallb Doc2DB.is_blank blanks = true ->
  Doc2DB.process_segments prompt (blanks ++ rest) st
  = Doc2DB.process_segments prompt rest st.
Proof.
  induction blanks as [|s blanks IH]; intros Hb; [reflexivity |].
  cbn [forallb] in Hb. apply andb_true_iff in Hb as (Hs & Hb).
  cbn [app Doc2DB.process_segments]. unfold bind at 1.
  unfold Doc2DB.process_segment. rewrite Hs. unfold ret at 1.
  now apply IH.
Qed.

(** X3. A document whose first segment that is not blank gets a summary
    answer without [choices] is dropped whole: [process_file] makes
    that one summary request, no embedding request and no insertion,
    skips the remaining segments, and returns normally. *)
Theorem X3_summary_without_choices_drops_the_document
    (file_path : pystr) (segment_length : Z) (prompt : pystr) (st : St World)
    (text : pystr) (w : World) (blanks : list pystr) (segment : pystr)
    (rest : list pystr) (resp : Response) (w1 : World) (j : pyval) :
  read_document file_path (world st) = (Ret (Some text), w) ->
  Doc2DB.segments text segment_length = Ret (blanks ++ segment :: rest) ->
  forallb Doc2DB.is_blank blanks = true ->
  Doc2DB.is_blank segment = false ->
  requests_post summary_url (summary_payload prompt segment) false w
  = (Ret resp, w1) ->
  raise_for_status resp = None ->
  json resp = Ret j ->
  py_get j (u "choices") (PList []) = Ret (PList []) ->
  Doc2DB.process_file file_path segment_length prompt st
  = (Ret tt,
     mkSt w1
       (trace st ++
        [EvRead file_path;
         EvPost summary_url (summary_payload prompt segment) false])
       (body st)).
Proof.
  intros Er Eseg Hblanks Hb Ep Es Ej Ec.
  unfold Doc2DB.process_file, try_except. unfold bind at 1.
  unfold read. rewrite Er. unfold bind at 1. unfold lift at 1.
  rewrite Eseg. rewrite process_segments_skips_blanks by exact Hblanks.
  cbn [Doc2DB.process_segments]. unfold bind at 1.
  unfold Doc2DB.process_segment. rewrite Hb. unfold bind at 1.
  erewrite summarize_without_choices by eassumption.
  cbn. now rewrite <- app_assoc.
Qed.
End IngestionAborts.

(** X3, witness: a document that starts with four blanks, cut at
    length 4, with a summary service that answers [{}]: the first
    segment is blank and the second one gets the answer. *)
Lemma X3_summary_without_choices_drops_the_document_witness :
  exists st',
    @Doc2DB.process_file nat
      (Scenario.services Scenario2.blank_start_without_choices)
      (u "doc.txt") 4 Doc2DB.default_prompt (Scenario.start [])
    = (Ret tt, st')
    /\ posts_to summary_url (trace st') = 1
    /\ posts_to embedding_url (trace st') = 0
    /\ insert_count (trace st') = 0.
Proof.
  eexists. split.
  - apply (@X3_summary_without_choices_drops_the_document nat
             (Scenario.services Scenario2.blank_start_without_choices)
             (u "doc.txt") 4 Doc2DB.default_prompt (Scenario.start [])
             (u "    A. B. C.") 0 [u "    "] (u "A. B") [u ". C."]
             (Scenario.ok_json (PDict [])) 1 (PDict []));
      reflexivity.
  - repeat split.
Defined.

(** ** Ingestion: documents that cost nothing *)

Section IngestionNoop.
Context {World : Type} `{Services World}.

(** X4. [process_file] returns normally having only read the file, with
    no request to the model and nothing given to the store, when the
    segment length is zero (the [ValueError] of [range] is swallowed) or
    negative, when the extension is not supported, when the text is
    empty, and when reading the file raises. *)
Theorem X4_process_file_without_segments
    (file_path : pystr) (segment_length : Z) (prompt : pystr) (st : St World) :
  let r := fst (read_document file_path (world st)) in
  let w := snd (read_document file_path (world st)) in
  (segment_length <= 0)%Z \/ r = Ret None \/ r = Ret (Some [])
  \/ (exists e, r = Raise e) ->
  Doc2DB.process_file file_path segment_length prompt st
  = (Ret tt, mkSt w (trace st ++ [EvRead file_path]) (body st)).
Proof.
  cbv zeta. unfold Doc2DB.process_file, try_except. unfold bind at 1.
  unfold read. destruct (read_document file_path (world st)) as [r w].
  cbn [fst snd]. intros Hcase.
  destruct r as [[text |] | e]; try reflexivity.
  unfold bind, lift, Doc2DB.segments.
  destruct (Z.eqb_spec segment_length 0) as [-> | Hz]; [reflexivity |].
  destruct (Z.ltb_spec segment_length 0) as [Hneg | Hpos]; [reflexivity |].
  destruct Hcase as [Hle | [Hn | [Hempty | (e & He)]]];
    try lia; try discriminate.
  inversion Hempty; subst text. cbn [length].
  unfold Doc2DB.py_range. rewrite Nat.div_small by lia. reflexivity.
Qed.
End IngestionNoop.

(** X4, witness: a segment length of zero on a readable document. *)
Lemma X4_process_file_without_segments_witness :
  (0 <= 0)%Z
  /\ @Doc2DB.process_file nat (Scenario.services Scenario2.healthy_ingestion)
       (u "doc.txt") 0 Doc2DB.default_prompt (Scenario.start [])
     = (Ret tt, mkSt 0 [EvRead (u "doc.txt")] []).
Proof.
  split; [lia |].
  apply (@X4_process_file_without_segments nat
           (Scenario.services Scenario2.healthy_ingestion)
           (u "doc.txt") 0 Doc2DB.default_prompt (Scenario.start [])).
  left. lia.
Defined.

(** ** Paths *)

Lemma rfind_absent (c : N) (s : pystr) : ~ In c s -> rfind c s = (-1)%Z.
Proof.
  induction s as [|x r IH]; intros Hn; [reflexivity |].
  cbn [rfind]. rewrite IH by (intros Hi; apply Hn; now right). cbn.
  destruct (N.eqb_spec x c) as [-> | _]; [| reflexivity].
  exfalso. apply Hn. now left.
Qed.

Lemma rfind_app_absent (c : N) (s1 s2 : pystr) :
  ~ In c s2 -> rfind c (s1 ++ s2) = rfind c s1.
Proof.
  intros Hn. induction s1 as [|x r IH]; cbn [app rfind].
  - now apply rfind_absent.
  - now rewrite IH.
Qed.

Lemma rfind_bounds (c : N) (s : pystr) :
  (-1 <= rfind c s < Z.of_nat (length s))%Z.
Proof.
  induction s as [|x r IH]; cbn [rfind length]; [lia |].
  destruct (Z.leb_spec 0 (rfind c r)); [lia |].
  destruct (x =? c)%N; lia.
Qed.

(** The last occurrence. *)
Lemma rfind_last (c : N) (pre tail : pystr) :
  ~ In c tail -> rfind c (pre ++ c :: tail) = Z.of_nat (length pre).
Proof.
  intros Hn. induction pre as [|x r IH]; cbn [app rfind length].
  - rewrite rfind_absent by exact Hn. cbn. now rewrite N.eqb_refl.
  - rewrite IH. destruct (Z.leb_spec 0 (Z.of_nat (length r))); lia.
Qed.

Lemma slice_nth_in {A} (s : list A) (i j k : nat) (x : A) :
  nth_error s k = Some x -> i <= k < j -> In x (slice s i j).
Proof.
  intros En Hk. unfold slice. apply (@nth_error_In _ _ (k - i)).
  rewrite nth_error_firstn.
  destruct (Nat.ltb_spec (k - i) (j - i)); [| lia].
  rewrite nth_error_skipn. now replace (i + (k - i)) with k by lia.
Qed.

(** The extension of a path whose last dot is followed by neither dot
    nor slash: the part from that dot on, or nothing when the last
    component has only dots before it. *)
Lemma splitext_cases (pre tail : pystr) :
  ~ In 46%N tail -> ~ In 47%N tail ->
  snd (splitext (pre ++ 46%N :: tail)) = []
  \/ snd (splitext (pre ++ 46%N :: tail)) = 46%N :: tail.
Proof.
  intros Hdot Hsep. unfold splitext. rewrite rfind_last by exact Hdot.
  destruct (_ <? _)%Z; [| now left].
  destruct (existsb _ _); [| now left].
  right. cbn [snd]. rewrite Nat2Z.id.
  now rewrite skipn_app, skipn_all, Nat.sub_diag.
Qed.

(** With a character other than dot and slash just before the last
    dot, the extension is the part from that dot on. *)
Lemma splitext_named (pre tail : pystr) (c : N) :
  c <> 46%N -> c <> 47%N -> ~ In 46%N tail -> ~ In 47%N tail ->
  splitext ((pre ++ [c]) ++ 46%N :: tail) = (pre ++ [c], 46%N :: tail).
Proof.
  intros Hc1 Hc2 Hdot Hsep. unfold splitext.
  rewrite rfind_last by exact Hdot.
  assert (Es : rfind 47 ((pre ++ [c]) ++ 46%N :: tail) = rfind 47 pre).
  { rewrite rfind_app_absent.
    - apply rfind_app_absent. intros [E | []]. congruence.
    - intros [E | Hi]; [discriminate | contradiction]. }
  rewrite Es. pose proof (rfind_bounds 47 pre) as B.
  rewrite length_app. cbn [length].
  destruct (Z.ltb_spec (rfind 47 pre) (Z.of_nat (length pre + 1))); [| lia].
  rewrite Nat2Z.id.
  assert (Ex : existsb (fun x => negb (x =? 46)%N)
                 (slice ((pre ++ [c]) ++ 46%N :: tail)
                    (Z.to_nat (rfind 47 pre + 1)) (length pre + 1)) = true).
  { apply existsb_exists. exists c. split.
    - apply (@slice_nth_in _ _ _ _ (length pre)).
      + rewrite <- app_assoc, nth_error_app2 by lia.
        now rewrite Nat.sub_diag.
      + lia.
    - apply negb_true_iff. now apply N.eqb_neq. }
  rewrite Ex. f_equal.
  - rewrite firstn_app, firstn_all2 by (rewrite length_app; cbn; lia).
    rewrite length_app. cbn [length]. rewrite Nat.sub_diag. cbn.
    now rewrite app_nil_r.
  - rewrite skipn_app, skipn_all2 by (rewrite length_app; cbn; lia).
    rewrite length_app. cbn [length]. now rewrite Nat.sub_diag.
Qed.

Lemma endswith_iff (s suffix : pystr) :
  endswith s suffix = true <-> exists pre, s = pre ++ suffix.
Proof.
  unfold endswith. rewrite startswith_iff. split.
  - intros (post & E). exists (rev post).
    rewrite <- (rev_involutive s), E, rev_app_distr. now rewrite rev_involutive.
  - intros (pre & ->). exists (rev pre). now rewrite rev_app_distr.
Qed.

(** ** The watcher *)

Section WatcherProperties.
Context {World : Type} (services : Services World) (files : Files World).

Lemma wait_for_size_after_zero_polls (path : pystr) (k : nat) (w w' : World) :
  zero_polls files path k w w' ->
  forall fuel t b,
    Doc2DB.wait_for_size files (k + fuel) path (mkSt w t b)
    = Doc2DB.wait_for_size files fuel path (mkSt w' t b).
Proof.
  induction 1 as [w | k w w1 w2 Eg _ IH]; intros fuel t b; [reflexivity |].
  cbn [Nat.add Doc2DB.wait_for_size]. unfold bind at 1.
  unfold Doc2DB.getsize at 1. cbn [world trace body]. rewrite Eg.
  cbn [Z.eqb]. unfold bind at 1. unfold Doc2DB.sleep at 1.
  cbn [world trace body]. apply IH.
Qed.

(** The ingestion started by the watcher returns normally. *)
Lemma watched_process_file_returns (path : pystr) (st : St World) :
  @Doc2DB.process_file World (Doc2DB.script_services services files)
    path 2000 Doc2DB.default_prompt st
  = (Ret tt,
     snd (@Doc2DB.process_file World (Doc2DB.script_services services files)
            path 2000 Doc2DB.default_prompt st)).
Proof.
  destruct (@process_file_returns World
              (Doc2DB.script_services services files)
              path 2000 Doc2DB.default_prompt st) as (st' & E).
  now rewrite E.
Qed.

(** X5. [on_created] does nothing for a directory and for a path whose
    lowered form has none of the four watched endings.  For a watched
    file it polls the size: the ingestion starts at the first size that
    is not zero, from the world that poll leaves, and not before; an
    exception of a poll leaves [on_created] with no ingestion; and
    while the size stays zero no ingestion is started, however many
    polls are allowed. *)
Theorem X5_watcher_ingests_after_first_size
    (fuel : nat) (path : pystr) (t : list event) (b : pydict) :
  (forall is_directory st,
      is_directory = true
      \/ endswith_any (str_lower path) Doc2DB.watched_suffixes = false ->
      Doc2DB.on_created services files fuel is_directory path st
      = (Ret (Some tt), st))
  /\ (endswith_any (str_lower path) Doc2DB.watched_suffixes = true ->
      forall k w w',
        zero_polls files path k w w' ->
        (k < fuel ->
         forall n w'',
           os_path_getsize path w' = (Ret n, w'') -> n <> 0%Z ->
           Doc2DB.on_created services files fuel false path (mkSt w t b)
           = (Ret (Some tt),
              snd (@Doc2DB.process_file World
                     (Doc2DB.script_services services files)
                     path 2000 Doc2DB.default_prompt (mkSt w'' t b))))
        /\ (k < fuel ->
            forall e w'',
              os_path_getsize path w' = (Raise e, w'') ->
              Doc2DB.on_created services files fuel false path (mkSt w t b)
              = (Raise e, mkSt w'' t b))
        /\ (k = fuel ->
            Doc2DB.on_created services files fuel false path (mkSt w t b)
            = (Ret None, mkSt w' t b))).
Proof.
  split.
  - intros d st [-> | Hs]; unfold Doc2DB.on_created; [reflexivity |].
    rewrite Hs. now rewrite andb_false_r.
  - intros Hs k w w' Hz. unfold Doc2DB.on_created. rewrite Hs. cbn [negb andb].
    repeat split.
    + intros Hk n w'' Eg Hn.
      replace fuel with (k + S (fuel - S k)) by lia.
      unfold bind at 1. rewrite (wait_for_size_after_zero_polls Hz).
      cbn [Doc2DB.wait_for_size]. unfold bind at 1.
      unfold Doc2DB.getsize at 1. cbn [world trace body]. rewrite Eg.
      destruct (Z.eqb_spec n 0) as [-> | _]; [congruence |].
      unfold ret at 1. unfold bind at 1.
      now rewrite watched_process_file_returns.
    + intros Hk e w'' Eg.
      replace fuel with (k + S (fuel - S k)) by lia.
      unfold bind at 1. rewrite (wait_for_size_after_zero_polls Hz).
      cbn [Doc2DB.wait_for_size]. unfold bind at 1.
      unfold Doc2DB.getsize at 1. cbn [world trace body]. now rewrite Eg.
    + intros <-. unfold bind at 1.
      rewrite <- (Nat.add_0_r k) at 1.
      rewrite (wait_for_size_after_zero_polls Hz). reflexivity.
Qed.
End WatcherProperties.

(** X5, witness: a file [notes.txt] whose size is zero at the first two
    polls.  With three polls allowed its text, one segment, is
    ingested; with two, nothing is. *)
Lemma X5_watcher_ingests_after_first_size_witness :
  (exists st',
      Doc2DB.on_created (Scenario.services Scenario2.healthy_ingestion)
        (Scenario2.files 2) 3 false (u "notes.txt") (mkSt 0 [] [])
      = (Ret (Some tt), st')
      /\ insert_count (trace st') = 1)
  /\ Doc2DB.on_created (Scenario.services Scenario2.healthy_ingestion)
       (Scenario2.files 2) 2 false (u "notes.txt") (mkSt 0 [] [])
     = (Ret None, mkSt 2 [] []).
Proof.
  assert (Hz : zero_polls (Scenario2.files 2) (u "notes.txt") 2 0 2).
  { econstructor; [reflexivity |]. econstructor; [reflexivity |]. constructor. }
  split.
  - destruct (X5_watcher_ingests_after_first_size
                (Scenario.services Scenario2.healthy_ingestion)
                (Scenario2.files 2) 3 (u "notes.txt") [] [])
      as (_ & Hw).
    destruct (Hw eq_refl 2 0 2 Hz) as (Hgo & _).
    eexists. split.
    + assert (Hlt : 2 < 3) by lia. specialize (Hgo Hlt 8%Z 3 eq_refl). rewrite Hgo by discriminate. reflexivity.
    + vm_compute. reflexivity.
  - destruct (X5_watcher_ingests_after_first_size
                (Scenario.services Scenario2.healthy_ingestion)
                (Scenario2.files 2) 2 (u "notes.txt") [] [])
      as (_ & Hw).
    destruct (Hw eq_refl 2 0 2 Hz) as (_ & _ & Hnone).
    now apply Hnone.
Defined.

(** ** The extension of a watched file *)

Lemma ascii_lower_dot (c : N) : c = 46%N -> ascii_lower c = 46%N.
Proof. now intros ->. Qed.

Lemma ascii_lower_sep (c : N) : c = 47%N -> ascii_lower c = 47%N.
Proof. now intros ->. Qed.

Lemma ascii_lower_is_dot (c : N) : ascii_lower c = 46%N -> c = 46%N.
Proof.
  unfold ascii_lower.
  destruct (N.leb_spec 65 c); destruct (N.leb_spec c 90); cbn [andb]; lia.
Qed.

(** An extension that lowers to a dot followed by neither dot nor slash
    has that shape itself. *)
Lemma lowered_extension_shape (ext t : pystr) :
  map ascii_lower ext = 46%N :: t -> ~ In 46%N t -> ~ In 47%N t ->
  exists tail, ext = 46%N :: tail /\ map ascii_lower tail = t
               /\ ~ In 46%N tail /\ ~ In 47%N tail.
Proof.
  intros E Hdot Hsep. destruct ext as [|c1 tail]; [discriminate |].
  cbn [map] in E. injection E as E1 E2. apply ascii_lower_is_dot in E1.
  subst c1. exists tail. repeat split; try assumption.
  - intros Hi. apply Hdot. rewrite <- E2.
    rewrite <- (ascii_lower_dot eq_refl). now apply in_map.
  - intros Hi. apply Hsep. rewrite <- E2.
    rewrite <- (ascii_lower_sep eq_refl). now apply in_map.
Qed.

(** A last component that is a dot and an extension has no extension
    for [splitext]. *)
Lemma splitext_hidden (dir tail : pystr) :
  ~ In 46%N tail -> ~ In 47%N tail ->
  snd (splitext ((dir ++ [47%N]) ++ 46%N :: tail)) = []
  /\ snd (splitext (46%N :: tail)) = [].
Proof.
  intros Hdot Hsep. split.
  - unfold splitext. rewrite rfind_last by exact Hdot.
    assert (Es : rfind 47 ((dir ++ [47%N]) ++ 46%N :: tail)
                 = Z.of_nat (length dir)).
    { rewrite rfind_app_absent
        by (intros [E | Hi]; [discriminate | contradiction]).
      apply rfind_last. intros []. }
    rewrite Es, length_app. cbn [length].
    destruct (_ <? _)%Z; [| reflexivity].
    replace (Z.to_nat (Z.of_nat (length dir) + 1)) with (length dir + 1) by lia.
    rewrite Nat2Z.id. unfold slice. rewrite Nat.sub_diag. reflexivity.
  - assert (Ed : rfind 46 (46%N :: tail) = 0%Z)
      by exact (@rfind_last 46 [] tail Hdot).
    unfold splitext. rewrite Ed.
    rewrite (@rfind_absent 47 (46%N :: tail))
      by (intros [E | Hi]; [discriminate | contradiction]).
    reflexivity.
Qed.

Lemma is_ascii_app (a b : pystr) : is_ascii (a ++ b) <-> is_ascii a /\ is_ascii b.
Proof. apply Forall_app. Qed.

Section ExtensionProperties.
Context {World : Type} (services : Services World) (files : Files World).

(** The lowered extension of [stem ++ [c] ++ ext], for [c] neither dot
    nor slash and [ext] an ASCII extension. *)
Lemma lowered_extension_named (stem ext t : pystr) (c : N) :
  lower_on_ascii files -> is_ascii ext -> c <> 46%N -> c <> 47%N ->
  map ascii_lower ext = 46%N :: t -> ~ In 46%N t -> ~ In 47%N t ->
  str_lower (snd (splitext ((stem ++ [c]) ++ ext))) = 46%N :: t.
Proof.
  intros Hlow Hascii Hc1 Hc2 E Hdot Hsep.
  destruct (@lowered_extension_shape _ _ E Hdot Hsep)
    as (tail & -> & Et & Hd & Hs).
  rewrite splitext_named by assumption. cbn [snd].
  now rewrite Hlow by exact Hascii.
Qed.

Lemma lowered_extension_hidden (dir ext t : pystr) :
  lower_on_ascii files ->
  map ascii_lower ext = 46%N :: t -> ~ In 46%N t -> ~ In 47%N t ->
  str_lower (snd (splitext ((dir ++ [47%N]) ++ ext))) = []
  /\ str_lower (snd (splitext ext)) = [].
Proof.
  intros Hlow E Hdot Hsep.
  destruct (@lowered_extension_shape _ _ E Hdot Hsep)
    as (tail & -> & Et & Hd & Hs).
  destruct (@splitext_hidden dir tail Hd Hs) as (E1 & E2).
  rewrite E1, E2. split; apply (Hlow []); constructor.
Qed.

(** [process_file] on a file whose text is not extracted. *)
Lemma process_file_unsupported (S' : Services World)
    (file_path : pystr) (segment_length : Z) (prompt : pystr)
    (st : St World) (w : World) :
  @read_document World S' file_path (world st) = (Ret None, w) ->
  @Doc2DB.process_file World S' file_path segment_length prompt st
  = (Ret tt, mkSt w (trace st ++ [EvRead file_path]) (body st)).
Proof.
  intros E. unfold Doc2DB.process_file, try_except. unfold bind at 1.
  unfold read. now rewrite E.
Qed.

(** X6. A file whose name ends in [.doc], in any case of the letters, is
    one the watcher waits for, but [process_file] has no reader for it:
    its text is not extracted, and the file is left with no request to
    the model and nothing given to the store. *)
Theorem X6_doc_files_are_watched_but_not_ingested
    (path : pystr) :
  lower_on_ascii files -> is_ascii path ->
  endswith (str_lower path) (u ".doc") = true ->
  endswith_any (str_lower path) Doc2DB.watched_suffixes = true
  /\ (forall w, Doc2DB.extract_text files path w = (Ret None, w))
  /\ (forall segment_length prompt st,
         @Doc2DB.process_file World (Doc2DB.script_services services files)
           path segment_length prompt st
         = (Ret tt, mkSt (world st) (trace st ++ [EvRead path]) (body st))).
Proof.
  intros Hlow Hascii Hend.
  assert (Hnone : forall w, Doc2DB.extract_text files path w = (Ret None, w)).
  { intros w. rewrite Hlow in Hend by exact Hascii.
    apply endswith_iff in Hend as (pre & E).
    apply map_eq_app in E as (p1 & p2 & -> & _ & E2).
    apply is_ascii_app in Hascii as (_ & Hascii2).
    change (u ".doc") with [46; 100; 111; 99]%N in E2.
    destruct (@lowered_extension_shape p2 [100; 111; 99]%N E2)
      as (tail & -> & Et & Hd & Hs).
    { cbn. intros [?|[?|[?|[]]]]; discriminate. }
    { cbn. intros [?|[?|[?|[]]]]; discriminate. }
    assert (El : str_lower (snd (splitext (p1 ++ 46%N :: tail))) = []
                 \/ str_lower (snd (splitext (p1 ++ 46%N :: tail)))
                    = [46; 100; 111; 99]%N).
    { destruct (@splitext_cases p1 tail Hd Hs) as [E | E]; rewrite E.
      - left. apply (Hlow []). constructor.
      - right. now rewrite Hlow by exact Hascii2. }
    unfold Doc2DB.extract_text.
    destruct El as [El | El]; rewrite !El; reflexivity. }
  split; [| split].
  - unfold endswith_any, Doc2DB.watched_suffixes. cbn [existsb].
    rewrite Hend. now rewrite orb_true_r.
  - exact Hnone.
  - intros L prompt st. apply process_file_unsupported. apply Hnone.
Qed.

(** X7. The reader of [process_file] is chosen by the extension without
    regard to the case of its letters: for a name whose stem ends in a
    character other than dot and slash, [.txt] reads the file as text,
    [.docx] joins the paragraphs and [.pdf] the pages with line feeds.
    A file whose whole name is such an extension ([.txt], [dir/.pdf])
    has no extension for [splitext], and its text is not extracted. *)
Theorem X7_extension_chooses_the_reader
    (stem ext : pystr) (c : N) (w : World) :
  lower_on_ascii files -> is_ascii ext -> c <> 46%N -> c <> 47%N ->
  let path := (stem ++ [c]) ++ ext in
  (map ascii_lower ext = u ".txt" ->
   Doc2DB.extract_text files path w
   = (rbind (fst (open_read path w)) (fun text => Ret (Some text)),
      snd (open_read path w)))
  /\ (map ascii_lower ext = u ".docx" ->
      Doc2DB.extract_text files path w
      = (rbind (fst (docx_paragraphs path w))
           (fun paragraphs => Ret (Some (join nl paragraphs))),
         snd (docx_paragraphs path w)))
  /\ (map ascii_lower ext = u ".pdf" ->
      Doc2DB.extract_text files path w
      = (rbind (fst (pdf_pages path w))
           (fun pages => Ret (Some (join nl pages))),
         snd (pdf_pages path w)))
  /\ (In (map ascii_lower ext) [u ".txt"; u ".docx"; u ".pdf"] ->
      forall dir,
        Doc2DB.extract_text files ((dir ++ [47%N]) ++ ext) w = (Ret None, w)
        /\ Doc2DB.extract_text files ext w = (Ret None, w)).
Proof.
  intros Hlow Hascii Hc1 Hc2 path.
  assert (Hno : forall t : pystr,
             In t [[116; 120; 116]; [100; 111; 99; 120]; [112; 100; 102]]%N ->
             ~ In 46%N t /\ ~ In 47%N t).
  { intros t [<- | [<- | [<- | []]]]; split; cbn;
      intuition discriminate. }
  repeat split.
  - intros E. change (u ".txt") with (46 :: [116; 120; 116])%N in E.
    destruct (Hno [116; 120; 116]%N) as (Hd & Hs); [cbn; tauto |].
    unfold Doc2DB.extract_text. subst path.
    rewrite !(@lowered_extension_named stem ext _ c Hlow Hascii Hc1 Hc2 E Hd Hs).
    cbv zeta.
    change (str_eqb _ (u ".txt")) with true. cbv iota.
    now destruct (open_read _ w).
  - intros E. change (u ".docx") with (46 :: [100; 111; 99; 120])%N in E.
    destruct (Hno [100; 111; 99; 120]%N) as (Hd & Hs); [cbn; tauto |].
    unfold Doc2DB.extract_text. subst path.
    rewrite !(@lowered_extension_named stem ext _ c Hlow Hascii Hc1 Hc2 E Hd Hs).
    cbv zeta.
    change (str_eqb _ (u ".txt")) with false.
    change (str_eqb _ (u ".docx")) with true. cbv iota.
    now destruct (docx_paragraphs _ w).
  - intros E. change (u ".pdf") with (46 :: [112; 100; 102])%N in E.
    destruct (Hno [112; 100; 102]%N) as (Hd & Hs); [cbn; tauto |].
    unfold Doc2DB.extract_text. subst path.
    rewrite !(@lowered_extension_named stem ext _ c Hlow Hascii Hc1 Hc2 E Hd Hs).
    cbv zeta.
    change (str_eqb _ (u ".txt")) with false.
    change (str_eqb _ (u ".docx")) with false.
    change (str_eqb _ (u ".pdf")) with true. cbv iota.
    now destruct (pdf_pages _ w).
  - assert (E : exists t, map ascii_lower ext = 46%N :: t
                          /\ ~ In 46%N t /\ ~ In 47%N t).
    { destruct H as [<- | [<- | [<- | []]]]; eexists;
        (split; [reflexivity | apply Hno; cbn; tauto]). }
    destruct E as (t & E & Hd & Hs).
    destruct (@lowered_extension_hidden dir ext t Hlow E Hd Hs) as (E1 & _).
    unfold Doc2DB.extract_text. now rewrite !E1.
  - assert (E : exists t, map ascii_lower ext = 46%N :: t
                          /\ ~ In 46%N t /\ ~ In 47%N t).
    { destruct H as [<- | [<- | [<- | []]]]; eexists;
        (split; [reflexivity | apply Hno; cbn; tauto]). }
    destruct E as (t & E & Hd & Hs).
    destruct (@lowered_extension_hidden [] ext t Hlow E Hd Hs) as (_ & E2).
    unfold Doc2DB.extract_text. now rewrite !E2.
Qed.
End ExtensionProperties.

Lemma scenario_lower_on_ascii (k : nat) : lower_on_ascii (Scenario2.files k).
Proof. intros s _. reflexivity. Qed.

(** X6, witness: [report.DOC]. *)
Lemma X6_doc_files_are_watched_but_not_ingested_witness :
  endswith_any (@str_lower nat (Scenario2.files 0) (u "report.DOC"))
    Doc2DB.watched_suffixes = true
  /\ (forall w, Doc2DB.extract_text (Scenario2.files 0) (u "report.DOC") w
                = (Ret None, w))
  /\ (forall segment_length prompt st,
         @Doc2DB.process_file nat
           (Doc2DB.script_services
              (Scenario.services Scenario2.healthy_ingestion)
              (Scenario2.files 0))
           (u "report.DOC") segment_length prompt st
         = (Ret tt,
            mkSt (world st) (trace st ++ [EvRead (u "report.DOC")]) (body st))).
Proof.
  apply (X6_doc_files_are_watched_but_not_ingested
           (Scenario.services Scenario2.healthy_ingestion)
           (files := Scenario2.files 0) (path := u "report.DOC")).
  - apply scenario_lower_on_ascii.
  - unfold is_ascii. apply Forall_forall. intros x Hx.
    vm_compute in Hx. intuition (subst; reflexivity).
  - reflexivity.
Defined.

(** X7, witness: [report.TXT] is read as text. *)
Lemma X7_extension_chooses_the_reader_witness :
  Doc2DB.extract_text (Scenario2.files 0) (u "report.TXT") 0
  = (Ret (Some (u "A. B. C.")), 0).
Proof.
  destruct (@X7_extension_chooses_the_reader nat (Scenario2.files 0)
              (u "repor") (u ".TXT") 116%N 0) as (Htxt & _).
  - apply scenario_lower_on_ascii.
  - unfold is_ascii. apply Forall_forall. intros x Hx.
    vm_compute in Hx. intuition (subst; reflexivity).
  - discriminate.
  - discriminate.
  - exact (Htxt eq_refl).
Defined.

(** ** The generation request of the two pipelines without supervision *)

Section OneShot.
Context {World : Type} `{Services World}.

(** The [try] block of [pipe] in [RAGpipeline.py] and
    [pipelinewithHYDE.py], for the address [url] and the model
    [model]. *)
Lemma one_shot_generation (url model : pystr) (st : St World) :
  let payload := PDict (dict_set (body st) (u "model") (PStr model)) in
  let answer := requests_post url payload true (world st) in
  exists v,
    try_except
      (b <- get_body ;;
       r <- post url (PDict (dict_set b (u "model") (PStr model))) true ;;
       check_status r ;;;
       stream <- lift (py_getitem (PDict b) (u "stream")) ;;
       if truthy stream
       then ret (Lines (iter_lines r) (iter_error r))
       else (j <- lift (json r) ;; ret (Value j)))
      is_Exception
      (fun e => ret (Value (PStr (u "Error: " ++ exn_str e))))
      st
    = (Ret v,
       mkSt (snd answer) (trace st ++ [EvPost url payload true]) (body st))
    /\ one_shot_outcome (body st) (fst answer) v.
Proof.
  cbv zeta. unfold_machine. unfold one_shot_outcome, error_text.
  destruct (requests_post url _ true (world st)) as [[resp | e] w] eqn:Epost;
    cbn [fst snd].
  2:{ eexists. split; [reflexivity |].
      split; [| split]; intros; [congruence | discriminate | discriminate]. }
  destruct (raise_for_status resp) as [e |] eqn:Es; cbn.
  { eexists. split; [reflexivity |]. split; [| split].
    - intros; discriminate.
    - intros resp' e' [= <-] Es'. congruence.
    - intros resp' [= <-] Es'. congruence. }
  destruct (dict_lookup (body st) (u "stream")) as [s |] eqn:El; cbn.
  2:{ eexists. split; [reflexivity |]. split; [| split].
      - intros; discriminate.
      - intros resp' e' [= <-] Es'. congruence.
      - intros resp' [= <-] _. split; [| split].
        + intros _. exists (mkExn KeyError (u "stream")). split; reflexivity.
        + intros; discriminate.
        + intros; discriminate. }
  destruct (truthy s) eqn:Et; cbn.
  { eexists. split; [reflexivity |]. split; [| split].
    - intros; discriminate.
    - intros resp' e' [= <-] Es'. congruence.
    - intros resp' [= <-] _. split; [| split].
      + intros; discriminate.
      + reflexivity.
      + intros s' [= <-] Et'. congruence. }
  destruct (json resp) as [j | e] eqn:Ej; cbn.
  all: eexists; (split; [reflexivity |]); (split; [| split]).
  all: try (intros; discriminate).
  all: try (intros resp' e' [= <-] Es'; congruence).
  all: intros resp' [= <-] _; (split; [| split]).
  all: try (intros; discriminate).
  all: try (intros s' [= <-] Et'; congruence).
  all: intros s' _ _; rewrite Ej; reflexivity.
Qed.

Lemma hyde_pipe_unfold (valves : HyDE.Valves)
    (user_message model_id : pystr) (messages : list pyval) (st : St World) :
  HyDE.pipe valves user_message model_id messages st =
  match HyDE.augment valves user_message st with
  | (Ret _, st1) =>
    try_except
      (b <- get_body ;;
       r <- post (HyDE.OLLAMA_HOST valves ++ u "/v1/chat/completions")
              (PDict (dict_set b (u "model")
                        (PStr (HyDE.LLM_MODEL valves))))
              true ;;
       check_status r ;;;
       stream <- lift (py_getitem (PDict b) (u "stream")) ;;
       if truthy stream
       then ret (Lines (iter_lines r) (iter_error r))
       else (j <- lift (json r) ;; ret (Value j)))
      is_Exception
      (fun e => ret (Value (PStr (u "Error: " ++ exn_str e))))
      st1
  | (Raise e, st1) => (Raise e, st1)
  end.
Proof.
  unfold HyDE.pipe. unfold bind at 1.
  now destruct (HyDE.augment valves user_message st) as [[[] | e] st1].
Qed.

(** X8. Once the first half of [pipe] has returned, [pipe] of
    [RAGpipeline.py] and of [pipelinewithHYDE.py] returns a value and
    makes exactly one more call, the streamed generation request whose
    payload is [body] with the configured model.  A failure of the
    request or of its status becomes the string [Error: ...]; so does
    a [body] without the entry [stream], after the request has been
    made; otherwise the value is the line iterator when [stream] is
    true and the decoded body when it is false. *)
Theorem X8_single_generation_request :
  (forall (valves : RAGpipeline.Valves) (user_message model_id : pystr)
          (messages : list pyval) (st st1 : St World),
      RAGpipeline.augment valves user_message st = (Ret tt, st1) ->
      let payload :=
        PDict (dict_set (body st1) (u "model")
                 (PStr (RAGpipeline.LLM_MODEL valves))) in
      let answer :=
        requests_post (base_generation_url valves) payload true (world st1) in
      exists v,
        RAGpipeline.pipe valves user_message model_id messages st
        = (Ret v,
           mkSt (snd answer)
             (trace st1 ++ [EvPost (base_generation_url valves) payload true])
             (body st1))
        /\ one_shot_outcome (body st1) (fst answer) v)
  /\ (forall (valves : HyDE.Valves) (user_message model_id : pystr)
             (messages : list pyval) (st st1 : St World),
        HyDE.augment valves user_message st = (Ret tt, st1) ->
        let payload :=
          PDict (dict_set (body st1) (u "model")
                   (PStr (HyDE.LLM_MODEL valves))) in
        let answer :=
          requests_post (hyde_generation_url valves) payload true (world st1) in
        exists v,
          HyDE.pipe valves user_message model_id messages st
          = (Ret v,
             mkSt (snd answer)
               (trace st1 ++ [EvPost (hyde_generation_url valves) payload true])
               (body st1))
          /\ one_shot_outcome (body st1) (fst answer) v).
Proof.
  split.
  - intros valves um id msgs st st1 Ea. cbv zeta.
    rewrite base_pipe_unfold, Ea.
    apply (one_shot_generation (base_generation_url valves)
             (RAGpipeline.LLM_MODEL valves) st1).
  - intros valves um id msgs st st1 Ea. cbv zeta.
    rewrite hyde_pipe_unfold, Ea.
    apply (one_shot_generation (hyde_generation_url valves)
             (HyDE.LLM_MODEL valves) st1).
Qed.
End OneShot.

(** X8, witness: the base pipeline on a healthy service; the caller
    asked for a stream and gets the lines of the response. *)
Lemma X8_single_generation_request_witness :
  exists st',
    @RAGpipeline.pipe nat (Scenario.services Scenario.store_two_lists)
      RAGpipeline.default_valves (u "What is X?") (u "rag") []
      (Scenario.start Scenario.a_body)
    = (Ret (Lines [Scenario.data_line (Scenario.chunk_json "Hel");
                   Scenario.data_line (Scenario.chunk_json "lo");
                   Scenario.data_line (Scenario.b "[DONE]")] None), st').
Proof.
  destruct (@X8_single_generation_request nat
              (Scenario.services Scenario.store_two_lists)) as (Hbase & _).
  pose (st1 := snd (@RAGpipeline.augment nat
                      (Scenario.services Scenario.store_two_lists)
                      RAGpipeline.default_valves (u "What is X?")
                      (Scenario.start Scenario.a_body))).
  assert (Ea : @RAGpipeline.augment nat
                 (Scenario.services Scenario.store_two_lists)
                 RAGpipeline.default_valves (u "What is X?")
                 (Scenario.start Scenario.a_body) = (Ret tt, st1))
    by (vm_compute; reflexivity).
  destruct (Hbase RAGpipeline.default_valves (u "What is X?") (u "rag") []
              (Scenario.start Scenario.a_body) st1 Ea)
    as (v & Ep & _ & _ & Hok).
  eexists. rewrite Ep. f_equal. f_equal.
  refine (proj1 (proj2 (Hok _ eq_refl eq_refl)) (PBool true) _ eq_refl).
  vm_compute. reflexivity.
Defined.

(** ** The logging block *)

Section LoggingBlock.
Context {World : Type} `{Services World}.




End LoggingBlock.


(** ** Retrieval on an empty result set *)

Section EmptyResults.
Context {World : Type} `{Services World}.

(** X10. When the store answers a search with no hit list at all, the
    retrieval of [pipelinewithsupervision.py] returns no context, while
    [results[0]] raises [IndexError] out of the retrieval of
    [RAGpipeline.py] and of [pipelinewithHYDE.py], and out of [pipe] of
    [RAGpipeline.py]. *)
Theorem X10_empty_result_set :
  (forall (valves : RAGpipeline.Valves) (user_message model_id : pystr)
          (messages : list pyval) (w : World) (t : list event) (b : pydict)
          (v : pyval) (st1 : St World) (w2 : World),
      RAGpipeline.generate_embedding valves user_message (mkSt w t b)
      = (Ret v, st1) ->
      collection_search [v] RAGpipeline.search_params 5 (world st1)
      = (Ret [], w2) ->
      fst (RAGpipeline.retrieve_relevant_information valves user_message
             (mkSt w t b)) = Raise out_of_range
      /\ fst (RAGpipeline.pipe valves user_message model_id messages
                (mkSt w t b)) = Raise out_of_range)
  /\ (forall (valves : HyDE.Valves) (user_message : pystr) (st : St World)
             v1 s1 answer s2 v2 s3 w2,
        HyDE.generate_embedding valves user_message st = (Ret v1, s1) ->
        HyDE.generate_hypothetical_answer valves user_message s1
        = (Ret answer, s2) ->
        HyDE.generate_embedding valves answer s2 = (Ret v2, s3) ->
        collection_search [v1; v2] HyDE.search_params 5 (world s3)
        = (Ret [], w2) ->
        fst (HyDE.retrieve_relevant_information valves user_message st)
        = Raise out_of_range)
  /\ (forall (valves : Supervised.Valves) (user_message : pystr)
             (st : St World) v st1 w2,
        Supervised.generate_embedding valves user_message st = (Ret v, st1) ->
        collection_search [v] Supervised.search_params 10 (world st1)
        = (Ret [], w2) ->
        fst (Supervised.retrieve_relevant_information valves true
               user_message st) = Ret []).
Proof.
  split; [| split].
  - intros valves um id msgs w t b v st1 w2 Eg Es.
    assert (Er : fst (RAGpipeline.retrieve_relevant_information valves um
                        (mkSt w t b)) = Raise out_of_range).
    { unfold RAGpipeline.retrieve_relevant_information.
      unfold bind at 1. rewrite Eg. unfold_machine. now rewrite Es. }
    split; [exact Er |].
    destruct (base_augment_run valves um w) as (r & w' & evs & _ & Hr & Ha).
    rewrite Hr in Er. cbn [fst] in Er. subst r.
    rewrite base_pipe_unfold. now rewrite (Ha t b).
  - intros valves um st v1 s1 answer s2 v2 s3 w2 E1 E2 E3 Es.
    unfold HyDE.retrieve_relevant_information.
    unfold bind at 1. rewrite E1. unfold bind at 1. rewrite E2.
    unfold bind at 1. rewrite E3. unfold_machine. now rewrite Es.
  - intros valves um st v st1 w2 Eg Es.
    unfold Supervised.retrieve_relevant_information.
    unfold bind at 1. rewrite Eg.
    unfold Supervised.self_collection_search. unfold_machine.
    now rewrite Es.
Qed.
End EmptyResults.

(** X10, witness: a store that answers every search with the empty
    list. *)
Lemma X10_empty_result_set_witness :
  fst (@RAGpipeline.pipe nat (Scenario.services Scenario2.healthy_ingestion)
         RAGpipeline.default_valves (u "What is X?") (u "rag") []
         (mkSt 0 [] Scenario.a_body))
  = Raise out_of_range.
Proof.
  destruct (@X10_empty_result_set nat
              (Scenario.services Scenario2.healthy_ingestion)) as (Hbase & _).
  refine (proj2 (Hbase RAGpipeline.default_valves (u "What is X?") (u "rag")
                   [] 0 [] Scenario.a_body _ _ 1 eq_refl _)).
  vm_compute. reflexivity.
Defined.

(** ** The hypothetical answer *)

Section HypotheticalAnswer.
Context {World : Type} `{Services World}.
Variable valves : HyDE.Valves.

Lemma hyde_generate_embedding_run (text : pystr) (w : World) :
  exists v w',
    forall t b,
      HyDE.generate_embedding valves text (mkSt w t b)
      = (Ret v,
         mkSt w'
           (t ++ [EvPost (HyDE.OLLAMA_HOST valves ++ u "/api/embeddings")
                    (PDict [(u "model", PStr (HyDE.EMBEDDING_MODEL valves));
                            (u "prompt", PStr text);
                            (u "output_dim", PInt 1024)])
                    false])
           b).
Proof.
  unfold HyDE.generate_embedding. unfold_machine. cbn [world trace body].
  split_answer;
    [destruct (raise_for_status resp); cbn;
       [| destruct (json resp) as [j|]; cbn;
          [destruct (py_get j (u "embedding") (PList [])) as [emb|]; cbn |]] |];
    do 2 eexists; intros; reflexivity.
Qed.

Lemma hypothetical_answer_fails (user_message : pystr) (st : St World)
    (e : exn) :
  let rq := hypothetical_answer_request valves user_message in
  request_raises (fst (requests_post (fst rq) (snd rq) false (world st))) e ->
  HyDE.generate_hypothetical_answer valves user_message st
  = (Raise e,
     mkSt (snd (requests_post (fst rq) (snd rq) false (world st)))
       (trace st ++ [EvPost (fst rq) (snd rq) false]) (body st)).
Proof.
  cbv zeta. unfold hypothetical_answer_request. cbn [fst snd].
  unfold HyDE.generate_hypothetical_answer. unfold_machine.
  destruct (requests_post _ _ false (world st)) as [[resp | e'] w'];
    cbn [fst snd].
  - intros [E | (resp' & [= <-] & Es)]; [discriminate |].
    now rewrite Es.
  - intros [[= <-] | (resp' & E & _)]; [reflexivity | discriminate].
Qed.

(** X11. The request for the hypothetical answer has no handler: when
    it fails, the exception leaves the retrieval of
    [pipelinewithHYDE.py] and [pipe] itself, and the store is not
    searched. *)
Theorem X11_hyde_needs_the_hypothetical_answer
    (user_message model_id : pystr) (messages : list pyval)
    (w : World) (t : list event) (b : pydict)
    (v1 : pyval) (s1 : St World) (e : exn) :
  let rq := hypothetical_answer_request valves user_message in
  HyDE.generate_embedding valves user_message (mkSt w t b) = (Ret v1, s1) ->
  request_raises (fst (requests_post (fst rq) (snd rq) false (world s1))) e ->
  fst (HyDE.retrieve_relevant_information valves user_message (mkSt w t b))
  = Raise e
  /\ fst (HyDE.pipe valves user_message model_id messages (mkSt w t b))
     = Raise e
  /\ searches (trace (snd (HyDE.pipe valves user_message model_id messages
                             (mkSt w t b))))
     = searches t.
Proof.
  cbv zeta. intros Eg Hf.
  destruct (hyde_generate_embedding_run user_message w) as (v & w1 & Hg).
  rewrite Hg in Eg. injection Eg as <- <-. cbn [world] in Hf.
  assert (Er : forall t' b',
             HyDE.retrieve_relevant_information valves user_message
               (mkSt w t' b')
             = (Raise e,
                mkSt (snd (requests_post
                             (fst (hypothetical_answer_request valves
                                     user_message))
                             (snd (hypothetical_answer_request valves
                                     user_message))
                             false w1))
                  ((t' ++ [EvPost (HyDE.OLLAMA_HOST valves
                                     ++ u "/api/embeddings")
                             (PDict [(u "model",
                                      PStr (HyDE.EMBEDDING_MODEL valves));
                                     (u "prompt", PStr user_message);
                                     (u "output_dim", PInt 1024)])
                             false])
                   ++ [EvPost (fst (hypothetical_answer_request valves
                                      user_message))
                         (snd (hypothetical_answer_request valves
                                 user_message))
                         false])
                  b')).
  { intros t' b'. unfold HyDE.retrieve_relevant_information.
    unfold bind at 1. rewrite Hg. unfold bind at 1.
    now rewrite (@hypothetical_answer_fails user_message
                   (mkSt w1 _ b') e Hf). }
  split; [now rewrite Er |].
  assert (Ep : HyDE.pipe valves user_message model_id messages (mkSt w t b)
               = (Raise e,
                  snd (HyDE.retrieve_relevant_information valves user_message
                         (mkSt w t (dict_set b (u "messages") (PList [])))))).
  { unfold HyDE.pipe, HyDE.augment, clear_messages.
    unfold bind at 1. unfold bind at 1. unfold bind at 1.
    unfold get_body at 1. cbn [body]. unfold set_body at 1.
    cbn [world trace]. unfold bind at 1. now rewrite Er. }
  rewrite Ep. split; [reflexivity |].
  cbn [snd]. rewrite Er. cbn [snd trace]. unfold searches.
  rewrite !filter_app. cbn [filter app]. now rewrite !app_nil_r.
Qed.
End HypotheticalAnswer.

(** The completion service alone is down. *)
Lemma X11_hyde_needs_the_hypothetical_answer_witness :
  fst (@HyDE.pipe nat (Scenario.services Scenario2.completions_down)
         HyDE.default_valves (u "What is X?") (u "rag") []
         (mkSt 0 [] Scenario.a_body))
  = Raise (mkExn ConnectionError (u "connection refused")).
Proof.
  refine (proj1 (proj2
    (@X11_hyde_needs_the_hypothetical_answer nat
       (Scenario.services Scenario2.completions_down) HyDE.default_valves
       (u "What is X?") (u "rag") [] 0 [] Scenario.a_body _ _
       (mkExn ConnectionError (u "connection refused")) eq_refl _))).
  left. vm_compute. reflexivity.
Defined.

(** ** Trimmed completions *)

Lemma lstrip_split (s : pystr) :
  exists sp, s = sp ++ lstrip s /\ forallb isspace sp = true.
Proof.
  induction s as [|c r (sp & E & Hsp)]; cbn [lstrip].
  - now exists [].
  - destruct (isspace c) eqn:Ec.
    + exists (c :: sp). cbn. rewrite Ec, Hsp. split; [now f_equal | reflexivity].
    + now exists [].
Qed.

(** [str.strip] takes white space off both ends, and nothing else. *)
Lemma strip_trimming (s : pystr) : trimming_of s (strip s).
Proof.
  destruct (lstrip_split s) as (sp1 & E1 & H1).
  destruct (lstrip_split (rev (lstrip s))) as (sp2 & E2 & H2).
  assert (Ea : lstrip s = strip s ++ rev sp2).
  { unfold strip, rstrip. rewrite <- rev_app_distr, <- E2.
    now rewrite rev_involutive. }
  split; [split |].
  - intros c r Es.
    destruct (lstrip_head s) as [En | (c' & r' & Ec & Hc)].
    + rewrite En in Ea. rewrite Es in Ea. discriminate.
    + rewrite Ec, Es in Ea. now injection Ea as -> _.
  - intros c r Es. unfold strip, rstrip in Es. rewrite rev_involutive in Es.
    destruct (lstrip_head (rev (lstrip s))) as [En | (c' & r' & Ec & Hc)].
    + rewrite En in Es. discriminate.
    + rewrite Ec in Es. now injection Es as <- _.
  - exists sp1, (rev sp2). split; [now rewrite <- Ea |].
    split; [exact H1 | now rewrite forallb_rev].
Qed.

Section TrimmedCompletions.
Context {World : Type} `{Services World}.
Variable valves : HyDE.Valves.

Lemma completion_text_spec (url : pystr) (payload : pyval) (st : St World)
    (a : pystr) (st' : St World) :
  (response <- post url payload false ;;
   check_status response ;;;
   j <- lift (json response) ;;
   choices <- lift (py_get j (u "choices") (PList [PDict []])) ;;
   choice <- lift (py_getitem0 choices) ;;
   text <- lift (py_get choice (u "text") (PStr [])) ;;
   lift (py_strip text)) st = (Ret a, st') ->
  st' = mkSt (snd (requests_post url payload false (world st)))
          (trace st ++ [EvPost url payload false]) (body st)
  /\ exists resp text,
       fst (requests_post url payload false (world st)) = Ret resp
       /\ raise_for_status resp = None
       /\ response_text resp = Ret (PStr text)
       /\ trimming_of text a.
Proof.
  unfold_machine. unfold response_text.
  destruct (requests_post url payload false (world st)) as [[resp | e] w];
    cbn [fst snd]; [| discriminate].
  destruct (raise_for_status resp) as [e |] eqn:Es; cbn; [discriminate |].
  destruct (json resp) as [j | e] eqn:Ej; cbn; [| discriminate].
  destruct (py_get j (u "choices") (PList [PDict []])) as [choices | e] eqn:Ec;
    cbn; [| discriminate].
  destruct (py_getitem0 choices) as [choice | e] eqn:E0; cbn; [| discriminate].
  destruct (py_get choice (u "text") (PStr [])) as [text | e] eqn:Et; cbn;
    [| discriminate].
  destruct text as [ | | | | text | | ]; cbn; try discriminate.
  intros [= <- <-]. split; [reflexivity |].
  exists resp, text.
  split; [reflexivity | split; [exact Es | split]].
  { rewrite Ej. cbn. rewrite Ec. cbn. rewrite E0. cbn. exact Et. }
  apply strip_trimming.
Qed.

(** X12. What [generate_hypothetical_answer] and
    [generate_hypothetical_question] return is the text of the first
    choice of a successful completion with the white space around it
    taken off, and nothing else: it neither begins nor ends with white
    space, and each of them makes the one request. *)
Theorem X12_hypothetical_text_is_trimmed
    (text : pystr) (st : St World) (a : pystr) (st' : St World) :
  (HyDE.generate_hypothetical_answer valves text st = (Ret a, st') ->
   let rq := hypothetical_answer_request valves text in
   trace st' = trace st ++ [EvPost (fst rq) (snd rq) false]
   /\ exists resp completion,
        fst (requests_post (fst rq) (snd rq) false (world st)) = Ret resp
        /\ raise_for_status resp = None
        /\ response_text resp = Ret (PStr completion)
        /\ trimming_of completion a)
  /\ (HyDE.generate_hypothetical_question valves text st = (Ret a, st') ->
      let rq := hypothetical_question_request valves text in
      trace st' = trace st ++ [EvPost (fst rq) (snd rq) false]
      /\ exists resp completion,
           fst (requests_post (fst rq) (snd rq) false (world st)) = Ret resp
           /\ raise_for_status resp = None
           /\ response_text resp = Ret (PStr completion)
           /\ trimming_of completion a).
Proof.
  split; intros E; cbv zeta;
    apply completion_text_spec in E as (-> & Hr); (split; [reflexivity |]);
    exact Hr.
Qed.
End TrimmedCompletions.

(** X12, witness: the completion [ guess ] gives the hypothetical
    answer [guess]. *)
Lemma X12_hypothetical_text_is_trimmed_witness :
  exists st',
    @HyDE.generate_hypothetical_answer nat
      (Scenario.services Scenario.store_two_lists) HyDE.default_valves
      (u "What is X?") (Scenario.start []) = (Ret (u "guess"), st')
    /\ trimmed (u "guess").
Proof.
  pose (run := @HyDE.generate_hypothetical_answer nat
                 (Scenario.services Scenario.store_two_lists)
                 HyDE.default_valves (u "What is X?") (Scenario.start [])).
  assert (E : run = (Ret (u "guess"), snd run)) by (vm_compute; reflexivity).
  exists (snd run). split; [exact E |].
  destruct (proj1 (@X12_hypothetical_text_is_trimmed nat
                     (Scenario.services Scenario.store_two_lists)
                     HyDE.default_valves (u "What is X?") (Scenario.start [])
                     (u "guess") (snd run)) E)
    as (_ & resp & completion & _ & _ & _ & (Ht & _)).
  exact Ht.
Defined.

(** ** The supervisor out of reach *)

Section SupervisorDown.
Context {World : Type} `{Services World}.
Variable valves : Supervised.Valves.
Variable has_collection : bool.

(** The verdict of a pass is that of [supervise_answer] on the answer
    of the pass. *)
Lemma attempt_verdict (user_message : pystr) (st : St World)
    (answer : pystr) (verdict : bool) (st' : St World) :
  Supervised.attempt valves user_message st = (Ret (answer, verdict), st') ->
  exists st1,
    Supervised.supervise_answer valves user_message answer st1
    = (Ret verdict, st').
Proof.
  unfold Supervised.attempt. unfold_machine. split_answer; [| discriminate].
  destruct (raise_for_status resp) as [e |]; cbn; [discriminate |].
  destruct (Supervised.consume_lines (iter_lines resp) (iter_error resp) [])
    as [a | e]; cbn; [| discriminate].
  match goal with
  | |- context [Supervised.supervise_answer valves user_message a ?s] =>
    destruct (Supervised.supervise_answer valves user_message a s)
      as [[v | e] s'] eqn:E'
  end; [| discriminate].
  intros [= <- <- <-]. eexists. exact E'.
Qed.

Lemma no_approval_without_supervisor (user_message : pystr) (st : St World)
    (answer : pystr) (st' : St World) :
  (forall payload w,
      request_failed
        (fst (requests_post
                (Supervised.OLLAMA_HOST valves ++ u "/v1/completions")
                payload false w))) ->
  Supervised.attempt valves user_message st <> (Ret (answer, true), st').
Proof.
  intros Hdown Ea. apply attempt_verdict in Ea as (st1 & Es).
  destruct (supervise_answer_spec valves user_message answer st1)
    as (verdict & st2 & Es' & _ & _ & Happ).
  rewrite Es in Es'. injection Es' as <- _.
  destruct (approves_rejections Happ) as (_ & Hf & _).
  specialize (Hf (Hdown _ _)). discriminate.
Qed.

(** X13. While every request to the supervision model fails, no answer
    is ever approved: a call to [pipe] whose first half returned either
    spends the five passes, with five generation requests, and returns
    the exhaustion message, or ends with the error string of a pass
    that raised. *)
Theorem X13_no_answer_without_supervisor
    (user_message model_id : pystr) (messages : list pyval)
    (st st1 : St World) :
  (forall payload w,
      request_failed
        (fst (requests_post
                (Supervised.OLLAMA_HOST valves ++ u "/v1/completions")
                payload false w))) ->
  Supervised.augment valves has_collection user_message st = (Ret tt, st1) ->
  let run := Supervised.pipe valves has_collection user_message model_id
               messages st in
  (fst run = Ret (Value (PStr Supervised.exhausted_message))
   /\ rejected valves user_message 5 st1 (snd run)
   /\ generation_calls valves (trace (snd run))
      = generation_calls valves (trace st) + 5)
  \/ (exists k e st2,
         k < 5 /\ rejected valves user_message k st1 st2
         /\ Supervised.attempt valves user_message st2 = (Raise e, snd run)
         /\ fst run
            = Ret (Value (PStr ((if is_RequestException e
                                 then u "请求出错: " else u "其他错误: ")
                                ++ exn_str e)))).
Proof.
  intros Hdown Ea. cbv zeta. rewrite supervised_pipe_unfold, Ea.
  destruct (Supervised.generation_loop valves Supervised.max_retries
              user_message st1) as [r st'] eqn:El.
  destruct (generation_loop_ends valves user_message _ _ El)
    as [(-> & Hrej) | [(k & a & st2 & _ & _ & Hat & _)
                      | (k & e & st2 & Hk & Hrej & Hat & ->)]].
  - left. cbn [fst snd]. split; [reflexivity |]. split; [exact Hrej |].
    destruct (rejected_spec Hrej) as (_ & Hc & _).
    rewrite Hc.
    now rewrite (@augment_calls World H valves has_collection
                   user_message st (Ret tt) st1 Ea).
  - exfalso. exact (@no_approval_without_supervisor _ _ _ _ Hdown Hat).
  - right. exists k, e, st2. cbn [fst snd]. auto.
Qed.
End SupervisorDown.

(** X13, witness: the completion service alone is down; the call ends
    on the exhaustion message after five generation requests. *)
Lemma X13_no_answer_without_supervisor_witness :
  let run :=
    @Supervised.pipe nat (Scenario.services Scenario2.completions_down)
      Supervised.default_valves true (u "What is X?") (u "rag") []
      (Scenario.start Scenario.a_body) in
  fst run = Ret (Value (PStr Supervised.exhausted_message))
  /\ generation_calls Supervised.default_valves (trace (snd run)) = 5.
Proof.
  cbv zeta.
  pose (st1 := snd (@Supervised.augment nat
                      (Scenario.services Scenario2.completions_down)
                      Supervised.default_valves true (u "What is X?")
                      (Scenario.start Scenario.a_body))).
  assert (Ea : @Supervised.augment nat
                 (Scenario.services Scenario2.completions_down)
                 Supervised.default_valves true (u "What is X?")
                 (Scenario.start Scenario.a_body) = (Ret tt, st1))
    by (vm_compute; reflexivity).
  destruct (@X13_no_answer_without_supervisor nat
              (Scenario.services Scenario2.completions_down)
              Supervised.default_valves true (u "What is X?") (u "rag") []
              (Scenario.start Scenario.a_body) st1
              (fun payload w => I) Ea)
    as [(Hr & _ & Hc) | (k & e & st2 & _ & _ & _ & Hr)].
  - exact (conj Hr Hc).
  - exfalso. destruct (is_RequestException e); vm_compute in Hr;
      discriminate Hr.
Defined.

(** ** Embeddings that are not checked *)

Section UncheckedEmbedding.
Context {World : Type} `{Services World}.

(** X14. [generate_embedding] of [RAGpipeline.py] and of
    [pipelinewithHYDE.py] returns what a successful response holds
    under [embedding], whatever its length or its type, and the
    retrieval of [RAGpipeline.py] gives that value to the store as the
    query vector. *)
Theorem X14_embedding_is_not_checked :
  (forall (valves : RAGpipeline.Valves) (text : pystr) (st : St World)
          (resp : Response) (emb : pyval),
      let url := RAGpipeline.OLLAMA_HOST valves ++ u "/api/embeddings" in
      let payload :=
        PDict [(u "model", PStr (RAGpipeline.EMBEDDING_MODEL valves));
               (u "prompt", PStr text)] in
      fst (requests_post url payload false (world st)) = Ret resp ->
      raise_for_status resp = None ->
      response_embedding resp = Ret emb ->
      fst (RAGpipeline.generate_embedding valves text st) = Ret emb
      /\ trace (snd (RAGpipeline.retrieve_relevant_information valves text st))
         = trace st ++ [EvPost url payload false;
                        EvSearch [emb] RAGpipeline.search_params 5])
  /\ (forall (valves : HyDE.Valves) (text : pystr) (st : St World)
             (resp : Response) (emb : pyval),
        let url := HyDE.OLLAMA_HOST valves ++ u "/api/embeddings" in
        let payload :=
          PDict [(u "model", PStr (HyDE.EMBEDDING_MODEL valves));
                 (u "prompt", PStr text); (u "output_dim", PInt 1024)] in
        fst (requests_post url payload false (world st)) = Ret resp ->
        raise_for_status resp = None ->
        response_embedding resp = Ret emb ->
        fst (HyDE.generate_embedding valves text st) = Ret emb).
Proof.
  split.
  - intros valves text st resp emb url payload Ep Es Ee.
    assert (Eg : RAGpipeline.generate_embedding valves text st
                 = (Ret emb,
                    mkSt (snd (requests_post url payload false (world st)))
                      (trace st ++ [EvPost url payload false]) (body st))).
    { unfold RAGpipeline.generate_embedding. unfold_machine.
      fold url. fold payload.
      destruct (requests_post url payload false (world st)) as [r w].
      cbn [fst snd] in *. subst r. rewrite Es. cbn.
      unfold response_embedding in Ee.
      destruct (json resp) as [j | e]; cbn in *; [| discriminate].
      now rewrite Ee. }
    split; [now rewrite Eg |].
    unfold RAGpipeline.retrieve_relevant_information.
    unfold bind at 1. rewrite Eg. unfold_machine. cbn [world trace body].
    destruct (collection_search [emb] RAGpipeline.search_params 5 _)
      as [[results | e] w]; cbn.
    + destruct (list_getitem0 results); cbn; now rewrite <- app_assoc.
    + now rewrite <- app_assoc.
  - intros valves text st resp emb url payload Ep Es Ee.
    unfold HyDE.generate_embedding. unfold_machine.
    fold url. fold payload.
    destruct (requests_post url payload false (world st)) as [r w].
    cbn [fst snd] in *. subst r. rewrite Es. cbn.
    unfold response_embedding in Ee.
    destruct (json resp) as [j | e]; cbn in *; [| discriminate].
    now rewrite Ee.
Qed.
End UncheckedEmbedding.

(** X14, witness: the service answers with three numbers, and the base
    pipeline, whose fallback has 512, searches with them. *)
Lemma X14_embedding_is_not_checked_witness :
  fst (@RAGpipeline.generate_embedding nat
         (Scenario.services Scenario.store_two_lists)
         RAGpipeline.default_valves (u "What is X?") (Scenario.start []))
  = Ret (PList [PFloat Scenario.one; PFloat Scenario.one; PFloat Scenario.one]).
Proof.
  destruct (@X14_embedding_is_not_checked nat
              (Scenario.services Scenario.store_two_lists)) as (Hbase & _).
  refine (proj1 (Hbase RAGpipeline.default_valves (u "What is X?")
                   (Scenario.start []) _ _ eq_refl eq_refl eq_refl)).
Defined.

(** ** The supervised pipeline without a collection *)

Section WithoutCollection.
Context {World : Type} `{Services World}.
Variable valves : Supervised.Valves.

(** X15. When [connect_to_milvus] failed at start-up, so that the
    instance has no [collection], the retrieval of
    [pipelinewithsupervision.py] still asks for the embedding, makes no
    search and returns no context, and the one turn that [pipe] leaves
    in [body] is the prompt built with no context. *)
Theorem X15_supervised_without_collection
    (user_message model_id : pystr) (messages : list pyval)
    (w : World) (t : list event) (b : pydict) :
  let url := Supervised.OLLAMA_HOST valves ++ u "/api/embeddings" in
  let payload :=
    PDict [(u "model", PStr (Supervised.EMBEDDING_MODEL valves));
           (u "prompt", PStr user_message); (u "output_dim", PInt 1024)] in
  let found :=
    Supervised.retrieve_relevant_information valves false user_message
      (mkSt w t b) in
  fst found = Ret []
  /\ trace (snd found) = t ++ [EvPost url payload false]
  /\ dict_lookup
       (body (snd (Supervised.pipe valves false user_message model_id
                     messages (mkSt w t b))))
       (u "messages")
     = Some (PList [user_turn
                      (Supervised.combine_user_message_with_context valves
                         user_message [])]).
Proof.
  cbv zeta.
  assert (Er : forall st,
             exists st',
               Supervised.retrieve_relevant_information valves false
                 user_message st = (Ret [], st')
               /\ trace st'
                  = trace st
                    ++ [EvPost
                          (Supervised.OLLAMA_HOST valves ++ u "/api/embeddings")
                          (PDict [(u "model",
                                   PStr (Supervised.EMBEDDING_MODEL valves));
                                  (u "prompt", PStr user_message);
                                  (u "output_dim", PInt 1024)])
                          false]).
  { intros st.
    destruct (supervised_generate_embedding_spec valves user_message st)
      as (v & st' & Eg & _ & Ht & _).
    exists st'. split; [| exact Ht].
    unfold Supervised.retrieve_relevant_information.
    unfold bind at 1. rewrite Eg. reflexivity. }
  destruct (Er (mkSt w t b)) as (st' & E & Ht). rewrite E. cbn [fst snd].
  split; [reflexivity |]. split; [exact Ht |].
  destruct (supervised_pipe_fresh valves false user_message model_id
              messages w) as (ctx & Ec & Hp).
  destruct (Er (mkSt w [] [])) as (st0 & E0 & _).
  rewrite E0 in Ec. injection Ec as <-.
  exact (proj1 (Hp t b)).
Qed.
End WithoutCollection.
